(** * wapugotchi_feed: reconciliation and feed rebuild

    A shallow embedding of the Go packages [app/feed] (provider adapters)
    and [app/cmd] (entry reconciliation, feed building, the update run),
    with the properties of the specification stated over it.

    Go strings are byte strings and are modelled by [string]; maps by
    [gmap]; slices by [list]; a function that returns [(T, error)] by
    [result T].  Pointer arguments ([*[]Entry], [*State]) become explicit
    state passing. *)

From Stdlib Require Import ZArith Ascii String List Lia Bool.
From Stdlib Require Import Sorting.Sorted Sorting.Permutation.
From stdpp Require Import base option list sorting strings gmap.

Local Open Scope Z_scope.

(** ** Go values shared by both packages *)

Definition error := string.

Inductive result (A : Type) : Type :=
| Ok (a : A)
| Err (e : error).
Arguments Ok {A} a.
Arguments Err {A} e.

(** ** The [strings] package

    Strings are byte strings.  [TrimSpace] removes from both ends the
    white space runes of [unicode.IsSpace] in their UTF-8 encoding; the
    case mapping of [ToLower] is the one of ASCII, other bytes are left as
    they are. *)

Module strings.

(** Tab, line feed, vertical tab, form feed, carriage return and space. *)
Definition isSpace (c : ascii) : bool :=
  let n := N_of_ascii c in
  ((9 <=? n) && (n <=? 13))%N || (n =? 32)%N.

(** U+0085 and U+00A0 in two bytes. *)
Definition isSpace2 (a b : ascii) : bool :=
  let x := N_of_ascii a in
  let y := N_of_ascii b in
  ((x =? 194) && ((y =? 133) || (y =? 160)))%N.

(** U+1680, U+2000 to U+200A, U+2028, U+2029, U+202F, U+205F and U+3000
    in three bytes. *)
Definition isSpace3 (a b c : ascii) : bool :=
  let x := N_of_ascii a in
  let y := N_of_ascii b in
  let z := N_of_ascii c in
  (((x =? 225) && (y =? 154) && (z =? 128))
   || ((x =? 226) && (y =? 128)
       && (((128 <=? z) && (z <=? 138)) || (z =? 168) || (z =? 169) || (z =? 175)))
   || ((x =? 226) && (y =? 129) && (z =? 159))
   || ((x =? 227) && (y =? 128) && (z =? 128)))%N.

(** The bytes after the white space runes at the head. *)
Fixpoint trimLeft (s : list ascii) : list ascii :=
  match s with
  | [] => []
  | a :: r =>
      if isSpace a then trimLeft r
      else
        match r with
        | [] => s
        | b :: r2 =>
            if isSpace2 a b then trimLeft r2
            else
              match r2 with
              | [] => s
              | c :: r3 => if isSpace3 a b c then trimLeft r3 else s
              end
        end
  end.

(** The same from the end, on the reversed text: a rune's last byte
    comes first. *)
Fixpoint trimLeftRev (s : list ascii) : list ascii :=
  match s with
  | [] => []
  | a :: r =>
      if isSpace a then trimLeftRev r
      else
        match r with
        | [] => s
        | b :: r2 =>
            if isSpace2 b a then trimLeftRev r2
            else
              match r2 with
              | [] => s
              | c :: r3 => if isSpace3 c b a then trimLeftRev r3 else s
              end
        end
  end.

Definition trimRight (s : list ascii) : list ascii := rev (trimLeftRev (rev s)).

Definition TrimSpace (s : string) : string :=
  String.string_of_list_ascii (trimRight (trimLeft (String.list_ascii_of_string s))).

Definition isEmpty (s : string) : bool :=
  match s with EmptyString => true | _ => false end.

Fixpoint HasPrefix (s prefix : string) : bool :=
  match prefix, s with
  | EmptyString, _ => true
  | String p ps, String c cs => Ascii.eqb p c && HasPrefix cs ps
  | String _ _, EmptyString => false
  end.

(** [strings.Index]: byte offset of the first occurrence, [-1] if none. *)
Fixpoint Index (s sub : string) : Z :=
  if HasPrefix s sub then 0
  else match s with
       | EmptyString => -1
       | String _ s' => let i := Index s' sub in if i <? 0 then -1 else i + 1
       end.

Definition Contains (s sub : string) : bool := 0 <=? Index s sub.

Definition HasSuffix (s suffix : string) : bool :=
  HasPrefix (String.rev s) (String.rev suffix).

(** [strings.ToLower] on ASCII text, where it lowers the letters [A] to
    [Z] and leaves every other byte.  On text with other runes Go also
    lowers letters beyond ASCII (and replaces bytes that are not UTF-8),
    which this definition does not follow: it leaves those bytes. *)
Definition lowerByte (c : ascii) : ascii :=
  let n := N_of_ascii c in
  if ((65 <=? n) && (n <=? 90))%N then ascii_of_N (n + 32) else c.

Fixpoint ToLower (s : string) : string :=
  match s with
  | EmptyString => EmptyString
  | String c s' => String (lowerByte c) (ToLower s')
  end.

(** [s[:n]] and [s[n:]] for [0 <= n <= len(s)]. *)
Definition sliceTo (s : string) (n : Z) : string := String.substring 0 (Z.to_nat n) s.
Definition sliceFrom (s : string) (n : Z) : string :=
  String.substring (Z.to_nat n) (String.length s - Z.to_nat n) s.

End strings.

(** ** The [time] package: instants, the RFC 3339 layout, formatting in UTC

    Only what the program uses: [time.Parse(time.RFC3339, _)], and
    [t.UTC().Format(_)] for the layouts [time.RFC3339] and
    [time.RFC1123Z].  An instant is a number of seconds since the Unix
    epoch and a nanosecond part; the location is dropped because every
    value is converted with [UTC()] before it is printed. *)

Module time.

Record Time : Type := mkTime { unixSec : Z; nsec : Z }.

Definition before (t u : Time) : bool :=
  (unixSec t <? unixSec u) || ((unixSec t =? unixSec u) && (nsec t <? nsec u)).

Definition isLeap (y : Z) : bool :=
  (y mod 4 =? 0) && (negb (y mod 100 =? 0) || (y mod 400 =? 0)).

Definition daysIn (m y : Z) : Z :=
  if m =? 2 then (if isLeap y then 29 else 28)
  else if (m =? 4) || (m =? 6) || (m =? 9) || (m =? 11) then 30 else 31.

(** Days of the year before the first of month [m]. *)
Definition daysBefore (m y : Z) : Z :=
  nth (Z.to_nat (m - 1)) [0; 31; 59; 90; 120; 151; 181; 212; 243; 273; 304; 334] 0
  + (if (2 <? m) && isLeap y then 1 else 0).

(** Days from 0001-01-01 to the first of January of year [y]. *)
Definition daysBeforeYear (y : Z) : Z :=
  let p := y - 1 in 365 * p + p / 4 - p / 100 + p / 400.

Definition unixDays (y m d : Z) : Z :=
  daysBeforeYear y + daysBefore m y + (d - 1) - daysBeforeYear 1970.

(** [time.Date(y, m, d, hh, mm, ss, ns, time.UTC)] for fields in range. *)
Definition Date (y m d hh mm ss ns : Z) : Time :=
  mkTime (unixDays y m d * 86400 + hh * 3600 + mm * 60 + ss) ns.

(** *** Parsing *)

Definition digitVal (c : ascii) : option Z :=
  let n := Z.of_N (N_of_ascii c) in
  if (48 <=? n) && (n <=? 57) then Some (n - 48) else None.

(** [getnum]: a one or two digit number; two digits are required when
    [fixed]. *)
Definition getnum (s : string) (fixed : bool) : option (Z * string) :=
  match s with
  | String a s1 =>
      d1 ← digitVal a;
      match s1 with
      | String b s2 =>
          match digitVal b with
          | Some d2 => Some (d1 * 10 + d2, s2)
          | None => if fixed then None else Some (d1, s1)
          end
      | EmptyString => if fixed then None else Some (d1, s1)
      end
  | EmptyString => None
  end.

(** The four digit year of the layout element [2006]. *)
Definition getyear (s : string) : option (Z * string) :=
  match s with
  | String a (String b (String c (String d rest))) =>
      x1 ← digitVal a; x2 ← digitVal b; x3 ← digitVal c; x4 ← digitVal d;
      Some (((x1 * 10 + x2) * 10 + x3) * 10 + x4, rest)
  | _ => None
  end.

(** A literal byte of the layout. *)
Definition skip (c : ascii) (s : string) : option string :=
  match s with
  | String a rest => if Ascii.eqb a c then Some rest else None
  | EmptyString => None
  end.

(** The digits at the head of [s], at most [fuel] of them kept as a
    number scaled to nine places (the rest are dropped), and the text
    after all the digits. *)
Fixpoint fracDigits (s : string) (places : nat) (acc : Z) : Z * string :=
  match s with
  | String a rest =>
      match digitVal a with
      | Some d =>
          match places with
          | O => fracDigits rest O acc
          | S p => fracDigits rest p (acc + d * 10 ^ Z.of_nat p)
          end
      | None => (acc, s)
      end
  | EmptyString => (acc, s)
  end.

(** Fractional seconds that follow the seconds field although the layout
    has none: a period or comma followed by at least one digit. *)
Definition getfrac (s : string) : Z * string :=
  match s with
  | String p (String a rest) =>
      if (Ascii.eqb p "." || Ascii.eqb p ",") && bool_decide (is_Some (digitVal a))
      then fracDigits (String a rest) 9 0
      else (0, s)
  | _ => (0, s)
  end.

(** The layout element [Z07:00]: either [Z], or a sign, two digits, a
    colon and two digits.  The result is the offset east of UTC in seconds. *)
Definition getzone (s : string) : option (Z * string) :=
  match s with
  | String "Z" rest => Some (0, rest)
  | String sg (String h1 (String h2 (String ":" (String m1 (String m2 rest))))) =>
      '(hr, _) ← getnum (String h1 (String h2 "")) true;
      '(mm, _) ← getnum (String m1 (String m2 "")) true;
      if (24 <? hr) || (60 <? mm) then None
      else if Ascii.eqb sg "+" then Some ((hr * 60 + mm) * 60, rest)
      else if Ascii.eqb sg "-" then Some (- ((hr * 60 + mm) * 60), rest)
      else None
  | _ => None
  end.

(** [time.Parse(time.RFC3339, value)], layout [2006-01-02T15:04:05Z07:00]. *)
Definition ParseRFC3339 (value : string) : option Time :=
  '(year, v) ← getyear value;
  v ← skip "-" v;
  '(month, v) ← getnum v true;
  if (month <=? 0) || (12 <? month) then None else
  v ← skip "-" v;
  '(day, v) ← getnum v true;
  v ← skip "T" v;
  '(hour, v) ← getnum v false;
  if 24 <=? hour then None else
  v ← skip ":" v;
  '(min, v) ← getnum v true;
  if 60 <=? min then None else
  v ← skip ":" v;
  '(sec, v) ← getnum v true;
  if 60 <=? sec then None else
  let '(ns, v) := getfrac v in
  '(offset, v) ← getzone v;
  if negb (strings.isEmpty v) then None else
  if (day <? 1) || (daysIn month year <? day) then None else
  Some (mkTime (unixSec (Date year month day hour min sec ns) - offset) ns).

(** *** Formatting in UTC *)

Definition digitChar (d : Z) : ascii := ascii_of_N (Z.to_N (48 + d)).

(** The decimal digits of [n >= 0], most significant first, at least
    [width] of them. *)
Fixpoint digits (width : nat) (n : Z) (acc : string) : string :=
  match width with
  | O => acc
  | S w => digits w (n / 10) (String (digitChar (n mod 10)) acc)
  end.

Fixpoint numDigits (fuel : nat) (n : Z) : nat :=
  match fuel with
  | O => 1
  | S f => if n <? 10 then 1 else S (numDigits f (n / 10))
  end.

(** [appendInt(b, x, width)]: a sign for negative numbers, then the
    magnitude padded with zeros to [width] digits. *)
Definition appendInt (x : Z) (width : nat) : string :=
  let u := Z.abs x in
  let n := Nat.max width (numDigits 20 u) in
  (if x <? 0 then "-" else "") +:+ digits n u "".

(** Civil date of a day number counted from 1970-01-01. *)
Definition civil (days : Z) : Z * Z * Z :=
  let z := days + 719468 in
  let era := z / 146097 in
  let doe := z - era * 146097 in
  let yoe := (doe - doe / 1460 + doe / 36524 - doe / 146096) / 365 in
  let doy := doe - (365 * yoe + yoe / 4 - yoe / 100) in
  let mp := (5 * doy + 2) / 153 in
  let d := doy - (153 * mp + 2) / 5 + 1 in
  let m := if mp <? 10 then mp + 3 else mp - 9 in
  let y := yoe + era * 400 + (if m <=? 2 then 1 else 0) in
  (y, m, d).

Definition shortDayName (days : Z) : string :=
  nth (Z.to_nat ((days + 4) mod 7)) ["Sun"; "Mon"; "Tue"; "Wed"; "Thu"; "Fri"; "Sat"] "".

Definition shortMonthName (m : Z) : string :=
  nth (Z.to_nat (m - 1))
    ["Jan"; "Feb"; "Mar"; "Apr"; "May"; "Jun"; "Jul"; "Aug"; "Sep"; "Oct"; "Nov"; "Dec"] "".

Definition clock (t : Time) : string :=
  let s := unixSec t mod 86400 in
  (appendInt (s / 3600) 2 +:+ ":" +:+ appendInt (s / 60 mod 60) 2 +:+ ":"
     +:+ appendInt (s mod 60) 2).

(** [t.UTC().Format(time.RFC3339)], layout [2006-01-02T15:04:05Z07:00]. *)
Definition FormatRFC3339 (t : Time) : string :=
  let '(y, m, d) := civil (unixSec t / 86400) in
  (appendInt y 4 +:+ "-" +:+ appendInt m 2 +:+ "-" +:+ appendInt d 2 +:+ "T"
     +:+ clock t +:+ "Z").

(** [t.UTC().Format(time.RFC1123Z)], layout [Mon, 02 Jan 2006 15:04:05 -0700]. *)
Definition FormatRFC1123Z (t : Time) : string :=
  let days := unixSec t / 86400 in
  let '(y, m, d) := civil days in
  (shortDayName days +:+ ", " +:+ appendInt d 2 +:+ " " +:+ shortMonthName m +:+ " "
     +:+ appendInt y 4 +:+ " " +:+ clock t +:+ " +0000").

End time.

(** ** The [regexp] package

    A compiled expression is kept as its source text.  Compilation is
    modelled as far as the escape rule of [regexp/syntax] goes: after a
    backslash come a Perl class letter, an anchor or quoting letter, a C
    escape letter, [x], an octal number, or a punctuation byte taken
    literally.  A digit [1]-[7] starts an octal number only when an octal
    digit follows; alone it would be a backreference, which the RE2 syntax
    does not have, and the expression is rejected (invalid escape
    sequence).  The rest of the syntax is taken as well formed.  Matching
    itself belongs to the [World] below. *)

Module regexp.

Record Regexp : Type := mkRegexp { expr : string }.

Definition isOctal (c : ascii) : bool :=
  let n := N_of_ascii c in ((48 <=? n) && (n <=? 55))%N.

Definition isAlnum (c : ascii) : bool :=
  let n := N_of_ascii c in
  (((48 <=? n) && (n <=? 57)) || ((65 <=? n) && (n <=? 90)) || ((97 <=? n) && (n <=? 122)))%N.

Definition escapeLetter (c : ascii) : bool :=
  bool_decide (c ∈ String.list_ascii_of_string "dDsSwWAbBCzQEpPafnrtvx0").

Fixpoint escapesOK (p : string) : bool :=
  match p with
  | EmptyString => true
  | String c rest =>
      if Ascii.eqb c "\" then
        match rest with
        | EmptyString => false
        | String e t =>
            if escapeLetter e then escapesOK t
            else if isOctal e then
              match t with
              | String d _ => isOctal d && escapesOK t
              | EmptyString => false
              end
            else if isAlnum e || (128 <=? N_of_ascii e)%N then false
            else escapesOK t
        end
      else escapesOK rest
  end.

Definition Compile (p : string) : result Regexp :=
  if escapesOK p then Ok (mkRegexp p)
  else Err ("error parsing regexp: invalid escape sequence in `" +:+ p +:+ "`").

(** [regexp.MustCompile] panics when [Compile] fails: [None] is the panic. *)
Definition MustCompile (p : string) : option Regexp :=
  match Compile p with Ok re => Some re | Err _ => None end.

End regexp.

(** ** The [net/http] package: what a response is to [fetchFeed] *)

Module http.
Record Response : Type := mkResponse {
  StatusCode : Z;
  Status : string;
  Body : result string          (* what [io.ReadAll(resp.Body)] gives *)
}.
End http.

(** ** Package [app/feed]: the provider adapters *)

Module feed.

Record Item : Type := mkItem {
  Title : string;
  Link : string;
  GUID : string;
  PubDate : string;
  Description : string;
  Categories : list string
}.

(** The zero value [Item{}]. *)
Definition Item0 : Item := mkItem "" "" "" "" "" [].

(** The decoded XML of the three upstream feeds. *)
Module wordPress.
Record item : Type := mkItem {
  Title : string; Link : string; GUID : string; PubDate : string;
  Description : string; Categories : list string
}.
Record channel : Type := { Items : list item }.
Record feed : Type := { Channel : channel }.
End wordPress.

Module wordPressTV.
Record item : Type := mkItem {
  Title : string; Link : string; GUID : string; PubDate : string;
  Description : string; ContentEncoded : string; Categories : list string
}.
Record channel : Type := { Items : list item }.
Record feed : Type := { Channel : channel }.
End wordPressTV.

Module wordPressCom.
Record item : Type := mkItem {
  Title : string; Link : string; GUID : string; PubDate : string;
  Description : string; ContentEncoded : string; Categories : list string
}.
Record channel : Type := { Items : list item }.
Record feed : Type := { Channel : channel }.
End wordPressCom.

(** The library calls of this package. *)
Record Lib : Type := mkLib {
  (** [xml.Unmarshal(body, &feed)] at the three feed types *)
  unmarshalWordPress : string → result wordPress.feed;
  unmarshalWordPressTV : string → result wordPressTV.feed;
  unmarshalWordPressCom : string → result wordPressCom.feed;
  (** [re.FindString(s)] and [re.ReplaceAllString(src, repl)] *)
  FindString : regexp.Regexp → string → string;
  ReplaceAllString : regexp.Regexp → string → string → string
}.

Definition Fetcher : Type := string → string → result string.

Definition releasesFeedURL : string := "https://wordpress.org/news/category/releases/feed/".
Definition wordpressTVFeedURL : string := "https://wordpress.tv/feed/".
Definition wordpressComFeedURL : string := "https://wordpress.com/blog/feed/".

(** The double quote, which a string literal of this file cannot hold. *)
Definition dq : string := String (ascii_of_nat 34) "".

(** The package level variables, in the order of their declaration. *)
Definition iframePatternSrc : string := "(?is)<iframe\b[^>]*>.*?</iframe>".
Definition iframeWidthPatternSrc : string :=
  "(?i)\swidth\s*=\s*(['" +:+ dq +:+ "]?)[^'" +:+ dq +:+ "\s>]*\1".
Definition iframeHeightPatternSrc : string :=
  "(?i)\sheight\s*=\s*(['" +:+ dq +:+ "]?)[^'" +:+ dq +:+ "\s>]*\1".

Record Vars : Type := mkVars {
  iframePattern : regexp.Regexp;
  iframeWidthPattern : regexp.Regexp;
  iframeHeightPattern : regexp.Regexp
}.

(** Package initialisation: the three [regexp.MustCompile] calls.  [None]
    is a panic, which ends the program before [main] starts. *)
Definition init : option Vars :=
  a ← regexp.MustCompile iframePatternSrc;
  b ← regexp.MustCompile iframeWidthPatternSrc;
  c ← regexp.MustCompile iframeHeightPatternSrc;
  Some (mkVars a b c).

Section adapters.
Variable L : Lib.

Definition LatestReleases (fetch : Fetcher) : result Item :=
  match fetch releasesFeedURL "wordpress releases" with
  | Err e => Err e
  | Ok body =>
      match unmarshalWordPress L body with
      | Err e => Err e
      | Ok f =>
          match wordPress.Items (wordPress.Channel f) with
          | [] => Ok Item0
          | item :: _ =>
              Ok (mkItem (wordPress.Title item) (wordPress.Link item)
                    (wordPress.GUID item) (wordPress.PubDate item)
                    (wordPress.Description item) (wordPress.Categories item))
          end
      end
  end.

Definition normalizeIframe (v : Vars) (value : string) : string :=
  if strings.isEmpty value then ""
  else
    let tagEnd := strings.Index value ">" in
    if tagEnd =? -1 then value
    else
      let openTag := strings.sliceTo value tagEnd in
      let rest := strings.sliceFrom value tagEnd in
      let openTag := ReplaceAllString L (iframeWidthPattern v) openTag "" in
      let openTag := ReplaceAllString L (iframeHeightPattern v) openTag "" in
      let openTag := strings.TrimSpace openTag in
      if negb (strings.HasSuffix openTag "<iframe") && negb (strings.Contains openTag "<iframe")
      then value
      else
        let openTag := openTag +:+ " width=" +:+ dq +:+ "100%" +:+ dq
                               +:+ " height=" +:+ dq +:+ "auto" +:+ dq in
        openTag +:+ rest.

Definition extractFirstIframe (v : Vars) (value : string) : string :=
  let value := strings.TrimSpace value in
  if strings.isEmpty value then ""
  else
    let match_ := FindString L (iframePattern v) value in
    normalizeIframe v (strings.TrimSpace match_).

Definition LatestWordPressTV (v : Vars) (fetch : Fetcher) : result Item :=
  match fetch wordpressTVFeedURL "wordpress tv" with
  | Err e => Err e
  | Ok body =>
      match unmarshalWordPressTV L body with
      | Err e => Err e
      | Ok f =>
          match wordPressTV.Items (wordPressTV.Channel f) with
          | [] => Ok Item0
          | item :: _ =>
              Ok (mkItem (wordPressTV.Title item) (wordPressTV.Link item)
                    (wordPressTV.GUID item) (wordPressTV.PubDate item)
                    (extractFirstIframe v (wordPressTV.ContentEncoded item))
                    (wordPressTV.Categories item))
          end
      end
  end.

Definition LatestWordPressComBlog (fetch : Fetcher) : result Item :=
  match fetch wordpressComFeedURL "wordpress com" with
  | Err e => Err e
  | Ok body =>
      match unmarshalWordPressCom L body with
      | Err e => Err e
      | Ok f =>
          match wordPressCom.Items (wordPressCom.Channel f) with
          | [] => Ok Item0
          | item :: _ =>
              Ok (mkItem (wordPressCom.Title item) (wordPressCom.Link item)
                    (wordPressCom.GUID item) (wordPressCom.PubDate item)
                    (wordPressCom.Description item) (wordPressCom.Categories item))
          end
      end
  end.

End adapters.

Definition pickEncodedOrDescription (encoded description : string) : string :=
  let encoded := strings.TrimSpace encoded in
  if negb (strings.isEmpty encoded) then encoded
  else strings.TrimSpace description.

(** A call of [extractFirstIframe] in a running program: the package has
    been initialised before; [None] is the panic of the initialisation. *)
Definition callExtractFirstIframe (L : Lib) (value : string) : option string :=
  v ← init; Some (extractFirstIframe L v value).

End feed.

(** ** The three expressions under a backtracking reading

    How a matcher with backreferences (PCRE) reads the expressions of
    package [feed], written out by hand for each of them.  Go's [regexp]
    is not such a matcher and rejects two of the three; these functions
    only serve to run [normalizeIframe] the way its expressions are
    meant. *)

Module backtrack.

(** The class of white space: tab, line feed, form feed, carriage return,
    space. *)
Definition reSpace (c : ascii) : bool :=
  let n := N_of_ascii c in
  ((n =? 9) || (n =? 10) || (n =? 12) || (n =? 13) || (n =? 32))%N.

(** The class of word bytes. *)
Definition isWord (c : ascii) : bool := regexp.isAlnum c || Ascii.eqb c "_".

Definition isQuote (c : ascii) : bool :=
  Ascii.eqb c "'" || Ascii.eqb c (ascii_of_nat 34).

Fixpoint dropSpaces (s : string) : string :=
  match s with
  | String c rest => if reSpace c then dropSpaces rest else s
  | EmptyString => s
  end.

(** What follows a longest run of bytes other than quotes, white space
    and [>]. *)
Fixpoint dropValue (s : string) : string :=
  match s with
  | String c rest =>
      if isQuote c || reSpace c || Ascii.eqb c ">" then s else dropValue rest
  | EmptyString => s
  end.

(** A match of [iframePattern] that starts at the head of [s]: the tag
    name in any case, a word boundary, the first [>], and the first
    closing tag after it. *)
Definition iframeAt (s : string) : option string :=
  if strings.HasPrefix (strings.ToLower s) "<iframe" then
    let after := strings.sliceFrom s 7 in
    if match after with String c _ => isWord c | EmptyString => false end then None
    else
      let gt := strings.Index after ">" in
      if gt <? 0 then None
      else
        let body := strings.sliceFrom after (gt + 1) in
        let close := strings.Index (strings.ToLower body) "</iframe>" in
        if close <? 0 then None
        else Some (strings.sliceTo s (7 + gt + 1 + close + 9))
  else None.

(** [FindString]: the leftmost match, or the empty string. *)
Fixpoint findIframe (s : string) : string :=
  match iframeAt s with
  | Some m => m
  | None =>
      match s with
      | String _ rest => findIframe rest
      | EmptyString => ""
      end
  end.

(** What follows a match of the attribute expression at the head of [t],
    the white space before the name having been read: the name in any
    case, an equals sign with white space around it, an optional quote,
    the value, and the same quote again.  A quote that is not closed is
    given back: the group then matches the empty text. *)
Definition attrAt (name t : string) : option string :=
  if strings.HasPrefix (strings.ToLower t) name then
    match dropSpaces (strings.sliceFrom t (Z.of_nat (String.length name))) with
    | String eq t1 =>
        if Ascii.eqb eq "=" then
          let t2 := dropSpaces t1 in
          match t2 with
          | String q v =>
              if isQuote q then
                match dropValue v with
                | String q' rest => if Ascii.eqb q q' then Some rest else Some t2
                | EmptyString => Some t2
                end
              else Some (dropValue t2)
          | EmptyString => Some t2
          end
        else None
    | EmptyString => None
    end
  else None.

(** [ReplaceAllString]: every match, left to right, gives way to [repl]. *)
Fixpoint replaceAttr (fuel : nat) (name s repl : string) : string :=
  match fuel with
  | O => s
  | S f =>
      match s with
      | EmptyString => ""
      | String c rest =>
          if reSpace c then
            match attrAt name rest with
            | Some after => repl +:+ replaceAttr f name after repl
            | None => String c (replaceAttr f name rest repl)
            end
          else String c (replaceAttr f name rest repl)
      end
  end.

End backtrack.

(** ** The [crypto/md5] package (RFC 1321)

    Bytes and 32-bit words are numbers; the additions wrap around at
    [2^32]. *)

Module md5.

Definition mask : Z := 0xffffffff.
Definition add32 (x y : Z) : Z := Z.land (x + y) mask.
Definition not32 (x : Z) : Z := Z.lxor x mask.
Definition rotl (x : Z) (c : Z) : Z :=
  Z.land (Z.lor (Z.shiftl x c) (Z.shiftr x (32 - c))) mask.

Definition table : list Z :=
  [ 0xd76aa478; 0xe8c7b756; 0x242070db; 0xc1bdceee; 0xf57c0faf; 0x4787c62a; 0xa8304613; 0xfd469501;
    0x698098d8; 0x8b44f7af; 0xffff5bb1; 0x895cd7be; 0x6b901122; 0xfd987193; 0xa679438e; 0x49b40821;
    0xf61e2562; 0xc040b340; 0x265e5a51; 0xe9b6c7aa; 0xd62f105d; 0x02441453; 0xd8a1e681; 0xe7d3fbc8;
    0x21e1cde6; 0xc33707d6; 0xf4d50d87; 0x455a14ed; 0xa9e3e905; 0xfcefa3f8; 0x676f02d9; 0x8d2a4c8a;
    0xfffa3942; 0x8771f681; 0x6d9d6122; 0xfde5380c; 0xa4beea44; 0x4bdecfa9; 0xf6bb4b60; 0xbebfbc70;
    0x289b7ec6; 0xeaa127fa; 0xd4ef3085; 0x04881d05; 0xd9d4d039; 0xe6db99e5; 0x1fa27cf8; 0xc4ac5665;
    0xf4292244; 0x432aff97; 0xab9423a7; 0xfc93a039; 0x655b59c3; 0x8f0ccc92; 0xffeff47d; 0x85845dd1;
    0x6fa87e4f; 0xfe2ce6e0; 0xa3014314; 0x4e0811a1; 0xf7537e82; 0xbd3af235; 0x2ad7d2bb; 0xeb86d391 ].

Definition shifts : list Z :=
  [ 7; 12; 17; 22; 7; 12; 17; 22; 7; 12; 17; 22; 7; 12; 17; 22;
    5; 9; 14; 20; 5; 9; 14; 20; 5; 9; 14; 20; 5; 9; 14; 20;
    4; 11; 16; 23; 4; 11; 16; 23; 4; 11; 16; 23; 4; 11; 16; 23;
    6; 10; 15; 21; 6; 10; 15; 21; 6; 10; 15; 21; 6; 10; 15; 21 ].

Record digest : Type := mkDigest { a : Z; b : Z; c : Z; d : Z }.

Definition init : digest := mkDigest 0x67452301 0xefcdab89 0x98badcfe 0x10325476.

(** One of the sixty-four steps on the block [m] of sixteen words. *)
Definition step (m : list Z) (s : digest) (i : Z) : digest :=
  let '(f, g) :=
    if i <? 16 then (Z.lor (Z.land (b s) (c s)) (Z.land (not32 (b s)) (d s)), i)
    else if i <? 32 then (Z.lor (Z.land (d s) (b s)) (Z.land (not32 (d s)) (c s)), (5 * i + 1) mod 16)
    else if i <? 48 then (Z.lxor (Z.lxor (b s) (c s)) (d s), (3 * i + 5) mod 16)
    else (Z.lxor (c s) (Z.lor (b s) (not32 (d s))), (7 * i) mod 16) in
  let f := add32 (add32 (add32 f (a s)) (nth (Z.to_nat i) table 0)) (nth (Z.to_nat g) m 0) in
  mkDigest (d s) (add32 (b s) (rotl f (nth (Z.to_nat i) shifts 0))) (b s) (c s).

Definition block (s : digest) (m : list Z) : digest :=
  let r := fold_left (step m) (map Z.of_nat (seq 0 64)) s in
  mkDigest (add32 (a s) (a r)) (add32 (b s) (b r)) (add32 (c s) (c r)) (add32 (d s) (d r)).

(** Little-endian words of a byte sequence whose length is a multiple of four. *)
Fixpoint words (bytes : list Z) : list Z :=
  match bytes with
  | b0 :: b1 :: b2 :: b3 :: rest =>
      (b0 + Z.shiftl b1 8 + Z.shiftl b2 16 + Z.shiftl b3 24) :: words rest
  | _ => []
  end.

Fixpoint chunks (fuel : nat) (ws : list Z) : list (list Z) :=
  match fuel with
  | O => []
  | S f => match ws with
           | [] => []
           | _ => firstn 16 ws :: chunks f (skipn 16 ws)
           end
  end.

Definition le64 (n : Z) : list Z :=
  map (λ k, Z.land (Z.shiftr n (8 * Z.of_nat k)) 255) (seq 0 8).

Definition pad (bytes : list Z) : list Z :=
  let n := Z.of_nat (length bytes) in
  let zeros := Z.to_nat ((55 - n) mod 64) in
  bytes ++ [128] ++ repeat 0 zeros ++ le64 (8 * n).

Definition le32 (w : Z) : list Z :=
  map (λ k, Z.land (Z.shiftr w (8 * Z.of_nat k)) 255) (seq 0 4).

(** [md5.Sum(data)] *)
Definition Sum (data : string) : list Z :=
  let bytes := map (λ ch, Z.of_N (N_of_ascii ch)) (String.list_ascii_of_string data) in
  let ws := words (pad bytes) in
  let s := fold_left block (chunks (length ws) ws) init in
  le32 (a s) ++ le32 (b s) ++ le32 (c s) ++ le32 (d s).

Definition hexDigit (n : Z) : ascii :=
  ascii_of_N (Z.to_N (if n <? 10 then 48 + n else 87 + n)).

(** [fmt.Sprintf("%x", sum)] *)
Fixpoint hex (bytes : list Z) : string :=
  match bytes with
  | [] => ""
  | x :: rest => String (hexDigit (x / 16)) (String (hexDigit (x mod 16)) (hex rest))
  end.

End md5.

(** ** The [path/filepath] package

    [filepath.Join(dir, name)] for a plain file name and a directory as
    [os.Getwd] gives it, rooted and without empty, [.] or [..] elements:
    the two are joined by one separator, which the root directory [/]
    (and a directory written with a separator at its end) already ends
    with.  The cleaning of other directories is not followed. *)

Module filepath.

Definition Join (dir name : string) : string :=
  if strings.isEmpty dir then name
  else if strings.HasSuffix dir "/" then dir +:+ name
  else dir +:+ "/" +:+ name.

End filepath.

(** ** The [sort] package

    [sort.Slice] on a slice of at most twelve elements is the insertion
    sort below: each element in turn is swapped leftwards while it is less
    than its left neighbour.  Longer slices are sorted by pattern-defeating
    quicksort, whose result is again a permutation in which no element is
    less than one before it, and can differ from this one only in the
    order of elements neither of which is less than the other. *)

Module sort.

Section slice.
Context {A : Type} (less : A → A → bool).

(** [x] enters a sorted prefix held in reverse (nearest neighbour first). *)
Fixpoint siftLeft (x : A) (revPrefix : list A) : list A :=
  match revPrefix with
  | [] => [x]
  | y :: r => if less x y then y :: siftLeft x r else x :: y :: r
  end.

Definition Slice (data : list A) : list A :=
  rev (fold_left (λ acc x, siftLeft x acc) data []).

End slice.
End sort.

(** ** Package [app/cmd]: reconciliation, feed building, the run *)

Module cmd.

Module Site.
Record t : Type := mk { Title : string; Link : string; Description : string }.
End Site.

Module Entry.
Record t : Type := mk {
  ID : string;
  Title : string;
  Link : string;
  Content : string;
  CreatedAt : string;
  Categories : list string
}.
End Entry.

Module State.
(** [Latest] is never nil once [RunFeedUpdate] has loaded it. *)
Record t : Type := mk { Latest : gmap string string }.
End State.

Module Item.
Record t : Type := mk {
  ID : string;
  Title : string;
  Link : string;
  PubDate : string;
  Description : string;
  Categories : list string
}.
End Item.

Module Channel.
(** [LastBuildDate] is written [omitempty]: the empty string is an absent
    element. *)
Record t : Type := mk {
  Title : string;
  Link : string;
  Description : string;
  LastBuildDate : string;
  Items : list Item.t
}.
End Channel.

Module RSS.
Record t : Type := mk { Version : string; Channel : Channel.t }.
End RSS.

(** *** The world and the machine

    The network, the clock, the XML decoder and the matcher (in [lib]),
    the translation service [TransformTextByAi], which is
    code of this repository kept outside the files modelled here, and the
    file system's willingness to be written are one [World]; a run reads
    it and never changes it.  What a run does change is the [Machine]:
    the number of clock readings, the two output streams and the files. *)

(** What a file holds, as far as this program reads and writes it. *)
Inductive File : Type :=
| SiteJSON (s : Site.t)
| StateJSON (s : State.t)
| EntriesJSON (es : list Entry.t)
| FeedXML (r : RSS.t)
| Partial.                       (* a write that failed half way *)

Record World : Type := mkWorld {
  lib : feed.Lib;
  Getwd : result string;                              (* [os.Getwd()] *)
  now : nat → time.Time;                              (* the n-th [time.Now()] *)
  clientDo : string → nat → result http.Response;     (* GET of a URL, by attempt *)
  parseRFC1123Z : string → option time.Time;          (* [time.Parse(time.RFC1123Z, _)] *)
  parseRFC1123 : string → option time.Time;           (* [time.Parse(time.RFC1123, _)] *)
  TransformTextByAi : string → result string;         (* the translation service *)
  createErr : string → option error;                  (* [os.Create(path)] *)
  writeErr : string → option error                    (* writing and encoding to [path] *)
}.

Record Machine : Type := mkMachine {
  ticks : nat;                    (* readings of the clock so far *)
  stdout : list string;
  stderr : list string;
  disk : gmap string File
}.

(** A computation either goes on with a value or ends the process
    ([os.Exit]). *)
Inductive step (A : Type) : Type :=
| Done (a : A)
| Exit (code : Z).
Arguments Done {A} a.
Arguments Exit {A} code.

Definition IO (A : Type) : Type := Machine → step A * Machine.

#[global] Instance IO_ret : MRet IO := λ A a σ, (Done a, σ).
#[global] Instance IO_bind : MBind IO := λ A B f m σ,
  match m σ with
  | (Done a, σ') => f a σ'
  | (Exit c, σ') => (Exit c, σ')
  end.

Definition osExit {A} (code : Z) : IO A := λ σ, (Exit code, σ).

Definition Println (line : string) : IO unit := λ σ,
  (Done (), mkMachine (ticks σ) (stdout σ ++ [line]) (stderr σ) (disk σ)).

Definition Eprintln (line : string) : IO unit := λ σ,
  (Done (), mkMachine (ticks σ) (stdout σ) (stderr σ ++ [line]) (disk σ)).

Definition readFile (path : string) : IO (option File) := λ σ,
  (Done (disk σ !! path), σ).

Definition storeFile (path : string) (f : File) : IO unit := λ σ,
  (Done (), mkMachine (ticks σ) (stdout σ) (stderr σ) (<[path := f]> (disk σ))).

Section program.
Variable W : World.

Definition timeNow : IO time.Time := λ σ,
  (Done (now W (ticks σ)), mkMachine (S (ticks σ)) (stdout σ) (stderr σ) (disk σ)).

Definition UnixNano (t : time.Time) : Z := time.unixSec t * 1000000000 + time.nsec t.

(** [%d] *)
Definition itoa (x : Z) : string := time.appendInt x 1.

(** *** Fetching *)

Fixpoint fetchFrom (url source : string) (remaining attempt : nat) : result string :=
  match remaining with
  | O => Ok ""
  | S r =>
      match clientDo W url attempt with
      | Err e => Err e
      | Ok resp =>
          if (http.StatusCode resp =? 429) && (attempt =? 0)%nat
          then fetchFrom url source r (S attempt)
          else if (http.StatusCode resp <? 200) || (300 <=? http.StatusCode resp)
          then Err (source +:+ " api status: " +:+ http.Status resp)
          else http.Body resp
      end
  end.

Definition fetchFeed (url source : string) : result string :=
  fetchFrom url source 2 0.

(** *** Providers *)

Record feedProvider : Type := mkProvider {
  Name : string;
  Translate : bool;
  Fetch : feed.Fetcher → result feed.Item
}.

Definition feedProviders (v : feed.Vars) : list feedProvider :=
  [ mkProvider "wordpress-releases" true (feed.LatestReleases (lib W));
    mkProvider "wordpress-tv" false (feed.LatestWordPressTV (lib W) v);
    mkProvider "wordpress-com" false (feed.LatestWordPressComBlog (lib W)) ].

(** *** Identity and time of an entry *)

Definition hashString (value : string) : IO string :=
  let value := strings.TrimSpace value in
  if strings.isEmpty value then
    t ← timeNow; mret ("hash-" +:+ itoa (UnixNano t))
  else mret (md5.hex (md5.Sum value)).

Definition pickEntryID (provider : string) (item : feed.Item) : IO string :=
  let base := strings.TrimSpace (feed.PubDate item) in
  let base := if strings.isEmpty base then strings.TrimSpace (feed.Link item) else base in
  base ← (if strings.isEmpty base
          then t ← timeNow; mret (provider +:+ "-" +:+ itoa (UnixNano t))
          else mret base);
  hashString (provider +:+ "|" +:+ base).

Definition parsePubDate (value : string) : option time.Time :=
  let value := strings.TrimSpace value in
  if strings.isEmpty value then None
  else match parseRFC1123Z W value with
       | Some parsed => Some parsed
       | None => parseRFC1123 W value
       end.

Definition pickEntryTime (item : feed.Item) : IO string :=
  match parsePubDate (feed.PubDate item) with
  | None => t ← timeNow; mret (time.FormatRFC3339 t)
  | Some parsed => mret (time.FormatRFC3339 parsed)
  end.

Definition idExists (entries : list Entry.t) (id : string) : bool :=
  existsb (λ entry, String.eqb (Entry.ID entry) id) entries.

Definition parseTime (value : string) : option time.Time :=
  time.ParseRFC3339 (strings.TrimSpace value).

(** *** Content *)

Fixpoint cleanCategories (values : list string) : list string :=
  match values with
  | [] => []
  | value :: rest =>
      let value := strings.TrimSpace value in
      if strings.isEmpty value then cleanCategories rest
      else value :: cleanCategories rest
  end.

Definition translateContent (text : string) (allow : bool) : IO string :=
  let text := strings.TrimSpace text in
  if strings.isEmpty text || negb allow
     || strings.Contains (strings.ToLower text) "<iframe"
  then mret text
  else match TransformTextByAi W text with
       | Err err => Eprintln ("translation failed: " +:+ err) ;; mret text
       | Ok translated => mret translated
       end.

(** *** Reconciliation

    The entry list and the state, which the source reaches through
    pointers, are passed in and returned with the two results. *)

Record Polled : Type := mkPolled {
  added : bool;
  err : option error;
  entriesOut : list Entry.t;
  stateOut : State.t
}.

Definition withItem (item : feed.Item) (categories : list string) : feed.Item :=
  feed.mkItem (feed.Title item) (feed.Link item) (feed.GUID item)
    (feed.PubDate item) (feed.Description item) categories.

Definition setLatest (state : State.t) (name id : string) : State.t :=
  State.mk (<[name := id]> (State.Latest state)).

Definition addLatestFromProvider (provider : feedProvider)
    (entries : list Entry.t) (state : State.t) : IO Polled :=
  match Fetch provider fetchFeed with
  | Err e => mret (mkPolled false (Some e) entries state)
  | Ok item =>
      if strings.isEmpty (strings.TrimSpace (feed.Title item))
      then mret (mkPolled false None entries state)
      else
        let item := withItem item (cleanCategories (feed.Categories item)) in
        id ← pickEntryID (Name provider) item;
        if idExists entries id
        then mret (mkPolled false None entries (setLatest state (Name provider) id))
        else
          text ← translateContent (feed.Description item) (Translate provider);
          createdAt ← pickEntryTime item;
          let entry := Entry.mk id (feed.Title item) (feed.Link item) text createdAt
                         (feed.Categories item) in
          mret (mkPolled true None (entries ++ [entry])
                  (setLatest state (Name provider) id))
  end.

(** *** Building the feed *)

Definition newerFirst (a b : Entry.t) : bool :=
  String.ltb (Entry.CreatedAt b) (Entry.CreatedAt a).

(** The loop body of [buildFeed]: the item of an entry, none when its
    timestamp does not parse. *)
Definition feedItem (entry : Entry.t) : option Item.t :=
  match parseTime (Entry.CreatedAt entry) with
  | None => None
  | Some createdAt =>
      Some (Item.mk (Entry.ID entry) (Entry.Title entry) (Entry.Link entry)
              (time.FormatRFC1123Z createdAt) (Entry.Content entry)
              (Entry.Categories entry))
  end.

Definition lastBuildDate (sorted : list Entry.t) : string :=
  match sorted with
  | [] => ""
  | first :: _ =>
      match parseTime (Entry.CreatedAt first) with
      | Some last => time.FormatRFC1123Z last
      | None => ""
      end
  end.

(** The document [buildFeed] encodes. *)
Definition buildRSS (site : Site.t) (entries : list Entry.t) : RSS.t :=
  let entries := sort.Slice newerFirst entries in
  RSS.mk "2.0"
    (Channel.mk (Site.Title site) (Site.Link site) (Site.Description site)
       (lastBuildDate entries) (omap feedItem entries)).

Definition buildFeed (site : Site.t) (entries : list Entry.t) (outputPath : string)
    : IO (option error) :=
  let rss := buildRSS site entries in
  match createErr W outputPath with
  | Some e => mret (Some e)
  | None =>
      match writeErr W outputPath with
      | Some e => storeFile outputPath Partial ;; mret (Some e)
      | None => storeFile outputPath (FeedXML rss) ;; mret None
      end
  end.

(** *** Persistence *)

Definition writeJSON (path : string) (value : File) : IO unit :=
  match createErr W path with
  | Some e => Eprintln e ;; osExit 1
  | None =>
      match writeErr W path with
      | Some e => storeFile path Partial ;; Eprintln e ;; osExit 1
      | None => storeFile path value
      end
  end.

Definition readSite (path : string) (target : Site.t) : IO Site.t :=
  f ← readFile path;
  mret (match f with Some (SiteJSON s) => s | _ => target end).

Definition readState (path : string) (target : State.t) : IO State.t :=
  f ← readFile path;
  mret (match f with Some (StateJSON s) => s | _ => target end).

Definition readEntries (path : string) (target : list Entry.t) : IO (list Entry.t) :=
  f ← readFile path;
  mret (match f with Some (EntriesJSON es) => es | _ => target end).

Record paths : Type := mkPaths {
  site : string; state : string; entries : string; feed : string
}.

Definition feedPaths (root : string) : paths :=
  let dataDir := filepath.Join root "data" in
  mkPaths (filepath.Join dataDir "site.json") (filepath.Join dataDir "state.json")
    (filepath.Join dataDir "entries.json") (filepath.Join root "feed.xml").

(** *** The run *)

Record Loop : Type := mkLoop {
  entriesNow : list Entry.t;
  stateNow : State.t;
  updated : bool;
  firstErr : option error
}.

Fixpoint pollAll (providers : list feedProvider) (l : Loop) : IO Loop :=
  match providers with
  | [] => mret l
  | provider :: rest =>
      r ← addLatestFromProvider provider (entriesNow l) (stateNow l);
      match err r with
      | Some e =>
          Eprintln e ;;
          pollAll rest
            (mkLoop (entriesOut r) (stateOut r) (updated l)
               (match firstErr l with None => Some e | Some e0 => Some e0 end))
      | None =>
          pollAll rest
            (mkLoop (entriesOut r) (stateOut r) (added r || updated l) (firstErr l))
      end
  end.

Definition RunFeedUpdate (v : feed.Vars) : IO (option error) :=
  match Getwd W with
  | Err e => mret (Some e)
  | Ok root =>
      let p := feedPaths root in
      site0 ← readSite (site p) (Site.mk "Wapuugotchi RSS" "" "");
      state0 ← readState (state p) (State.mk ∅);
      entries0 ← readEntries (entries p) [];
      l ← pollAll (feedProviders v) (mkLoop entries0 state0 false None);
      if negb (updated l) && bool_decide (is_Some (firstErr l)) then mret (firstErr l)
      else if negb (updated l) then Println "no update detected" ;; mret None
      else
        writeJSON (state p) (StateJSON (stateNow l)) ;;
        writeJSON (entries p) (EntriesJSON (entriesNow l)) ;;
        e ← buildFeed site0 (entriesNow l) (feed p);
        match e with
        | Some e => mret (Some e)
        | None => Println "update detected" ;; mret None
        end
  end.

End program.

(** The process: package initialisation, then [RunFeedUpdate]. *)
Inductive Outcome : Type :=
| Returned (e : option error)
| Exited (code : Z)
| Panicked.

Definition Process (W : World) (σ : Machine) : Outcome * Machine :=
  match feed.init with
  | None => (Panicked, σ)
  | Some v =>
      match RunFeedUpdate W v σ with
      | (Done e, σ') => (Returned e, σ')
      | (Exit c, σ') => (Exited c, σ')
      end
  end.

End cmd.

(** ** Vocabulary of the properties *)

(** A byte that can be part of a white space rune: an ASCII white space
    or a byte of a multi-byte encoding. *)
Definition spaceByte (c : ascii) : bool :=
  strings.isSpace c || (128 <=? N_of_ascii c)%N.

(** The normalized text of an instant, [2006-01-02T15:04:05Z]: twenty
    bytes, digits around the fixed separators.  It is what
    [pickEntryTime] writes for years of four digits. *)
Definition isDigit (c : ascii) : bool := bool_decide (is_Some (time.digitVal c)).

Definition isNormalized (s : string) : bool :=
  match String.list_ascii_of_string s with
  | [y1; y2; y3; y4; a; m1; m2; b; d1; d2; t; h1; h2; c; i1; i2; d; s1; s2; z] =>
      forallb isDigit [y1; y2; y3; y4; m1; m2; d1; d2; h1; h2; i1; i2; s1; s2]
      && Ascii.eqb a "-" && Ascii.eqb b "-" && Ascii.eqb t "T"
      && Ascii.eqb c ":" && Ascii.eqb d ":" && Ascii.eqb z "Z"
  | _ => false
  end.

Definition layoutText (y1 y2 y3 y4 m1 m2 d1 d2 h1 h2 i1 i2 s1 s2 : ascii) : string :=
  String y1 (String y2 (String y3 (String y4 (String "-"
  (String m1 (String m2 (String "-"
  (String d1 (String d2 (String "T"
  (String h1 (String h2 (String ":"
  (String i1 (String i2 (String ":"
  (String s1 (String s2 (String "Z" EmptyString))))))))))))))))))).

(** The fields of a normalized text read as one number. *)
Definition lexKey (Y M D h mi s : Z) : Z :=
  ((((Y * 100 + M) * 100 + D) * 100 + h) * 100 + mi) * 100 + s.

Definition validFields (Y M D h mi s : Z) : bool :=
  (1 <=? M) && (M <=? 12) && (1 <=? D) && (D <=? time.daysIn M Y)
  && (h <? 24) && (mi <? 60) && (s <? 60).

(** A text of the normalized shape, with the numbers its fields spell. *)
Inductive Layout : string → Z → Z → Z → Z → Z → Z → Prop :=
| Layout_intro y1 y2 y3 y4 m1 m2 d1 d2 h1 h2 i1 i2 s1 s2
    vy1 vy2 vy3 vy4 vm1 vm2 vd1 vd2 vh1 vh2 vi1 vi2 vs1 vs2 :
    time.digitVal y1 = Some vy1 → time.digitVal y2 = Some vy2 →
    time.digitVal y3 = Some vy3 → time.digitVal y4 = Some vy4 →
    time.digitVal m1 = Some vm1 → time.digitVal m2 = Some vm2 →
    time.digitVal d1 = Some vd1 → time.digitVal d2 = Some vd2 →
    time.digitVal h1 = Some vh1 → time.digitVal h2 = Some vh2 →
    time.digitVal i1 = Some vi1 → time.digitVal i2 = Some vi2 →
    time.digitVal s1 = Some vs1 → time.digitVal s2 = Some vs2 →
    Layout (layoutText y1 y2 y3 y4 m1 m2 d1 d2 h1 h2 i1 i2 s1 s2)
      (((vy1 * 10 + vy2) * 10 + vy3) * 10 + vy4) (vm1 * 10 + vm2) (vd1 * 10 + vd2)
      (vh1 * 10 + vh2) (vi1 * 10 + vi2) (vs1 * 10 + vs2).

(** An entry whose creation timestamp is normalized and parses. *)
Definition wellStamped (e : cmd.Entry.t) : Prop :=
  isNormalized (cmd.Entry.CreatedAt e) = true
  ∧ is_Some (cmd.parseTime (cmd.Entry.CreatedAt e)).

(** The creation instants behind the items of the built document, in the
    order of the items. *)
Definition instants (entries : list cmd.Entry.t) : list time.Time :=
  omap (λ e, cmd.parseTime (cmd.Entry.CreatedAt e)) (sort.Slice cmd.newerFirst entries).

(** No later instant after an earlier one; and the same with no two equal. *)
Definition newestFirst (ts : list time.Time) : Prop :=
  StronglySorted (λ t u, time.before t u = false) ts.

Definition strictlyNewestFirst (ts : list time.Time) : Prop :=
  StronglySorted (λ t u, time.before u t = true) ts.

Section vocabulary.
Import cmd.
Variable W : World.

(** The text [pickEntryID] hashes when the item has a publish date or a
    link. *)
Definition basis (item : feed.Item) : string :=
  let base := strings.TrimSpace (feed.PubDate item) in
  if strings.isEmpty base then strings.TrimSpace (feed.Link item) else base.

Definition identity (provider : string) (item : feed.Item) : string :=
  md5.hex (md5.Sum (strings.TrimSpace (provider +:+ "|" +:+ basis item))).

(** What one poll does, case by case. *)
Inductive PollSpec (provider : feedProvider) (entries : list Entry.t) (state : State.t)
  : Polled → Prop :=
| PollFailed e :
    Fetch provider (fetchFeed W) = Err e →
    PollSpec provider entries state (mkPolled false (Some e) entries state)
| PollNothing item :
    Fetch provider (fetchFeed W) = Ok item →
    strings.TrimSpace (feed.Title item) = "" →
    PollSpec provider entries state (mkPolled false None entries state)
| PollDuplicate item id σ σ' :
    Fetch provider (fetchFeed W) = Ok item →
    strings.TrimSpace (feed.Title item) ≠ "" →
    pickEntryID W (Name provider) item σ = (Done id, σ') →
    id ∈ map Entry.ID entries →
    PollSpec provider entries state
      (mkPolled false None entries (setLatest state (Name provider) id))
| PollCreated item id σ σ' text createdAt :
    Fetch provider (fetchFeed W) = Ok item →
    strings.TrimSpace (feed.Title item) ≠ "" →
    pickEntryID W (Name provider) item σ = (Done id, σ') →
    id ∉ map Entry.ID entries →
    PollSpec provider entries state
      (mkPolled true None
         (entries ++ [Entry.mk id (feed.Title item) (feed.Link item) text createdAt
                        (cleanCategories (feed.Categories item))])
         (setLatest state (Name provider) id)).


(** The results of the polls of a run, in the order of the providers. *)
Fixpoint pollLog (providers : list feedProvider) (entries : list Entry.t) (state : State.t)
    : IO (list Polled) :=
  match providers with
  | [] => mret []
  | provider :: rest =>
      r ← addLatestFromProvider W provider entries state;
      (match err r with Some e => Eprintln e | None => mret () end) ;;
      rs ← pollLog rest (entriesOut r) (stateOut r);
      mret (r :: rs)
  end.

(** What [RunFeedUpdate] loads from the files under [root]. *)
Definition loadedSite (root : string) (σ : Machine) : Site.t :=
  match disk σ !! site (feedPaths root) with
  | Some (SiteJSON s) => s
  | _ => Site.mk "Wapuugotchi RSS" "" ""
  end.

Definition loadedState (root : string) (σ : Machine) : State.t :=
  match disk σ !! state (feedPaths root) with
  | Some (StateJSON s) => s
  | _ => State.mk ∅
  end.

Definition loadedEntries (root : string) (σ : Machine) : list Entry.t :=
  match disk σ !! entries (feedPaths root) with
  | Some (EntriesJSON es) => es
  | _ => []
  end.

(** The entry list and state after the polls [rs] of a run that started
    from [entries] and [state]. *)
Definition finalEntries (entries : list Entry.t) (rs : list Polled) : list Entry.t :=
  default entries (last (entriesOut <$> rs)).

Definition finalState (state : State.t) (rs : list Polled) : State.t :=
  default state (last (stateOut <$> rs)).

(** A run in which every file can be created and written. *)
Definition writable (root : string) : Prop :=
  ∀ path, path ∈ [state (feedPaths root); entries (feedPaths root); feed (feedPaths root)] →
          createErr W path = None ∧ writeErr W path = None.

End vocabulary.


(** ** Further vocabulary *)

(** A digit of lower case hexadecimal. *)
Definition isLowerHex (c : ascii) : bool :=
  let n := N_of_ascii c in
  (((48 <=? n) && (n <=? 57)) || ((97 <=? n) && (n <=? 102)))%N.

(** The year of an instant in UTC. *)
Definition yearOf (t : time.Time) : Z := (time.civil (time.unixSec t / 86400)).1.1.

(** An instant that [time.RFC3339] prints with a year of four digits. *)
Definition fourDigitYear (t : time.Time) : Prop := 0 ≤ yearOf t ≤ 9999.

(** A response with a status of success. *)
Definition is2xx (resp : http.Response) : Prop :=
  200 ≤ http.StatusCode resp < 300.

(** A text that does not start with a white space rune, and a reversed
    text that does not. *)
Definition startsClean (s : list ascii) : Prop :=
  match s with
  | [] => True
  | a :: r =>
      strings.isSpace a = false
      ∧ match r with
        | [] => True
        | b :: r2 =>
            strings.isSpace2 a b = false
            ∧ match r2 with
              | [] => True
              | c :: _ => strings.isSpace3 a b c = false
              end
        end
  end.

Definition startsCleanRev (s : list ascii) : Prop :=
  match s with
  | [] => True
  | a :: r =>
      strings.isSpace a = false
      ∧ match r with
        | [] => True
        | b :: r2 =>
            strings.isSpace2 b a = false
            ∧ match r2 with
              | [] => True
              | c :: _ => strings.isSpace3 c b a = false
              end
        end
  end.

(** The instant a poll that starts on the machine [σ] stamps a new entry
    with: the publish date of the item when it can be read, and the next
    reading of the clock otherwise, which is the second reading of the
    poll when the identity has taken the first (an item with neither
    publish date nor link). *)
Definition stampInstant (W : cmd.World) (item : feed.Item) (σ : cmd.Machine) : time.Time :=
  match cmd.parsePubDate W (feed.PubDate item) with
  | Some parsed => parsed
  | None =>
      cmd.now W (if strings.isEmpty (basis item) then S (cmd.ticks σ) else cmd.ticks σ)
  end.

(** Every titled item the providers deliver has a publish date or a link. *)
Definition datedOrLinked (W : cmd.World) (providers : list cmd.feedProvider) : Prop :=
  ∀ provider item,
    provider ∈ providers →
    cmd.Fetch provider (cmd.fetchFeed W) = Ok item →
    strings.TrimSpace (feed.Title item) ≠ "" →
    basis item ≠ "".

(** The entry list holds the identity of every titled item the providers
    deliver. *)
Definition recorded (W : cmd.World) (providers : list cmd.feedProvider)
    (entries : list cmd.Entry.t) : Prop :=
  ∀ provider item,
    provider ∈ providers →
    cmd.Fetch provider (cmd.fetchFeed W) = Ok item →
    strings.TrimSpace (feed.Title item) ≠ "" →
    identity (cmd.Name provider) item ∈ map cmd.Entry.ID entries.
(** ** A world to run the program in

    The releases feed is unreachable, the video feed is empty, and the
    blog feed carries one post.  The matcher is the backtracking one, and
    the two RFC 1123 layouts recognise one date. *)

Module demo.
Import cmd.

Definition blogPost : feed.wordPressCom.item :=
  feed.wordPressCom.mkItem "Hello" "https://wordpress.com/blog/hello/" "guid-1"
    "Mon, 01 Jan 2024 10:00:00 +0000" "short" "<p>long</p>" ["News"; " "].

Definition lib : feed.Lib :=
  feed.mkLib
    (λ _, Ok {| feed.wordPress.Channel := {| feed.wordPress.Items := [] |} |})
    (λ _, Ok {| feed.wordPressTV.Channel := {| feed.wordPressTV.Items := [] |} |})
    (λ _, Ok {| feed.wordPressCom.Channel := {| feed.wordPressCom.Items := [blogPost] |} |})
    (λ re s, if String.eqb (regexp.expr re) feed.iframePatternSrc
             then backtrack.findIframe s else "")
    (λ re src repl,
       if String.eqb (regexp.expr re) feed.iframeWidthPatternSrc
       then backtrack.replaceAttr (String.length src) "width" src repl
       else if String.eqb (regexp.expr re) feed.iframeHeightPatternSrc
       then backtrack.replaceAttr (String.length src) "height" src repl
       else src).

Definition world : World :=
  mkWorld lib (Ok "/srv/feed")
    (λ n, time.mkTime (1704103200 + Z.of_nat n) 0)
    (λ url _, if String.eqb url feed.releasesFeedURL then Err "connection refused"
              else Ok (http.mkResponse 200 "200 OK" (Ok "<rss/>")))
    (λ s, if String.eqb s "Mon, 01 Jan 2024 10:00:00 +0000"
          then Some (time.mkTime 1704103200 0) else None)
    (λ _, None)
    (λ _, Err "no translator")
    (λ _, None)
    (λ _, None).

Definition vars : feed.Vars :=
  feed.mkVars (regexp.mkRegexp feed.iframePatternSrc)
    (regexp.mkRegexp feed.iframeWidthPatternSrc)
    (regexp.mkRegexp feed.iframeHeightPatternSrc).

Definition blog : feedProvider :=
  mkProvider "wordpress-com" false (feed.LatestWordPressComBlog lib).

Definition blogID : string :=
  md5.hex (md5.Sum "wordpress-com|Mon, 01 Jan 2024 10:00:00 +0000").

Definition blogEntry : Entry.t :=
  Entry.mk blogID "Hello" "https://wordpress.com/blog/hello/" "short"
    "2024-01-01T10:00:00Z" ["News"].

Definition boot (files : gmap string File) : Machine := mkMachine 0 [] [] files.

(** The same world with the releases feed reachable, and empty. *)
Definition quiet : World :=
  mkWorld lib (Ok "/srv/feed")
    (λ n, time.mkTime (1704103200 + Z.of_nat n) 0)
    (λ _ _, Ok (http.mkResponse 200 "200 OK" (Ok "<rss/>")))
    (parseRFC1123Z world)
    (λ _, None)
    (λ _, Err "no translator")
    (λ _, None)
    (λ _, None).

(** Files of an earlier run that recorded the blog post but kept no state. *)
Definition seen : gmap string File :=
  {[ "/srv/feed/data/entries.json" := EntriesJSON [blogEntry] ]}.

(** Entries that differ in their creation timestamp. *)
Definition stamped (id createdAt : string) : Entry.t :=
  Entry.mk id ("post " +:+ id) "" "" createdAt [].

Definition january : Entry.t := stamped "a" "2024-01-01T00:00:00Z".
Definition february : Entry.t := stamped "b" "2024-02-01T00:00:00Z".
Definition march : Entry.t := stamped "c" "2024-03-01T00:00:00Z".
Definition januaryAgain : Entry.t := stamped "d" "2024-01-01T00:00:00Z".
Definition garbled : Entry.t := stamped "g" "yesterday".

(** Files of an earlier run that hold an entry with a garbled timestamp. *)
Definition damaged : gmap string File :=
  {[ "/srv/feed/data/entries.json" := EntriesJSON [garbled; january] ]}.

Definition afterDamaged : Machine :=
  snd (RunFeedUpdate quiet vars (boot damaged)).

(** The frame of the specification's example. *)
Definition iframeSample : string :=
  "<iframe src=" +:+ feed.dq +:+ "x" +:+ feed.dq
  +:+ " width=" +:+ feed.dq +:+ "320" +:+ feed.dq
  +:+ " height=" +:+ feed.dq +:+ "180" +:+ feed.dq
  +:+ " allow=" +:+ feed.dq +:+ "y" +:+ feed.dq +:+ "></iframe>".

(** A provider whose newest item has no title. *)
Definition untitled : feedProvider :=
  mkProvider "untitled" false
    (λ _, Ok (feed.mkItem "  " "https://example.org/a" "" "Mon, 01 Jan 2024 10:00:00 +0000" "x" [])).

End demo.


(** ** More worlds *)

Module sample.
Import cmd.

(** Every request is answered with 429. *)
Definition throttled : World :=
  mkWorld demo.lib (Ok "/srv/feed")
    (λ n, time.mkTime (1704103200 + Z.of_nat n) 0)
    (λ _ _, Ok (http.mkResponse 429 "429 Too Many Requests" (Ok "slow down")))
    (parseRFC1123Z demo.world)
    (λ _, None)
    (λ _, Err "no translator")
    (λ _, None)
    (λ _, None).

(** The first request is answered with 429, the second with the feed. *)
Definition hiccup : World :=
  mkWorld demo.lib (Ok "/srv/feed")
    (λ n, time.mkTime (1704103200 + Z.of_nat n) 0)
    (λ _ attempt, match attempt with
                  | O => Ok (http.mkResponse 429 "429 Too Many Requests" (Ok "slow down"))
                  | _ => Ok (http.mkResponse 200 "200 OK" (Ok "<rss/>"))
                  end)
    (parseRFC1123Z demo.world)
    (λ _, None)
    (λ _, Err "no translator")
    (λ _, None)
    (λ _, None).

(** The quiet world with a translator that shouts. *)
Definition translating : World :=
  mkWorld demo.lib (Ok "/srv/feed")
    (λ n, time.mkTime (1704103200 + Z.of_nat n) 0)
    (λ _ _, Ok (http.mkResponse 200 "200 OK" (Ok "<rss/>")))
    (parseRFC1123Z demo.world)
    (λ _, None)
    (λ s, Ok ("DE: " +:+ s))
    (λ _, None)
    (λ _, None).

(** The quiet world on a disk where nothing can be created. *)
Definition readOnly : World :=
  mkWorld demo.lib (Ok "/srv/feed")
    (λ n, time.mkTime (1704103200 + Z.of_nat n) 0)
    (λ _ _, Ok (http.mkResponse 200 "200 OK" (Ok "<rss/>")))
    (parseRFC1123Z demo.world)
    (λ _, None)
    (λ _, Err "no translator")
    (λ _, Some "permission denied")
    (λ _, None).

(** The quiet world where only the document cannot be created. *)
Definition feedLocked : World :=
  mkWorld demo.lib (Ok "/srv/feed")
    (λ n, time.mkTime (1704103200 + Z.of_nat n) 0)
    (λ _ _, Ok (http.mkResponse 200 "200 OK" (Ok "<rss/>")))
    (parseRFC1123Z demo.world)
    (λ _, None)
    (λ _, Err "no translator")
    (λ path, if String.eqb path "/srv/feed/feed.xml" then Some "permission denied" else None)
    (λ _, None).





(** The polls of a first run, and the machine after them. *)
Definition polls (W : World) : list Polled * Machine :=
  match pollLog W (feedProviders W demo.vars) [] (State.mk ∅) (demo.boot ∅) with
  | (Done rs, σ) => (rs, σ)
  | (Exit _, σ) => ([], σ)
  end.

(** A first run in the quiet world. *)
Definition firstRun : step (option error) * Machine :=
  RunFeedUpdate demo.quiet demo.vars (demo.boot ∅).

(** A description that embeds a frame, in mixed case. *)
Definition framed : string := "  <IFrame src=x></iframe> ".

End sample.
(** * Properties *)

(** ** The model on concrete inputs *)

Example TrimSpace_ex : strings.TrimSpace "  a b
 " = "a b".
Proof. reflexivity. Qed.

(** U+00A0 in UTF-8 is trimmed; a stray continuation byte is not. *)
Example TrimSpace_nbsp :
  strings.TrimSpace (String (ascii_of_nat 194) (String (ascii_of_nat 160) " a b ")
                       +:+ String (ascii_of_nat 226) (String (ascii_of_nat 128)
                             (String (ascii_of_nat 137) "")))
  = "a b".
Proof. reflexivity. Qed.

Example TrimSpace_stray :
  strings.TrimSpace (String (ascii_of_nat 160) "a ") = String (ascii_of_nat 160) "a".
Proof. reflexivity. Qed.

Example Index_ex : strings.Index "<iframe a>x" ">" = 9.
Proof. reflexivity. Qed.

Example ParseRFC3339_ex1 :
  time.ParseRFC3339 "2024-03-01T12:30:05Z" = Some (time.mkTime 1709296205 0).
Proof. reflexivity. Qed.

Example ParseRFC3339_ex2 :
  time.ParseRFC3339 "2024-03-01T12:30:05.25+02:00" = Some (time.mkTime 1709289005 250000000).
Proof. reflexivity. Qed.

Example ParseRFC3339_ex3 : time.ParseRFC3339 "2023-02-29T00:00:00Z" = None.
Proof. reflexivity. Qed.

Example FormatRFC1123Z_ex :
  time.FormatRFC1123Z (time.mkTime 1709296205 0) = "Fri, 01 Mar 2024 12:30:05 +0000".
Proof. reflexivity. Qed.

Example FormatRFC3339_ex :
  time.FormatRFC3339 (time.mkTime 1709296205 0) = "2024-03-01T12:30:05Z".
Proof. reflexivity. Qed.

Example FormatRFC3339_epoch :
  time.FormatRFC3339 (time.mkTime (-1) 0) = "1969-12-31T23:59:59Z".
Proof. reflexivity. Qed.

Example Compile_octal : regexp.escapesOK "a\101b" = true.
Proof. reflexivity. Qed.

Example Compile_class : regexp.escapesOK "(?i)\s+[^>]*\." = true.
Proof. reflexivity. Qed.

Example Compile_backref : regexp.escapesOK "(a)\1" = false.
Proof. reflexivity. Qed.

Example iframeWidthPatternSrc_text :
  String.length feed.iframeWidthPatternSrc = 36%nat
  ∧ strings.HasSuffix feed.iframeWidthPatternSrc "\s>]*\1" = true.
Proof. split; reflexivity. Qed.

Example Slice_ex : sort.Slice Z.ltb [3; 1; 2; 1] = [1; 1; 2; 3].
Proof. reflexivity. Qed.


(** The test suite of RFC 1321. *)
Example md5_empty : md5.hex (md5.Sum "") = "d41d8cd98f00b204e9800998ecf8427e".
Proof. vm_compute. reflexivity. Qed.
Example md5_abc : md5.hex (md5.Sum "abc") = "900150983cd24fb0d6963f7d28e17f72".
Proof. vm_compute. reflexivity. Qed.
Example md5_fox :
  md5.hex (md5.Sum "The quick brown fox jumps over the lazy dog") = "9e107d9d372bb6826bd81d3542a419d6".
Proof. vm_compute. reflexivity. Qed.
Example md5_long :
  md5.hex (md5.Sum "12345678901234567890123456789012345678901234567890123456789012345678901234567890") = "57edf4a22be3c955ac49da2e2107b67a".
Proof. vm_compute. reflexivity. Qed.

(** The identity of the demo world's blog post. *)
Example demo_identity : demo.blogID = "422dd62135d5083ed5bd38f148d6a280".
Proof. vm_compute. reflexivity. Qed.

(** The files of a run under an ordinary working directory and under the
    root directory. *)
Example feedPaths_ex :
  cmd.feedPaths "/srv/feed"
  = cmd.mkPaths "/srv/feed/data/site.json" "/srv/feed/data/state.json"
      "/srv/feed/data/entries.json" "/srv/feed/feed.xml"
  ∧ cmd.feedPaths "/"
    = cmd.mkPaths "/data/site.json" "/data/state.json" "/data/entries.json" "/feed.xml".
Proof. split; reflexivity. Qed.
(** ** Trimming *)

Lemma isSpace_spaceByte a : strings.isSpace a = true → spaceByte a = true.
Proof. unfold spaceByte. by intros ->. Qed.

Lemma isSpace2_spaceByte a b :
  strings.isSpace2 a b = true → spaceByte a = true ∧ spaceByte b = true.
Proof.
  unfold strings.isSpace2, spaceByte. cbv zeta. intros H.
  split; apply orb_true_intro; right; apply N.leb_le;
    repeat match goal with
           | E : _ && _ = true |- _ => apply andb_prop in E; destruct E
           | E : _ || _ = true |- _ => apply orb_prop in E; destruct E
           | E : (_ =? _)%N = true |- _ => apply N.eqb_eq in E
           end; lia.
Qed.

Lemma isSpace3_spaceByte a b c :
  strings.isSpace3 a b c = true →
  spaceByte a = true ∧ spaceByte b = true ∧ spaceByte c = true.
Proof.
  unfold strings.isSpace3, spaceByte. cbv zeta. intros H.
  split_and!; apply orb_true_intro; right; apply N.leb_le;
    repeat match goal with
           | E : _ && _ = true |- _ => apply andb_prop in E; destruct E
           | E : _ || _ = true |- _ => apply orb_prop in E; destruct E
           | E : (_ =? _)%N = true |- _ => apply N.eqb_eq in E
           | E : (_ <=? _)%N = true |- _ => apply N.leb_le in E
           end; lia.
Qed.

(** Only bytes of white space runes are trimmed. *)
Lemma trimLeft_spaceBytes n s :
  (length s ≤ n)%nat →
  Forall (λ c, spaceByte c = true) (strings.trimLeft s) →
  Forall (λ c, spaceByte c = true) s.
Proof.
  revert s. induction n as [|n IH]; intros s Hn.
  { destruct s; [done|simpl in Hn; lia]. }
  destruct s as [|a r]; [done|]. cbn [strings.trimLeft].
  destruct (strings.isSpace a) eqn:Ea.
  { intros H. constructor; [by apply isSpace_spaceByte|]. apply IH; [simpl in Hn; lia|done]. }
  destruct r as [|b r2]; [done|].
  destruct (strings.isSpace2 a b) eqn:Eb.
  { intros H. apply isSpace2_spaceByte in Eb as [? ?].
    repeat constructor; try done. apply IH; [simpl in Hn; lia|done]. }
  destruct r2 as [|c r3]; [done|].
  destruct (strings.isSpace3 a b c) eqn:Ec; [|done].
  intros H. apply isSpace3_spaceByte in Ec as (? & ? & ?).
  repeat constructor; try done. apply IH; [simpl in Hn; lia|done].
Qed.

Lemma trimLeftRev_nil n s :
  (length s ≤ n)%nat →
  strings.trimLeftRev s = [] →
  Forall (λ c, spaceByte c = true) s.
Proof.
  revert s. induction n as [|n IH]; intros s Hn.
  { destruct s; [done|simpl in Hn; lia]. }
  destruct s as [|a r]; [done|]. cbn [strings.trimLeftRev].
  destruct (strings.isSpace a) eqn:Ea.
  { intros H. constructor; [by apply isSpace_spaceByte|]. apply IH; [simpl in Hn; lia|done]. }
  destruct r as [|b r2]; [done|].
  destruct (strings.isSpace2 b a) eqn:Eb.
  { intros H. apply isSpace2_spaceByte in Eb as [? ?].
    repeat constructor; try done. apply IH; [simpl in Hn; lia|done]. }
  destruct r2 as [|c r3]; [done|].
  destruct (strings.isSpace3 c b a) eqn:Ec; [|done].
  intros H. apply isSpace3_spaceByte in Ec as (? & ? & ?).
  repeat constructor; try done. apply IH; [simpl in Hn; lia|done].
Qed.

Lemma string_of_list_nil l : String.string_of_list_ascii l = "" → l = [].
Proof. by destruct l. Qed.

(** A text that trims to nothing is made of bytes of white space runes. *)
Lemma TrimSpace_empty s :
  strings.TrimSpace s = "" →
  Forall (λ c, spaceByte c = true) (String.list_ascii_of_string s).
Proof.
  unfold strings.TrimSpace, strings.trimRight. intros H%string_of_list_nil.
  apply (trimLeft_spaceBytes (length (String.list_ascii_of_string s))); [done|].
  assert (strings.trimLeftRev (rev (strings.trimLeft (String.list_ascii_of_string s))) = [])
    as H'.
  { rewrite <- (rev_involutive (strings.trimLeftRev _)). by rewrite H. }
  apply (trimLeftRev_nil _ _ (le_n _)) in H'.
  apply Forall_forall. intros c Hc. rewrite Forall_forall in H'. apply H'.
  by rewrite list_elem_of_In, <- in_rev, <- list_elem_of_In.
Qed.

Lemma list_of_append s t :
  String.list_ascii_of_string (s +:+ t)
  = String.list_ascii_of_string s ++ String.list_ascii_of_string t.
Proof.
  induction s as [|c s IH]; [done|].
  change (c :: String.list_ascii_of_string (s +:+ t)
          = c :: (String.list_ascii_of_string s ++ String.list_ascii_of_string t)).
  by f_equal.
Qed.

Lemma hashed_text_not_blank provider base :
  strings.isEmpty (strings.TrimSpace (provider +:+ "|" +:+ base)) = false.
Proof.
  destruct (strings.TrimSpace (provider +:+ "|" +:+ base)) eqn:E; [|done].
  apply TrimSpace_empty in E. rewrite !list_of_append in E.
  apply Forall_app in E as [_ E]. apply Forall_app in E as [E _].
  apply Forall_cons in E as [E _]. discriminate E.
Qed.

Lemma isEmpty_true s : strings.isEmpty s = true ↔ s = "".
Proof. destruct s; simpl; split; congruence. Qed.

Lemma isEmpty_false s : strings.isEmpty s = false ↔ s ≠ "".
Proof. destruct s; simpl; split; congruence. Qed.

(** ** Reconciliation *)

(** The digest is never unfolded in a proof. *)
Opaque md5.Sum md5.hex.

Section reconcile.
Import cmd.
Variable W : World.

Lemma pickEntryID_total provider item σ :
  ∃ id σ', pickEntryID W provider item σ = (Done id, σ').
Proof.
  unfold pickEntryID, hashString, mbind, IO_bind, mret, IO_ret, timeNow.
  destruct (strings.isEmpty _); simpl;
    rewrite hashed_text_not_blank; eauto.
Qed.

Lemma pickEntryID_basis provider item σ :
  basis item ≠ "" →
  pickEntryID W provider item σ = (Done (identity provider item), σ).
Proof.
  intros Hb. apply isEmpty_false in Hb.
  unfold pickEntryID, hashString, identity, mbind, IO_bind, mret, IO_ret.
  fold (basis item). rewrite Hb. simpl.
  by rewrite hashed_text_not_blank.
Qed.

Lemma basis_withItem item cats : basis (withItem item cats) = basis item.
Proof. done. Qed.

Lemma translateContent_total text allow σ :
  ∃ out σ', translateContent W text allow σ = (Done out, σ').
Proof.
  unfold translateContent, mbind, IO_bind, mret, IO_ret, Eprintln.
  destruct (_ || _); [eauto|].
  destruct (TransformTextByAi W _); simpl; eauto.
Qed.

Lemma pickEntryTime_total item σ :
  ∃ out σ', pickEntryTime W item σ = (Done out, σ').
Proof.
  unfold pickEntryTime, mbind, IO_bind, mret, IO_ret, timeNow.
  destruct (parsePubDate W _); simpl; eauto.
Qed.

Lemma idExists_true entries id :
  idExists entries id = true ↔ id ∈ map Entry.ID entries.
Proof.
  unfold idExists. rewrite existsb_exists, list_elem_of_In, in_map_iff.
  split; intros (e & H1 & H2); exists e.
  - apply String.eqb_eq in H2. done.
  - rewrite String.eqb_eq. done.
Qed.

Lemma idExists_false entries id :
  idExists entries id = false ↔ id ∉ map Entry.ID entries.
Proof.
  rewrite <- idExists_true. destruct (idExists entries id); split; congruence.
Qed.

Lemma pickEntryID_withItem provider item cats :
  pickEntryID W provider (withItem item cats) = pickEntryID W provider item.
Proof. done. Qed.

Lemma addLatestFromProvider_spec provider entries state σ :
  ∃ r σ', addLatestFromProvider W provider entries state σ = (Done r, σ')
          ∧ PollSpec W provider entries state r.
Proof.
  unfold addLatestFromProvider.
  destruct (Fetch provider (fetchFeed W)) as [item|e] eqn:Hf.
  2:{ eexists _, _. split; [done|]. by constructor. }
  destruct (strings.isEmpty (strings.TrimSpace (feed.Title item))) eqn:Ht.
  { eexists _, _. split; [done|]. apply isEmpty_true in Ht. by econstructor. }
  apply isEmpty_false in Ht.
  rewrite pickEntryID_withItem.
  destruct (pickEntryID_total (Name provider) item σ) as (id & σ1 & Hid).
  unfold mbind at 1, IO_bind at 1. rewrite Hid.
  destruct (idExists entries id) eqn:Hex.
  { eexists _, _. split; [done|].
    apply idExists_true in Hex. by econstructor. }
  apply idExists_false in Hex.
  destruct (translateContent_total (feed.Description (withItem item
              (cleanCategories (feed.Categories item)))) (Translate provider) σ1)
    as (text & σ2 & Htr).
  unfold mbind at 1, IO_bind at 1. rewrite Htr.
  destruct (pickEntryTime_total (withItem item (cleanCategories (feed.Categories item))) σ2)
    as (created & σ3 & Hpt).
  unfold mbind at 1, IO_bind at 1. rewrite Hpt.
  eexists _, _. split; [done|]. simpl. by econstructor.
Qed.

(** A poll reads the clock and may write to standard error; it touches
    neither the files nor standard output. *)
Lemma addLatestFromProvider_frame provider entries state σ r σ' :
  addLatestFromProvider W provider entries state σ = (Done r, σ') →
  disk σ' = disk σ ∧ stdout σ' = stdout σ.
Proof.
  unfold addLatestFromProvider, pickEntryID, hashString, translateContent, pickEntryTime,
    mbind, IO_bind, mret, IO_ret, timeNow, Eprintln.
  intros H. repeat case_match; simplify_eq; done.
Qed.

End reconcile.

Example demo_first_poll :
  cmd.addLatestFromProvider demo.world demo.blog [] (cmd.State.mk ∅) (demo.boot ∅)
  = (cmd.Done (cmd.mkPolled true None [demo.blogEntry]
                 (cmd.State.mk {[ "wordpress-com" := demo.blogID ]})),
     demo.boot ∅).
Proof. vm_compute. reflexivity. Qed.


Section reconcile_claims.
Import cmd.
Variable W : World.

Lemma basis_not_empty item :
  strings.TrimSpace (feed.PubDate item) ≠ "" ∨ strings.TrimSpace (feed.Link item) ≠ "" →
  basis item ≠ "".
Proof.
  unfold basis. intros [H|H].
  - apply isEmpty_false in H. by rewrite H, <- isEmpty_false.
  - destruct (strings.isEmpty (strings.TrimSpace (feed.PubDate item))) eqn:E; [done|].
    by apply isEmpty_false.
Qed.

Lemma setLatest_twice state name id :
  setLatest (setLatest state name id) name id = setLatest state name id.
Proof. unfold setLatest. simpl. by rewrite insert_insert_eq. Qed.

Lemma setLatest_lookup state name id :
  State.Latest (setLatest state name id) !! name = Some id.
Proof. unfold setLatest. simpl. apply lookup_insert_eq. Qed.

(** A poll of an item that has a title and a basis, on a list that holds
    the item's identity, is a duplicate detection. *)
Lemma poll_known provider item entries state σ :
  Fetch provider (fetchFeed W) = Ok item →
  strings.TrimSpace (feed.Title item) ≠ "" →
  basis item ≠ "" →
  identity (Name provider) item ∈ map Entry.ID entries →
  ∃ σ', addLatestFromProvider W provider entries state σ
        = (Done (mkPolled false None entries
                   (setLatest state (Name provider) (identity (Name provider) item))), σ').
Proof.
  intros Hf Ht Hb Hin.
  destruct (addLatestFromProvider_spec W provider entries state σ) as (r & σ' & Hrun & Hspec).
  exists σ'. rewrite Hrun. f_equal.
  destruct Hspec as [e He|it Hit Hemp|it id σ1 σ2 Hit _ Hid _|it id σ1 σ2 text created Hit _ Hid Hnew];
    rewrite Hf in *; simplify_eq.
  - rewrite pickEntryID_basis in Hid by done. by simplify_eq.
  - rewrite pickEntryID_basis in Hid by done. by simplify_eq.
Qed.

(** C1. Idempotence: when a provider's fetched item has a title and a
    publish date or link (each non-empty after trimming), a first poll
    followed by a second poll of the identical item, on the entry list and
    state the first one left, creates nothing the second time: no entry is
    added, the entry list is the same, and the state (so also the
    provider's latest identity, the digest of provider name and basis) is
    the same. *)
Theorem reconcile_twice provider item entries state σ1 σ2 :
  Fetch provider (fetchFeed W) = Ok item →
  strings.TrimSpace (feed.Title item) ≠ "" →
  strings.TrimSpace (feed.PubDate item) ≠ "" ∨ strings.TrimSpace (feed.Link item) ≠ "" →
  ∃ r1 σ1' r2 σ2',
    addLatestFromProvider W provider entries state σ1 = (Done r1, σ1')
    ∧ addLatestFromProvider W provider (entriesOut r1) (stateOut r1) σ2 = (Done r2, σ2')
    ∧ added r2 = false
    ∧ err r2 = None
    ∧ entriesOut r2 = entriesOut r1
    ∧ stateOut r2 = stateOut r1
    ∧ State.Latest (stateOut r1) !! Name provider = Some (identity (Name provider) item)
    ∧ State.Latest (stateOut r2) !! Name provider = Some (identity (Name provider) item).
Proof.
  intros Hf Ht Hb%basis_not_empty.
  destruct (addLatestFromProvider_spec W provider entries state σ1) as (r1 & σ1' & Hrun & Hspec).
  assert (identity (Name provider) item ∈ map Entry.ID (entriesOut r1)
          ∧ stateOut r1 = setLatest state (Name provider) (identity (Name provider) item))
    as [Hin Hst].
  { destruct Hspec as [e He|it Hit Hemp|it id s1 s2 Hit _ Hid Hold|it id s1 s2 text created Hit _ Hid Hnew];
      rewrite Hf in *; simplify_eq; rewrite pickEntryID_basis in Hid by done; simplify_eq; simpl.
    - done.
    - split; [|done]. rewrite map_app. simpl. apply elem_of_app. right. by apply list_elem_of_singleton. }
  destruct (poll_known provider item (entriesOut r1) (stateOut r1) σ2 Hf Ht Hb Hin)
    as (σ2' & Hrun2).
  eexists r1, σ1', _, σ2'. split; [done|]. split; [exact Hrun2|]. simpl.
  rewrite Hst, setLatest_twice, setLatest_lookup.
  split_and!; try done. apply lookup_insert_eq.
Qed.

(** C3. Identities stay pairwise distinct and entries are only appended:
    after any poll of any provider the entry list is the old list followed
    by at most one new entry, so every old entry is still there with its
    fields as they were, and if the identities were pairwise distinct they
    still are. *)
Theorem reconcile_appends provider entries state σ :
  NoDup (map Entry.ID entries) →
  ∃ r σ' tail,
    addLatestFromProvider W provider entries state σ = (Done r, σ')
    ∧ entriesOut r = entries ++ tail
    ∧ (length tail ≤ 1)%nat
    ∧ (∀ i e, entries !! i = Some e → entriesOut r !! i = Some e)
    ∧ NoDup (map Entry.ID (entriesOut r)).
Proof.
  intros Hnd.
  destruct (addLatestFromProvider_spec W provider entries state σ) as (r & σ' & Hrun & Hspec).
  assert (∃ tail, entriesOut r = entries ++ tail ∧ (length tail ≤ 1)%nat
                  ∧ NoDup (map Entry.ID (entriesOut r))) as (tail & Heq & Hlen & Hnd').
  { destruct Hspec; simpl.
    1-3: exists []; rewrite app_nil_r; simpl; split_and!; [done|lia|done].
    eexists [_]. split_and!; [done|simpl; lia|].
    rewrite map_app. apply NoDup_app. split_and!; [done| |apply NoDup_singleton].
    simpl. intros x Hx ->%list_elem_of_singleton. done. }
  exists r, σ', tail. split_and!; try done.
  intros i e Hi. rewrite Heq. by apply lookup_app_l_Some.
Qed.

(** C4 as amended. A poll whose fetch succeeds with an item that has a
    title (non-empty after trimming) sets the provider's latest identity to
    the identity computed for the item, whether or not an entry is created:
    if that identity is already in the entry list nothing is created and
    the list is unchanged, otherwise one entry with that identity is
    appended.  A poll whose fetch succeeds with an item whose trimmed title
    is empty does nothing: it reports no entry and no error, and the entry
    list, the state and the machine are as they were. *)
Theorem poll_sets_latest provider item entries state σ :
  Fetch provider (fetchFeed W) = Ok item →
  (strings.TrimSpace (feed.Title item) ≠ "" →
   ∃ id σid r σ',
     pickEntryID W (Name provider) item σ = (Done id, σid)
     ∧ addLatestFromProvider W provider entries state σ = (Done r, σ')
     ∧ err r = None
     ∧ State.Latest (stateOut r) !! Name provider = Some id
     ∧ (∀ other, other ≠ Name provider →
          State.Latest (stateOut r) !! other = State.Latest state !! other)
     ∧ (id ∈ map Entry.ID entries → added r = false ∧ entriesOut r = entries)
     ∧ (id ∉ map Entry.ID entries →
          added r = true ∧ ∃ e, entriesOut r = entries ++ [e] ∧ Entry.ID e = id))
  ∧ (strings.TrimSpace (feed.Title item) = "" →
     addLatestFromProvider W provider entries state σ
     = (Done (mkPolled false None entries state), σ)).
Proof.
  intros Hf. split.
  2:{ intros Ht. apply isEmpty_true in Ht.
      unfold addLatestFromProvider. by rewrite Hf, Ht. }
  intros Ht. apply isEmpty_false in Ht.
  destruct (pickEntryID_total W (Name provider) item σ) as (id & σ1 & Hid).
  exists id, σ1.
  unfold addLatestFromProvider. rewrite Hf, Ht, pickEntryID_withItem.
  unfold mbind at 1, IO_bind at 1. rewrite Hid.
  destruct (idExists entries id) eqn:Hex.
  - apply idExists_true in Hex.
    eexists _, _. split_and!; try done; simpl.
    + apply lookup_insert_eq.
    + intros other Hne. by apply lookup_insert_ne.
  - apply idExists_false in Hex.
    destruct (translateContent_total W (feed.Description (withItem item
                (cleanCategories (feed.Categories item)))) (Translate provider) σ1)
      as (text & σ2 & Htr).
    unfold mbind at 1, IO_bind at 1. rewrite Htr.
    destruct (pickEntryTime_total W (withItem item (cleanCategories (feed.Categories item))) σ2)
      as (created & σ3 & Hpt).
    unfold mbind at 1, IO_bind at 1. rewrite Hpt.
    eexists _, _. split_and!; try done; simpl.
    + apply lookup_insert_eq.
    + intros other Hne. by apply lookup_insert_ne.
    + intros _. split; [done|]. eauto.
Qed.

End reconcile_claims.

(** C1 at the blog provider of the demo world, from an empty entry list. *)
Lemma reconcile_twice_witness :
  ∃ r1 σ1' r2 σ2',
    cmd.addLatestFromProvider demo.world demo.blog [] (cmd.State.mk ∅) (demo.boot ∅)
      = (cmd.Done r1, σ1')
    ∧ cmd.addLatestFromProvider demo.world demo.blog (cmd.entriesOut r1) (cmd.stateOut r1)
        (demo.boot ∅) = (cmd.Done r2, σ2')
    ∧ cmd.added r2 = false
    ∧ cmd.err r2 = None
    ∧ cmd.entriesOut r2 = cmd.entriesOut r1
    ∧ cmd.stateOut r2 = cmd.stateOut r1
    ∧ cmd.State.Latest (cmd.stateOut r1) !! "wordpress-com" = Some demo.blogID
    ∧ cmd.State.Latest (cmd.stateOut r2) !! "wordpress-com" = Some demo.blogID.
Proof.
  apply (reconcile_twice demo.world demo.blog
           (feed.mkItem "Hello" "https://wordpress.com/blog/hello/" "guid-1"
              "Mon, 01 Jan 2024 10:00:00 +0000" "short" ["News"; " "])).
  - reflexivity.
  - vm_compute. discriminate.
  - left. vm_compute. discriminate.
Defined.

(** C3 at the blog provider of the demo world, on a list of one entry. *)
Lemma reconcile_appends_witness :
  ∃ r σ' tail,
    cmd.addLatestFromProvider demo.world demo.blog
      [cmd.Entry.mk "a" "A" "" "" "2023-01-01T00:00:00Z" []] (cmd.State.mk ∅) (demo.boot ∅)
      = (cmd.Done r, σ')
    ∧ cmd.entriesOut r = [cmd.Entry.mk "a" "A" "" "" "2023-01-01T00:00:00Z" []] ++ tail
    ∧ (length tail ≤ 1)%nat
    ∧ (∀ i e, [cmd.Entry.mk "a" "A" "" "" "2023-01-01T00:00:00Z" []] !! i = Some e →
              cmd.entriesOut r !! i = Some e)
    ∧ NoDup (map cmd.Entry.ID (cmd.entriesOut r)).
Proof.
  apply (reconcile_appends demo.world demo.blog).
  simpl. apply NoDup_singleton.
Defined.

(** C4 as stated fails: the fetch of [demo.untitled] succeeds, and the
    poll leaves the state without a latest identity for it, because the
    item's title is blank. *)
Lemma poll_untitled_counterexample :
  cmd.Fetch demo.untitled (cmd.fetchFeed demo.world)
    = Ok (feed.mkItem "  " "https://example.org/a" "" "Mon, 01 Jan 2024 10:00:00 +0000" "x" [])
  ∧ ∃ r σ',
      cmd.addLatestFromProvider demo.world demo.untitled [] (cmd.State.mk ∅) (demo.boot ∅)
        = (cmd.Done r, σ')
      ∧ cmd.State.Latest (cmd.stateOut r) !! cmd.Name demo.untitled = None.
Proof.
  split; [reflexivity|].
  eexists _, _. split; [vm_compute; reflexivity|]. reflexivity.
Qed.

(** The amended C4 in the demo world: at the blog provider, where the
    entry list already holds the post, and at the provider whose item has
    a blank title, on a list and a state that are not empty. *)
Lemma poll_sets_latest_witness :
  (∃ id σid r σ',
     cmd.pickEntryID demo.world "wordpress-com"
       (feed.mkItem "Hello" "https://wordpress.com/blog/hello/" "guid-1"
          "Mon, 01 Jan 2024 10:00:00 +0000" "short" ["News"; " "]) (demo.boot ∅)
       = (cmd.Done id, σid)
     ∧ cmd.addLatestFromProvider demo.world demo.blog [demo.blogEntry] (cmd.State.mk ∅)
         (demo.boot ∅) = (cmd.Done r, σ')
     ∧ cmd.err r = None
     ∧ cmd.State.Latest (cmd.stateOut r) !! "wordpress-com" = Some id
     ∧ (∀ other, other ≠ "wordpress-com" →
          cmd.State.Latest (cmd.stateOut r) !! other = (∅ : gmap string string) !! other)
     ∧ (id ∈ map cmd.Entry.ID [demo.blogEntry] →
          cmd.added r = false ∧ cmd.entriesOut r = [demo.blogEntry])
     ∧ (id ∉ map cmd.Entry.ID [demo.blogEntry] →
          cmd.added r = true
          ∧ ∃ e, cmd.entriesOut r = [demo.blogEntry] ++ [e] ∧ cmd.Entry.ID e = id))
  ∧ cmd.addLatestFromProvider demo.world demo.untitled [demo.blogEntry]
      (cmd.State.mk {[ "wordpress-com" := demo.blogID ]}) (demo.boot demo.seen)
    = (cmd.Done (cmd.mkPolled false None [demo.blogEntry]
                   (cmd.State.mk {[ "wordpress-com" := demo.blogID ]})),
       demo.boot demo.seen).
Proof.
  split.
  - apply (poll_sets_latest demo.world demo.blog
             (feed.mkItem "Hello" "https://wordpress.com/blog/hello/" "guid-1"
                "Mon, 01 Jan 2024 10:00:00 +0000" "short" ["News"; " "])).
    + reflexivity.
    + vm_compute. discriminate.
  - apply (poll_sets_latest demo.world demo.untitled
             (feed.mkItem "  " "https://example.org/a" "" "Mon, 01 Jan 2024 10:00:00 +0000"
                "x" [])).
    + reflexivity.
    + reflexivity.
Defined.

(** ** The run *)

Section run.
Import cmd.
Variable W : World.

Lemma final_cons {A} (a x : A) l : default a (last (x :: l)) = default x (last l).
Proof. rewrite last_cons. by destruct (last l). Qed.

Lemma poll_error_not_added provider entries state r :
  PollSpec W provider entries state r → is_Some (err r) → added r = false.
Proof. destruct 1; simpl; intros [? ?]; done. Qed.

Lemma poll_extends provider entries state r :
  PollSpec W provider entries state r → entries `prefix_of` entriesOut r.
Proof. destruct 1; simpl; try done. by eexists. Qed.

(** The loop of [RunFeedUpdate] never ends the process and leaves the
    files alone; its flags summarise the polls. *)
Lemma pollAll_log providers l σ :
  ∃ rs l' σ',
    pollAll W providers l σ = (Done l', σ')
    ∧ pollLog W providers (entriesNow l) (stateNow l) σ = (Done rs, σ')
    ∧ disk σ' = disk σ
    ∧ stdout σ' = stdout σ
    ∧ entriesNow l' = finalEntries (entriesNow l) rs
    ∧ stateNow l' = finalState (stateNow l) rs
    ∧ updated l' = existsb added rs || updated l
    ∧ firstErr l' = match firstErr l with Some e => Some e | None => head (omap err rs) end
    ∧ entriesNow l `prefix_of` entriesNow l'.
Proof.
  revert l σ. induction providers as [|p rest IH]; intros l σ.
  { exists [], l, σ. simpl. split_and!; try done. by destruct (firstErr l). }
  destruct (addLatestFromProvider_spec W p (entriesNow l) (stateNow l) σ)
    as (r & σ1 & Hrun & Hspec).
  pose proof (addLatestFromProvider_frame W _ _ _ _ _ _ Hrun) as [Hd Ho].
  pose proof (poll_extends _ _ _ _ Hspec) as Hpre.
  cbn [pollAll pollLog]. unfold mbind at 1 3, IO_bind at 1 3. rewrite Hrun.
  destruct (err r) as [e|] eqn:He.
  - assert (added r = false) as Ha by (eapply poll_error_not_added; [done|by rewrite He]).
    destruct (IH (mkLoop (entriesOut r) (stateOut r) (updated l)
                    (match firstErr l with None => Some e | Some e0 => Some e0 end))
                (mkMachine (ticks σ1) (stdout σ1) (stderr σ1 ++ @cons string e []) (disk σ1)))
      as (rs & l' & σ' & H1 & H2 & H3 & H4 & H5 & H6 & H7 & H8 & H9).
    exists (r :: rs), l', σ'.
    unfold mbind, IO_bind, Eprintln, mret, IO_ret.
    cbn [entriesNow stateNow updated firstErr] in *.
    rewrite H1, H2. split_and!; try done.
    + by rewrite H3.
    + by rewrite H4.
    + unfold finalEntries. cbn [fmap list_fmap]. by rewrite final_cons.
    + unfold finalState. cbn [fmap list_fmap]. by rewrite final_cons.
    + cbn [existsb]. by rewrite Ha.
    + rewrite H8. cbn [omap list_omap]. rewrite He. by destruct (firstErr l).
    + by etrans.
  - destruct (IH (mkLoop (entriesOut r) (stateOut r) (added r || updated l) (firstErr l)) σ1)
      as (rs & l' & σ' & H1 & H2 & H3 & H4 & H5 & H6 & H7 & H8 & H9).
    exists (r :: rs), l', σ'.
    unfold mbind, IO_bind, mret, IO_ret.
    cbn [entriesNow stateNow updated firstErr] in *.
    rewrite H1, H2. split_and!; try done.
    + by rewrite H3.
    + by rewrite H4.
    + unfold finalEntries. cbn [fmap list_fmap]. by rewrite final_cons.
    + unfold finalState. cbn [fmap list_fmap]. by rewrite final_cons.
    + rewrite H7. cbn [existsb]. by destruct (added r), (existsb added rs), (updated l).
    + rewrite H8. cbn [omap list_omap]. by rewrite He.
    + by etrans.
Qed.

Lemma append_assoc a b c : (a +:+ b) +:+ c = a +:+ (b +:+ c).
Proof.
  induction a as [|x a IH]; [done|].
  change (String x ((a +:+ b) +:+ c) = String x (a +:+ (b +:+ c))). by f_equal.
Qed.

(** [Join] puts at most one separator between its arguments. *)
Lemma Join_separator dir :
  ∃ sep, (sep = "" ∨ sep = "/") ∧ ∀ name, filepath.Join dir name = dir +:+ sep +:+ name.
Proof.
  unfold filepath.Join. destruct dir as [|c dir]; [exists ""; split; [by left|done]|].
  cbn [strings.isEmpty].
  destruct (strings.HasSuffix (String c dir) "/"); [exists ""|exists "/"]; split; auto.
Qed.

(** The four files of a run are four different paths. *)
Lemma paths_apart root :
  site (feedPaths root) ≠ state (feedPaths root)
  ∧ site (feedPaths root) ≠ entries (feedPaths root)
  ∧ site (feedPaths root) ≠ feed (feedPaths root)
  ∧ state (feedPaths root) ≠ entries (feedPaths root)
  ∧ state (feedPaths root) ≠ feed (feedPaths root)
  ∧ entries (feedPaths root) ≠ feed (feedPaths root).
Proof.
  cbv beta iota zeta delta [feedPaths site state entries feed].
  destruct (Join_separator root) as (s1 & Hs1 & H1). rewrite !H1.
  destruct (Join_separator (root +:+ s1 +:+ "data")) as (s2 & Hs2 & H2). rewrite !H2.
  rewrite !append_assoc.
  destruct Hs1 as [->| ->], Hs2 as [->| ->];
    split_and!; intros H%String.app_inj; vm_compute in H; discriminate H.
Qed.

Lemma paths_distinct root :
  state (feedPaths root) ≠ entries (feedPaths root)
  ∧ state (feedPaths root) ≠ feed (feedPaths root)
  ∧ entries (feedPaths root) ≠ feed (feedPaths root).
Proof. destruct (paths_apart root) as (_ & _ & _ & ? & ? & ?). done. Qed.

(** The reads at the start of [RunFeedUpdate]. *)
Lemma RunFeedUpdate_start v root σ :
  Getwd W = Ok root →
  RunFeedUpdate W v σ
  = (l ← pollAll W (feedProviders W v)
         (mkLoop (loadedEntries root σ) (loadedState root σ) false None);
     if negb (updated l) && bool_decide (is_Some (firstErr l)) then mret (firstErr l)
     else if negb (updated l) then Println "no update detected" ;; mret None
     else
       writeJSON W (state (feedPaths root)) (StateJSON (stateNow l)) ;;
       writeJSON W (entries (feedPaths root)) (EntriesJSON (entriesNow l)) ;;
       e ← buildFeed W (loadedSite root σ) (entriesNow l) (feed (feedPaths root));
       match e with
       | Some e => mret (Some e)
       | None => Println "update detected" ;; mret None
       end) σ.
Proof. intros H. unfold RunFeedUpdate. rewrite H. reflexivity. Qed.

(** Without a new entry the run writes nothing and returns the first
    provider error, if there was one. *)
Lemma RunFeedUpdate_no_update v root σ rs σp :
  Getwd W = Ok root →
  pollLog W (feedProviders W v) (loadedEntries root σ) (loadedState root σ) σ = (Done rs, σp) →
  existsb added rs = false →
  ∃ σ', RunFeedUpdate W v σ = (Done (head (omap err rs)), σ') ∧ disk σ' = disk σ.
Proof.
  intros Hwd Hlog Hno. rewrite (RunFeedUpdate_start v root σ Hwd).
  destruct (pollAll_log (feedProviders W v)
              (mkLoop (loadedEntries root σ) (loadedState root σ) false None) σ)
    as (rs' & l' & σ' & H1 & H2 & H3 & H4 & H5 & H6 & H7 & H8 & H9).
  cbn [entriesNow stateNow updated firstErr] in *.
  rewrite Hlog in H2. injection H2 as <- <-.
  unfold mbind at 1, IO_bind at 1. rewrite H1, H7, Hno, H8. cbn [orb negb andb].
  destruct (head (omap err rs)) as [e|] eqn:He.
  - rewrite bool_decide_eq_true_2 by eauto. eexists. split; [reflexivity|done].
  - rewrite bool_decide_eq_false_2 by (by intros [? ?]).
    eexists. split; [reflexivity|done].
Qed.

(** And it prints that no update was detected exactly when it returns no
    error. *)
Lemma RunFeedUpdate_no_update_out v root σ rs σp :
  Getwd W = Ok root →
  pollLog W (feedProviders W v) (loadedEntries root σ) (loadedState root σ) σ = (Done rs, σp) →
  existsb added rs = false →
  ∃ σ', RunFeedUpdate W v σ = (Done (head (omap err rs)), σ')
        ∧ disk σ' = disk σ
        ∧ (head (omap err rs) = None → stdout σ' = stdout σ ++ ["no update detected"])
        ∧ (is_Some (head (omap err rs)) → stdout σ' = stdout σ).
Proof.
  intros Hwd Hlog Hno. rewrite (RunFeedUpdate_start v root σ Hwd).
  destruct (pollAll_log (feedProviders W v)
              (mkLoop (loadedEntries root σ) (loadedState root σ) false None) σ)
    as (rs' & l' & σ' & H1 & H2 & H3 & H4 & H5 & H6 & H7 & H8 & H9).
  cbn [entriesNow stateNow updated firstErr] in *.
  rewrite Hlog in H2. injection H2 as <- <-.
  unfold mbind at 1, IO_bind at 1. rewrite H1, H7, Hno, H8. cbn [orb negb andb].
  destruct (head (omap err rs)) as [e|] eqn:He.
  - rewrite bool_decide_eq_true_2 by eauto. eexists. split; [reflexivity|].
    split_and!; [done|done|done].
  - rewrite bool_decide_eq_false_2 by (by intros [? ?]).
    eexists. split; [reflexivity|]. cbn [disk stdout]. rewrite H4.
    split_and!; [done|done|by intros [? ?]].
Qed.

(** With a new entry and files that can be written, the run writes the
    state, the entry list and the document, whatever the providers'
    errors, and returns no error. *)
Lemma RunFeedUpdate_update v root σ rs σp :
  Getwd W = Ok root →
  pollLog W (feedProviders W v) (loadedEntries root σ) (loadedState root σ) σ = (Done rs, σp) →
  existsb added rs = true →
  writable W root →
  ∃ σ', RunFeedUpdate W v σ = (Done None, σ')
        ∧ disk σ' = <[feed (feedPaths root) :=
                        FeedXML (buildRSS (loadedSite root σ) (finalEntries (loadedEntries root σ) rs))]>
                      (<[entries (feedPaths root) := EntriesJSON (finalEntries (loadedEntries root σ) rs)]>
                         (<[state (feedPaths root) := StateJSON (finalState (loadedState root σ) rs)]>
                            (disk σ))).
Proof.
  intros Hwd Hlog Hup Hw. rewrite (RunFeedUpdate_start v root σ Hwd).
  destruct (pollAll_log (feedProviders W v)
              (mkLoop (loadedEntries root σ) (loadedState root σ) false None) σ)
    as (rs' & l' & σ' & H1 & H2 & H3 & H4 & H5 & H6 & H7 & H8 & H9).
  cbn [entriesNow stateNow updated firstErr] in *.
  rewrite Hlog in H2. injection H2 as <- <-.
  destruct (Hw (state (feedPaths root))) as [Hc1 Hw1]; [rewrite !elem_of_cons; tauto|].
  destruct (Hw (entries (feedPaths root))) as [Hc2 Hw2]; [rewrite !elem_of_cons; tauto|].
  destruct (Hw (feed (feedPaths root))) as [Hc3 Hw3]; [rewrite !elem_of_cons; tauto|].
  unfold mbind at 1, IO_bind at 1. rewrite H1, H7, Hup. cbn [orb negb andb].
  unfold writeJSON, buildFeed. rewrite Hc1, Hw1, Hc2, Hw2, Hc3, Hw3.
  unfold mbind, IO_bind, mret, IO_ret, storeFile, Println. cbn [disk].
  eexists. split; [reflexivity|]. cbn [disk]. by rewrite H3, H5, H6.
Qed.

End run.

Section run_claims.
Import cmd.
Variable W : World.

(** C2 as amended. The provider errors decide the result of the run
    exactly when no provider created an entry: the run then returns the
    first provider error if there was one, and no error otherwise, however
    many polls succeeded.  When a provider created an entry and the files
    can be written, the run returns no error, whatever the other providers
    did. *)
Theorem run_status v root σ :
  Getwd W = Ok root →
  ∃ rs σp,
    pollLog W (feedProviders W v) (loadedEntries root σ) (loadedState root σ) σ = (Done rs, σp)
    ∧ (existsb added rs = false →
         ∃ σ', RunFeedUpdate W v σ = (Done (head (omap err rs)), σ'))
    ∧ (existsb added rs = true → writable W root →
         ∃ σ', RunFeedUpdate W v σ = (Done None, σ')).
Proof.
  intros Hwd.
  destruct (pollAll_log W (feedProviders W v)
              (mkLoop (loadedEntries root σ) (loadedState root σ) false None) σ)
    as (rs & l' & σp & _ & Hlog & _).
  exists rs, σp. split; [exact Hlog|]. split.
  - intros Hno. destruct (RunFeedUpdate_no_update W v root σ rs σp Hwd Hlog Hno) as (σ' & H & _).
    eauto.
  - intros Hup Hw.
    destruct (RunFeedUpdate_update W v root σ rs σp Hwd Hlog Hup Hw) as (σ' & H & _).
    eauto.
Qed.

(** C5 as amended. The state and the entry list are persisted and the
    document is rebuilt from the entry list exactly when a provider created
    an entry (the files being writable).  A run in which no provider
    created one returns and leaves every file as it was; it returns the
    first provider error if there was one, and when every poll succeeded
    it returns no error and prints that no update was detected. *)
Theorem run_persistence v root σ :
  Getwd W = Ok root →
  ∃ rs σp,
    pollLog W (feedProviders W v) (loadedEntries root σ) (loadedState root σ) σ = (Done rs, σp)
    ∧ (existsb added rs = true → writable W root →
         ∃ σ', RunFeedUpdate W v σ = (Done None, σ')
               ∧ disk σ' !! state (feedPaths root)
                 = Some (StateJSON (finalState (loadedState root σ) rs))
               ∧ disk σ' !! entries (feedPaths root)
                 = Some (EntriesJSON (finalEntries (loadedEntries root σ) rs))
               ∧ disk σ' !! feed (feedPaths root)
                 = Some (FeedXML (buildRSS (loadedSite root σ)
                                    (finalEntries (loadedEntries root σ) rs))))
    ∧ (existsb added rs = false →
         ∃ res σ', RunFeedUpdate W v σ = (Done res, σ') ∧ disk σ' = disk σ
                   ∧ res = head (omap err rs)
                   ∧ (Forall (λ r, err r = None) rs →
                      res = None ∧ stdout σ' = stdout σ ++ ["no update detected"])
                   ∧ (is_Some res → stdout σ' = stdout σ)).
Proof.
  intros Hwd.
  destruct (pollAll_log W (feedProviders W v)
              (mkLoop (loadedEntries root σ) (loadedState root σ) false None) σ)
    as (rs & l' & σp & _ & Hlog & _).
  exists rs, σp. split; [exact Hlog|]. split.
  - intros Hup Hw.
    destruct (RunFeedUpdate_update W v root σ rs σp Hwd Hlog Hup Hw) as (σ' & H & Hd).
    destruct (paths_distinct root) as (H1 & H2 & H3).
    exists σ'. split; [done|]. rewrite Hd. split_and!.
    + rewrite lookup_insert_ne by done. rewrite lookup_insert_ne by done.
      apply lookup_insert_eq.
    + rewrite lookup_insert_ne by done. apply lookup_insert_eq.
    + apply lookup_insert_eq.
  - intros Hno.
    destruct (RunFeedUpdate_no_update_out W v root σ rs σp Hwd Hlog Hno)
      as (σ' & H & Hd & Hquiet & Hloud).
    exists (head (omap err rs)), σ'. split_and!; [done|done|done| |done].
    intros Hok.
    assert (head (omap err rs) = None) as Hnone.
    { clear -Hok. induction Hok as [|r l Hr Hl IH]; [done|].
      cbn [omap list_omap]. by rewrite Hr. }
    split; [done|by apply Hquiet].
Qed.

End run_claims.

(** C2 as stated fails.  In the demo world the releases feed cannot be
    fetched and the two other polls succeed, the blog post being known
    already: the run returns the error of the first provider. *)
Lemma run_fails_despite_success_counterexample :
  ∃ r1 r2 r3 σp σ',
    pollLog demo.world (cmd.feedProviders demo.world demo.vars) [demo.blogEntry]
      (cmd.State.mk ∅) (demo.boot demo.seen) = (cmd.Done [r1; r2; r3], σp)
    ∧ cmd.err r1 = Some "connection refused"
    ∧ cmd.err r2 = None
    ∧ cmd.err r3 = None
    ∧ cmd.RunFeedUpdate demo.world demo.vars (demo.boot demo.seen)
      = (cmd.Done (Some "connection refused"), σ').
Proof.
  do 5 eexists. split_and!; [vm_compute; reflexivity|reflexivity..|vm_compute; reflexivity].
Qed.

(** The amended C2 in the demo world. *)
Lemma run_status_witness :
  ∃ rs σp,
    pollLog demo.world (cmd.feedProviders demo.world demo.vars)
      (loadedEntries "/srv/feed" (demo.boot demo.seen))
      (loadedState "/srv/feed" (demo.boot demo.seen)) (demo.boot demo.seen) = (cmd.Done rs, σp)
    ∧ (existsb cmd.added rs = false →
         ∃ σ', cmd.RunFeedUpdate demo.world demo.vars (demo.boot demo.seen)
               = (cmd.Done (head (omap cmd.err rs)), σ'))
    ∧ (existsb cmd.added rs = true → writable demo.world "/srv/feed" →
         ∃ σ', cmd.RunFeedUpdate demo.world demo.vars (demo.boot demo.seen)
               = (cmd.Done None, σ')).
Proof.
  apply (run_status demo.world demo.vars "/srv/feed" (demo.boot demo.seen)).
  reflexivity.
Defined.

(** C5 as stated fails.  In the quiet world every poll succeeds and the
    blog poll refreshes the state in memory, yet the run, which returns no
    error, writes neither the state nor the document. *)
Lemma run_skips_persistence_counterexample :
  ∃ r1 r2 r3 σp σ',
    pollLog demo.quiet (cmd.feedProviders demo.quiet demo.vars) [demo.blogEntry]
      (cmd.State.mk ∅) (demo.boot demo.seen) = (cmd.Done [r1; r2; r3], σp)
    ∧ cmd.err r1 = None ∧ cmd.err r2 = None ∧ cmd.err r3 = None
    ∧ cmd.State.Latest (cmd.stateOut r3) !! "wordpress-com" = Some demo.blogID
    ∧ cmd.RunFeedUpdate demo.quiet demo.vars (demo.boot demo.seen) = (cmd.Done None, σ')
    ∧ cmd.stdout σ' = ["no update detected"]
    ∧ cmd.disk σ' = demo.seen
    ∧ cmd.disk σ' !! "/srv/feed/data/state.json" = None
    ∧ cmd.disk σ' !! "/srv/feed/feed.xml" = None.
Proof.
  do 5 eexists.
  split_and!; vm_compute; reflexivity.
Qed.

(** The amended C5 in the quiet world: from no files, where the blog post
    is new, and from the files of an earlier run, where it is known. *)
Lemma run_persistence_witness :
  (∃ rs σp,
    pollLog demo.quiet (cmd.feedProviders demo.quiet demo.vars)
      (loadedEntries "/srv/feed" (demo.boot ∅))
      (loadedState "/srv/feed" (demo.boot ∅)) (demo.boot ∅) = (cmd.Done rs, σp)
    ∧ (existsb cmd.added rs = true → writable demo.quiet "/srv/feed" →
         ∃ σ', cmd.RunFeedUpdate demo.quiet demo.vars (demo.boot ∅) = (cmd.Done None, σ')
               ∧ cmd.disk σ' !! cmd.state (cmd.feedPaths "/srv/feed")
                 = Some (cmd.StateJSON (finalState (loadedState "/srv/feed" (demo.boot ∅)) rs))
               ∧ cmd.disk σ' !! cmd.entries (cmd.feedPaths "/srv/feed")
                 = Some (cmd.EntriesJSON (finalEntries (loadedEntries "/srv/feed" (demo.boot ∅)) rs))
               ∧ cmd.disk σ' !! cmd.feed (cmd.feedPaths "/srv/feed")
                 = Some (cmd.FeedXML (cmd.buildRSS (loadedSite "/srv/feed" (demo.boot ∅))
                                        (finalEntries (loadedEntries "/srv/feed" (demo.boot ∅)) rs))))
    ∧ (existsb cmd.added rs = false →
         ∃ res σ', cmd.RunFeedUpdate demo.quiet demo.vars (demo.boot ∅) = (cmd.Done res, σ')
                   ∧ cmd.disk σ' = cmd.disk (demo.boot ∅)
                   ∧ res = head (omap cmd.err rs)
                   ∧ (Forall (λ r, cmd.err r = None) rs →
                      res = None
                      ∧ cmd.stdout σ' = cmd.stdout (demo.boot ∅) ++ ["no update detected"])
                   ∧ (is_Some res → cmd.stdout σ' = cmd.stdout (demo.boot ∅))))
  ∧ (∃ rs σp,
    pollLog demo.quiet (cmd.feedProviders demo.quiet demo.vars)
      (loadedEntries "/srv/feed" (demo.boot demo.seen))
      (loadedState "/srv/feed" (demo.boot demo.seen)) (demo.boot demo.seen) = (cmd.Done rs, σp)
    ∧ (existsb cmd.added rs = true → writable demo.quiet "/srv/feed" →
         ∃ σ', cmd.RunFeedUpdate demo.quiet demo.vars (demo.boot demo.seen) = (cmd.Done None, σ')
               ∧ cmd.disk σ' !! cmd.state (cmd.feedPaths "/srv/feed")
                 = Some (cmd.StateJSON (finalState (loadedState "/srv/feed" (demo.boot demo.seen)) rs))
               ∧ cmd.disk σ' !! cmd.entries (cmd.feedPaths "/srv/feed")
                 = Some (cmd.EntriesJSON (finalEntries (loadedEntries "/srv/feed" (demo.boot demo.seen)) rs))
               ∧ cmd.disk σ' !! cmd.feed (cmd.feedPaths "/srv/feed")
                 = Some (cmd.FeedXML (cmd.buildRSS (loadedSite "/srv/feed" (demo.boot demo.seen))
                                        (finalEntries (loadedEntries "/srv/feed" (demo.boot demo.seen)) rs))))
    ∧ (existsb cmd.added rs = false →
         ∃ res σ', cmd.RunFeedUpdate demo.quiet demo.vars (demo.boot demo.seen) = (cmd.Done res, σ')
                   ∧ cmd.disk σ' = cmd.disk (demo.boot demo.seen)
                   ∧ res = head (omap cmd.err rs)
                   ∧ (Forall (λ r, cmd.err r = None) rs →
                      res = None
                      ∧ cmd.stdout σ' = cmd.stdout (demo.boot demo.seen) ++ ["no update detected"])
                   ∧ (is_Some res → cmd.stdout σ' = cmd.stdout (demo.boot demo.seen)))).
Proof.
  split.
  - apply (run_persistence demo.quiet demo.vars "/srv/feed" (demo.boot ∅)).
    reflexivity.
  - apply (run_persistence demo.quiet demo.vars "/srv/feed" (demo.boot demo.seen)).
    reflexivity.
Defined.

(** A first run in the quiet world, from no files: the post is recorded,
    and state, entry list and document are written. *)
Example demo_first_run :
  ∃ σ', cmd.RunFeedUpdate demo.quiet demo.vars (demo.boot ∅) = (cmd.Done None, σ')
        ∧ cmd.stdout σ' = ["update detected"]
        ∧ cmd.disk σ' !! "/srv/feed/data/state.json"
          = Some (cmd.StateJSON (cmd.State.mk {[ "wordpress-com" := demo.blogID ]}))
        ∧ cmd.disk σ' !! "/srv/feed/data/entries.json" = Some (cmd.EntriesJSON [demo.blogEntry])
        ∧ cmd.disk σ' !! "/srv/feed/feed.xml"
          = Some (cmd.FeedXML
                    (cmd.RSS.mk "2.0"
                       (cmd.Channel.mk "Wapuugotchi RSS" "" "" "Mon, 01 Jan 2024 10:00:00 +0000"
                          [cmd.Item.mk demo.blogID "Hello" "https://wordpress.com/blog/hello/"
                             "Mon, 01 Jan 2024 10:00:00 +0000" "short" ["News"]]))).
Proof.
  eexists. split_and!; [vm_compute; reflexivity|..]; vm_compute; reflexivity.
Qed.

(** ** Sorting *)

Section sort_facts.
Context {A : Type} (less : A → A → bool).

Lemma siftLeft_perm x acc : sort.siftLeft less x acc ≡ₚ x :: acc.
Proof.
  induction acc as [|y r IH]; simpl; [done|].
  destruct (less x y); [|done].
  rewrite IH. apply Permutation_swap.
Qed.

Lemma Slice_perm l : sort.Slice less l ≡ₚ l.
Proof.
  unfold sort.Slice. rewrite <- Permutation_rev.
  assert (∀ acc, fold_left (λ acc x, sort.siftLeft less x acc) l acc ≡ₚ l ++ acc) as H.
  { induction l as [|x l IH]; intros acc; simpl; [done|].
    rewrite IH, siftLeft_perm. by rewrite Permutation_middle. }
  by rewrite H, app_nil_r.
Qed.

Hypothesis less_asym : ∀ x y, less x y = true → less y x = false.
Hypothesis less_negtrans :
  ∀ x y z, less x y = false → less y z = false → less x z = false.

Lemma siftLeft_sorted x acc :
  StronglySorted (λ a b, less a b = false) acc →
  StronglySorted (λ a b, less a b = false) (sort.siftLeft less x acc).
Proof.
  induction acc as [|y r IH]; simpl; intros Hs.
  { repeat constructor. }
  apply StronglySorted_cons in Hs as [Hy Hr].
  destruct (less x y) eqn:Hxy.
  - apply StronglySorted_cons. split; [|by apply IH].
    rewrite siftLeft_perm. constructor; [by apply less_asym|done].
  - apply StronglySorted_cons. split.
    + constructor; [done|].
      eapply Forall_impl; [exact Hy|]. intros z Hz. by eapply less_negtrans.
    + by apply StronglySorted_cons.
Qed.

Lemma StronglySorted_rev (R : relation A) l :
  StronglySorted R l → StronglySorted (flip R) (rev l).
Proof.
  induction 1 as [|x l Hs IH Hx]; simpl; [constructor|].
  apply StronglySorted_app. split_and!; [|done|repeat constructor].
  intros a b Ha ->%list_elem_of_singleton. unfold flip.
  rewrite Forall_forall in Hx. apply Hx.
  by rewrite list_elem_of_In, in_rev, <- list_elem_of_In.
Qed.

(** What [sort.Slice] promises: no element is less than one before it. *)
Lemma Slice_sorted l :
  StronglySorted (λ a b, less b a = false) (sort.Slice less l).
Proof.
  unfold sort.Slice.
  apply (StronglySorted_rev (λ a b, less a b = false)).
  assert (∀ acc, StronglySorted (λ a b, less a b = false) acc →
                 StronglySorted (λ a b, less a b = false)
                   (fold_left (λ acc x, sort.siftLeft less x acc) l acc)) as H.
  { induction l as [|x l IH]; intros acc Hacc; simpl; [done|].
    apply IH. by apply siftLeft_sorted. }
  apply H. constructor.
Qed.

End sort_facts.

(** The comparison of [buildFeed] is a strict order on the timestamps. *)
Lemma ltb_leb a b : String.ltb a b = negb (String.leb b a).
Proof.
  unfold String.ltb, String.leb. rewrite (String.compare_antisym a b).
  by destruct (String.compare b a).
Qed.

Lemma newerFirst_asym x y :
  cmd.newerFirst x y = true → cmd.newerFirst y x = false.
Proof.
  unfold cmd.newerFirst, String.ltb.
  rewrite (String.compare_antisym (cmd.Entry.CreatedAt x)).
  by destruct (String.compare _ _).
Qed.

Lemma newerFirst_negtrans x y z :
  cmd.newerFirst x y = false → cmd.newerFirst y z = false → cmd.newerFirst x z = false.
Proof.
  unfold cmd.newerFirst. rewrite !ltb_leb, !negb_false_iff.
  intros H1 H2. apply Is_true_true. apply Is_true_true in H1, H2.
  change (String.le (cmd.Entry.CreatedAt x) (cmd.Entry.CreatedAt z)).
  by etrans.
Qed.

Lemma sorted_entries_perm entries : sort.Slice cmd.newerFirst entries ≡ₚ entries.
Proof. apply Slice_perm. Qed.

Lemma sorted_entries_order entries :
  StronglySorted (λ a b, String.ltb (cmd.Entry.CreatedAt a) (cmd.Entry.CreatedAt b) = false)
    (sort.Slice cmd.newerFirst entries).
Proof.
  apply (Slice_sorted cmd.newerFirst newerFirst_asym newerFirst_negtrans).
Qed.

(** ** Normalized timestamps: text order is time order *)

Lemma digitVal_range c v : time.digitVal c = Some v → 0 ≤ v ≤ 9 ∧ Z.of_N (N_of_ascii c) = v + 48.
Proof.
  unfold time.digitVal. cbv zeta.
  destruct (Z.leb_spec 48 (Z.of_N (N_of_ascii c)));
    destruct (Z.leb_spec (Z.of_N (N_of_ascii c)) 57); simpl; intros ?; simplify_eq.
  lia.
Qed.

Lemma digit_not_space c v :
  time.digitVal c = Some v → strings.isSpace c = false ∧ (N_of_ascii c < 128)%N.
Proof.
  intros [Hr Hn]%digitVal_range. unfold strings.isSpace. cbv zeta.
  split; [|lia].
  apply orb_false_intro; [apply andb_false_intro2; apply N.leb_gt|apply N.eqb_neq]; lia.
Qed.

Lemma isSpace2_ascii_l a b : (N_of_ascii a < 128)%N → strings.isSpace2 a b = false.
Proof.
  intros H. unfold strings.isSpace2. cbv zeta.
  apply andb_false_intro1. apply N.eqb_neq. lia.
Qed.

Lemma isSpace2_ascii_r a b : (N_of_ascii b < 128)%N → strings.isSpace2 a b = false.
Proof.
  intros H. unfold strings.isSpace2. cbv zeta.
  apply andb_false_intro2. apply orb_false_intro; apply N.eqb_neq; lia.
Qed.

Lemma isSpace3_ascii_l a b c : (N_of_ascii a < 128)%N → strings.isSpace3 a b c = false.
Proof.
  intros H. unfold strings.isSpace3. cbv zeta.
  replace (N_of_ascii a =? 225)%N with false by (symmetry; apply N.eqb_neq; lia).
  replace (N_of_ascii a =? 226)%N with false by (symmetry; apply N.eqb_neq; lia).
  replace (N_of_ascii a =? 227)%N with false by (symmetry; apply N.eqb_neq; lia).
  reflexivity.
Qed.

Lemma isSpace3_ascii_r a b c : (N_of_ascii c < 128)%N → strings.isSpace3 a b c = false.
Proof.
  intros H. unfold strings.isSpace3. cbv zeta.
  replace (N_of_ascii c =? 128)%N with false by (symmetry; apply N.eqb_neq; lia).
  replace (128 <=? N_of_ascii c)%N with false by (symmetry; apply N.leb_gt; lia).
  replace (N_of_ascii c =? 168)%N with false by (symmetry; apply N.eqb_neq; lia).
  replace (N_of_ascii c =? 169)%N with false by (symmetry; apply N.eqb_neq; lia).
  replace (N_of_ascii c =? 175)%N with false by (symmetry; apply N.eqb_neq; lia).
  replace (N_of_ascii c =? 159)%N with false by (symmetry; apply N.eqb_neq; lia).
  by rewrite !andb_false_r.
Qed.

(** A text keeps a first and a last byte that are ASCII and not white
    space. *)
Lemma trimLeft_ascii a r :
  strings.isSpace a = false → (N_of_ascii a < 128)%N →
  strings.trimLeft (a :: r) = a :: r.
Proof.
  intros Hs Ha. cbn [strings.trimLeft]. rewrite Hs.
  destruct r as [|b [|c r3]]; [done| |].
  - by rewrite (isSpace2_ascii_l a b Ha).
  - by rewrite (isSpace2_ascii_l a b Ha), (isSpace3_ascii_l a b c Ha).
Qed.

Lemma trimLeftRev_ascii a r :
  strings.isSpace a = false → (N_of_ascii a < 128)%N →
  strings.trimLeftRev (a :: r) = a :: r.
Proof.
  intros Hs Ha. cbn [strings.trimLeftRev]. rewrite Hs.
  destruct r as [|b [|c r3]]; [done| |].
  - by rewrite (isSpace2_ascii_r b a Ha).
  - by rewrite (isSpace2_ascii_r b a Ha), (isSpace3_ascii_r c b a Ha).
Qed.

Lemma digit_compare c c' v v' :
  time.digitVal c = Some v → time.digitVal c' = Some v' →
  Ascii.compare c c' = (v ?= v').
Proof.
  intros [_ H]%digitVal_range [_ H']%digitVal_range.
  unfold Ascii.compare. rewrite <- N2Z.inj_compare, H, H'.
  rewrite !(Z.add_comm _ 48). apply Z.add_compare_mono_l.
Qed.

Lemma ascii_compare_refl c : Ascii.compare c c = Eq.
Proof. unfold Ascii.compare. apply N.compare_refl. Qed.

Lemma getnum_two a b rest fixed x y :
  time.digitVal a = Some x → time.digitVal b = Some y →
  time.getnum (String a (String b rest)) fixed = Some (x * 10 + y, rest).
Proof. intros Ha Hb. unfold time.getnum. by rewrite Ha, Hb. Qed.

Lemma getyear_four a b c d rest x1 x2 x3 x4 :
  time.digitVal a = Some x1 → time.digitVal b = Some x2 →
  time.digitVal c = Some x3 → time.digitVal d = Some x4 →
  time.getyear (String a (String b (String c (String d rest))))
  = Some (((x1 * 10 + x2) * 10 + x3) * 10 + x4, rest).
Proof. intros Ha Hb Hc Hd. unfold time.getyear. by rewrite Ha, Hb, Hc, Hd. Qed.

Lemma skip_same c rest : time.skip c (String c rest) = Some rest.
Proof. unfold time.skip. by rewrite Ascii.eqb_refl. Qed.

Section layout.
Variables y1 y2 y3 y4 m1 m2 d1 d2 h1 h2 i1 i2 s1 s2 : ascii.
Variables vy1 vy2 vy3 vy4 vm1 vm2 vd1 vd2 vh1 vh2 vi1 vi2 vs1 vs2 : Z.
Hypothesis Hy1 : time.digitVal y1 = Some vy1.
Hypothesis Hy2 : time.digitVal y2 = Some vy2.
Hypothesis Hy3 : time.digitVal y3 = Some vy3.
Hypothesis Hy4 : time.digitVal y4 = Some vy4.
Hypothesis Hm1 : time.digitVal m1 = Some vm1.
Hypothesis Hm2 : time.digitVal m2 = Some vm2.
Hypothesis Hd1 : time.digitVal d1 = Some vd1.
Hypothesis Hd2 : time.digitVal d2 = Some vd2.
Hypothesis Hh1 : time.digitVal h1 = Some vh1.
Hypothesis Hh2 : time.digitVal h2 = Some vh2.
Hypothesis Hi1 : time.digitVal i1 = Some vi1.
Hypothesis Hi2 : time.digitVal i2 = Some vi2.
Hypothesis Hs1 : time.digitVal s1 = Some vs1.
Hypothesis Hs2 : time.digitVal s2 = Some vs2.

Let text := layoutText y1 y2 y3 y4 m1 m2 d1 d2 h1 h2 i1 i2 s1 s2.
Let Y := ((vy1 * 10 + vy2) * 10 + vy3) * 10 + vy4.
Let M := vm1 * 10 + vm2.
Let D := vd1 * 10 + vd2.
Let h := vh1 * 10 + vh2.
Let mi := vi1 * 10 + vi2.
Let s := vs1 * 10 + vs2.

Lemma layout_trim : strings.TrimSpace text = text.
Proof.
  destruct (digit_not_space _ _ Hy1) as [Hs Ha].
  unfold text, layoutText, strings.TrimSpace, strings.trimRight.
  cbn [String.list_ascii_of_string]. rewrite (trimLeft_ascii _ _ Hs Ha).
  cbn [rev app]. rewrite trimLeftRev_ascii by (reflexivity || (vm_compute; reflexivity)).
  reflexivity.
Qed.

Lemma layout_parse :
  cmd.parseTime text
  = if validFields Y M D h mi s then Some (time.Date Y M D h mi s 0) else None.
Proof.
  unfold cmd.parseTime. rewrite layout_trim.
  unfold text, layoutText, time.ParseRFC3339.
  rewrite (getyear_four _ _ _ _ _ _ _ _ _ Hy1 Hy2 Hy3 Hy4).
  cbn [mbind option_bind]. rewrite skip_same. cbn [mbind option_bind].
  rewrite (getnum_two _ _ _ _ _ _ Hm1 Hm2). cbn [mbind option_bind].
  fold Y M. unfold validFields.
  destruct (Z.leb_spec 1 M), (Z.leb_spec M 12);
    destruct (Z.leb_spec M 0), (Z.ltb_spec 12 M); try lia; try done.
  cbn [orb andb].
  rewrite skip_same. cbn [mbind option_bind].
  rewrite (getnum_two _ _ _ _ _ _ Hd1 Hd2). cbn [mbind option_bind].
  rewrite skip_same. cbn [mbind option_bind].
  rewrite (getnum_two _ _ _ _ _ _ Hh1 Hh2). cbn [mbind option_bind].
  fold D h.
  destruct (Z.leb_spec 24 h), (Z.ltb_spec h 24); try lia.
  { by rewrite !andb_false_r. }
  rewrite skip_same. cbn [mbind option_bind].
  rewrite (getnum_two _ _ _ _ _ _ Hi1 Hi2). cbn [mbind option_bind].
  fold mi.
  destruct (Z.leb_spec 60 mi), (Z.ltb_spec mi 60); try lia.
  { by rewrite !andb_false_r. }
  rewrite skip_same. cbn [mbind option_bind].
  rewrite (getnum_two _ _ _ _ _ _ Hs1 Hs2). cbn [mbind option_bind].
  fold s.
  destruct (Z.leb_spec 60 s), (Z.ltb_spec s 60); try lia.
  { by rewrite !andb_false_r. }
  cbn [time.getfrac time.getzone mbind option_bind strings.isEmpty negb].
  destruct (Z.ltb_spec D 1), (Z.leb_spec 1 D); try lia; try done.
  destruct (Z.ltb_spec (time.daysIn M Y) D), (Z.leb_spec D (time.daysIn M Y)); try lia; try done.
  cbn [orb andb]. f_equal. unfold time.Date. cbn [time.unixSec]. f_equal. lia.
Qed.

End layout.

Lemma isDigit_val c : isDigit c = true → ∃ v, time.digitVal c = Some v.
Proof. unfold isDigit. intros [v Hv]%bool_decide_eq_true. eauto. Qed.

Lemma normalized_layout s :
  isNormalized s = true → ∃ Y M D h mi sec, Layout s Y M D h mi sec.
Proof.
  unfold isNormalized. intros H.
  do 20 (destruct s as [|? s]; [discriminate H|]).
  destruct s; [|discriminate H].
  cbn [String.list_ascii_of_string forallb] in H.
  repeat match goal with
         | E : _ && _ = true |- _ => apply andb_prop in E; destruct E
         end.
  repeat match goal with
         | E : Ascii.eqb _ _ = true |- _ => apply Ascii.eqb_eq in E; subst
         | E : isDigit _ = true |- _ => apply isDigit_val in E; destruct E as [? E]
         end.
  do 6 eexists. by eapply Layout_intro.
Qed.

Lemma Layout_parse s Y M D h mi sec :
  Layout s Y M D h mi sec →
  cmd.parseTime s = if validFields Y M D h mi sec then Some (time.Date Y M D h mi sec 0) else None.
Proof. destruct 1. by apply layout_parse. Qed.

Lemma Layout_bounds s Y M D h mi sec :
  Layout s Y M D h mi sec →
  0 ≤ Y ≤ 9999 ∧ 0 ≤ M ≤ 99 ∧ 0 ≤ D ≤ 99 ∧ 0 ≤ h ≤ 99 ∧ 0 ≤ mi ≤ 99 ∧ 0 ≤ sec ≤ 99.
Proof.
  destruct 1.
  repeat match goal with
         | E : time.digitVal _ = Some _ |- _ => apply digitVal_range in E; destruct E as [E _]
         end.
  lia.
Qed.

Lemma Layout_compare s Y M D h mi sec s' Y' M' D' h' mi' sec' :
  Layout s Y M D h mi sec → Layout s' Y' M' D' h' mi' sec' →
  String.compare s s' = (lexKey Y M D h mi sec ?= lexKey Y' M' D' h' mi' sec').
Proof.
  destruct 1, 1. unfold layoutText. cbn [String.compare].
  repeat first [rewrite ascii_compare_refl
               |erewrite digit_compare by eassumption].
  cbv beta iota.
  repeat match goal with
         | E : time.digitVal _ = Some _ |- _ => apply digitVal_range in E; destruct E as [E _]
         end.
  unfold lexKey.
  repeat lazymatch goal with
         | |- match ?a ?= ?b with _ => _ end = _ =>
             destruct (Z.compare_spec a b);
             [subst
             |symmetry; apply Z.compare_lt_iff; lia
             |symmetry; apply Z.compare_gt_iff; lia]
         end.
  symmetry. apply Z.compare_refl.
Qed.

(** *** The calendar *)

Lemma daysBeforeYear_step y :
  time.daysBeforeYear (y + 1) = time.daysBeforeYear y + 365 + (if time.isLeap y then 1 else 0).
Proof.
  unfold time.daysBeforeYear, time.isLeap. cbv zeta.
  replace (y + 1 - 1) with y by lia.
  destruct (Z.eqb_spec (y mod 4) 0), (Z.eqb_spec (y mod 100) 0), (Z.eqb_spec (y mod 400) 0);
    cbn [negb andb orb]; Z.div_mod_to_equations; lia.
Qed.

Lemma daysBeforeYear_mono a b :
  a ≤ b → time.daysBeforeYear a + 365 * (b - a) ≤ time.daysBeforeYear b.
Proof.
  intros Hab. pattern b. apply (Zlt_lower_bound_ind _ a); [|done].
  intros x IH Hx. destruct (decide (x = a)) as [->|Hne]; [lia|].
  specialize (IH (x - 1) ltac:(lia)).
  replace x with (x - 1 + 1) at 2 by lia.
  rewrite daysBeforeYear_step. destruct (time.isLeap (x - 1)); lia.
Qed.

Ltac month_cases M :=
  let H := fresh "HM" in
  assert (M = 1 ∨ M = 2 ∨ M = 3 ∨ M = 4 ∨ M = 5 ∨ M = 6 ∨ M = 7 ∨ M = 8 ∨ M = 9
          ∨ M = 10 ∨ M = 11 ∨ M = 12) as H by lia;
  repeat (destruct H as [->|H]); [..|subst M].

Lemma yearday_bound Y M D :
  1 ≤ M ≤ 12 → 1 ≤ D ≤ time.daysIn M Y →
  1 ≤ time.daysBefore M Y + D ≤ 365 + (if time.isLeap Y then 1 else 0).
Proof.
  intros HM. month_cases M; unfold time.daysIn, time.daysBefore; simpl;
    destruct (time.isLeap Y); simpl; lia.
Qed.

Lemma month_mono Y M D M' D' :
  1 ≤ M → M' ≤ 12 → 1 ≤ D ≤ time.daysIn M Y → 1 ≤ D' → M < M' →
  time.daysBefore M Y + D < time.daysBefore M' Y + D'.
Proof.
  intros HM HM' HD HD' Hlt.
  assert (1 ≤ M ≤ 12) as HMr by lia. assert (1 ≤ M' ≤ 12) as HMr' by lia.
  month_cases M; month_cases M'; try lia;
    unfold time.daysIn, time.daysBefore in *; simpl in *;
    destruct (time.isLeap Y); simpl in *; lia.
Qed.

Lemma unixDays_mono Y M D Y' M' D' :
  1 ≤ M ≤ 12 → 1 ≤ D ≤ time.daysIn M Y →
  1 ≤ M' ≤ 12 → 1 ≤ D' ≤ time.daysIn M' Y' →
  Y < Y' ∨ (Y = Y' ∧ (M < M' ∨ (M = M' ∧ D < D'))) →
  time.unixDays Y M D < time.unixDays Y' M' D'.
Proof.
  intros HM HD HM' HD' Hlex. unfold time.unixDays.
  destruct Hlex as [Hy|[-> [Hm|[-> Hd]]]].
  - pose proof (yearday_bound Y M D HM HD).
    pose proof (yearday_bound Y' M' D' HM' HD').
    pose proof (daysBeforeYear_mono (Y + 1) Y' ltac:(lia)).
    rewrite daysBeforeYear_step in *. lia.
  - pose proof (month_mono Y' M D M' D'). lia.
  - lia.
Qed.

Lemma validFields_ranges Y M D h mi sec :
  validFields Y M D h mi sec = true →
  1 ≤ M ≤ 12 ∧ 1 ≤ D ≤ time.daysIn M Y ∧ h < 24 ∧ mi < 60 ∧ sec < 60.
Proof.
  unfold validFields. intros H.
  repeat (apply andb_prop in H; destruct H as [H ?]).
  repeat match goal with
         | E : (_ <=? _) = true |- _ => apply Z.leb_le in E
         | E : (_ <? _) = true |- _ => apply Z.ltb_lt in E
         end.
  lia.
Qed.

(** Text order of two normalized timestamps is the order of their instants. *)
Lemma stamp_order s1 s2 t1 t2 :
  isNormalized s1 = true → isNormalized s2 = true →
  cmd.parseTime s1 = Some t1 → cmd.parseTime s2 = Some t2 →
  String.compare s1 s2 = (time.unixSec t1 ?= time.unixSec t2) ∧ time.nsec t1 = 0 ∧ time.nsec t2 = 0.
Proof.
  intros (Y & M & D & h & mi & sec & L1)%normalized_layout
         (Y' & M' & D' & h' & mi' & sec' & L2)%normalized_layout P1 P2.
  rewrite (Layout_parse _ _ _ _ _ _ _ L1) in P1.
  rewrite (Layout_parse _ _ _ _ _ _ _ L2) in P2.
  destruct (validFields Y M D h mi sec) eqn:V1; [|done].
  destruct (validFields Y' M' D' h' mi' sec') eqn:V2; [|done].
  simplify_eq. split; [|done].
  rewrite (Layout_compare _ _ _ _ _ _ _ _ _ _ _ _ _ _ L1 L2).
  apply Layout_bounds in L1, L2.
  apply validFields_ranges in V1 as (HM & HD & ? & ? & ?).
  apply validFields_ranges in V2 as (HM' & HD' & ? & ? & ?).
  unfold time.Date, lexKey. cbn [time.unixSec].
  destruct (Z.lt_trichotomy Y Y') as [Hy|[->|Hy]];
    [|destruct (Z.lt_trichotomy M M') as [Hm|[->|Hm]];
      [|destruct (Z.lt_trichotomy D D') as [Hd|[->|Hd]]|]|].
  - pose proof (unixDays_mono Y M D Y' M' D' HM HD HM' HD' ltac:(lia)).
    transitivity Lt; [|symmetry]; apply Z.compare_lt_iff; lia.
  - pose proof (unixDays_mono Y' M D Y' M' D' HM HD HM' HD' ltac:(lia)).
    transitivity Lt; [|symmetry]; apply Z.compare_lt_iff; lia.
  - pose proof (unixDays_mono Y' M' D Y' M' D' HM HD HM' HD' ltac:(lia)).
    transitivity Lt; [|symmetry]; apply Z.compare_lt_iff; lia.
  - destruct (Z.compare_spec (h * 3600 + mi * 60 + sec) (h' * 3600 + mi' * 60 + sec')).
    + transitivity Eq; [|symmetry]; apply Z.compare_eq_iff; lia.
    + transitivity Lt; [|symmetry]; apply Z.compare_lt_iff; lia.
    + transitivity Gt; [|symmetry]; apply Z.compare_gt_iff; lia.
  - pose proof (unixDays_mono Y' M' D' Y' M' D HM' HD' HM HD ltac:(lia)).
    transitivity Gt; [|symmetry]; apply Z.compare_gt_iff; lia.
  - pose proof (unixDays_mono Y' M' D' Y' M D HM' HD' HM HD ltac:(lia)).
    transitivity Gt; [|symmetry]; apply Z.compare_gt_iff; lia.
  - pose proof (unixDays_mono Y' M' D' Y M D HM' HD' HM HD ltac:(lia)).
    transitivity Gt; [|symmetry]; apply Z.compare_gt_iff; lia.
Qed.

(** ** The built document *)

Section feed_facts.
Import cmd.

Lemma omap_sorted {A B} (R : relation A) (R' : relation B) (f : A → option B) l :
  StronglySorted R l →
  (∀ a b t u, a ∈ l → b ∈ l → R a b → f a = Some t → f b = Some u → R' t u) →
  StronglySorted R' (omap f l).
Proof.
  induction 1 as [|x l Hs IH Hx]; intros HR; simpl; [constructor|].
  assert (StronglySorted R' (omap f l)) as IH'.
  { apply IH. intros a b t u Ha Hb. apply HR; by right. }
  destruct (f x) as [t|] eqn:Hfx; [|done].
  constructor; [done|].
  apply Forall_forall. intros u (b & Hb & Hfb)%list_elem_of_omap.
  rewrite Forall_forall in Hx.
  eapply (HR x b); [by left|by right|by apply Hx|done|done].
Qed.

Lemma StronglySorted_conj {A} (R1 R2 : relation A) l :
  StronglySorted R1 l → StronglySorted R2 l →
  StronglySorted (λ a b, R1 a b ∧ R2 a b) l.
Proof.
  induction 1 as [|x l Hs IH Hx]; intros H2; [constructor|].
  apply StronglySorted_cons in H2 as [Hx2 H2].
  constructor; [by apply IH|].
  rewrite Forall_forall in *. intros b Hb. split; auto.
Qed.

Lemma NoDup_apart {A B} (f : A → B) l :
  NoDup (f <$> l) → StronglySorted (λ a b, f a ≠ f b) l.
Proof.
  induction l as [|x l IH]; simpl; [constructor|].
  intros [Hx Hl]%NoDup_cons. constructor; [by apply IH|].
  apply Forall_forall. intros b Hb Heq. apply Hx. rewrite Heq.
  by apply list_elem_of_fmap_2.
Qed.

Lemma items_of_entries site es :
  Channel.Items (RSS.Channel (buildRSS site es)) ≡ₚ omap feedItem es.
Proof. cbn. by rewrite sorted_entries_perm. Qed.

Lemma item_pubdates site es :
  Item.PubDate <$> Channel.Items (RSS.Channel (buildRSS site es))
  = time.FormatRFC1123Z <$> instants es.
Proof.
  unfold instants. cbn. induction (sort.Slice newerFirst es) as [|e l IH]; [done|].
  cbn. unfold feedItem at 1.
  destruct (parseTime (Entry.CreatedAt e)); cbn; by rewrite IH.
Qed.

Lemma before_false_iff t u :
  time.nsec t = 0 → time.nsec u = 0 →
  time.before t u = false ↔ time.unixSec u ≤ time.unixSec t.
Proof.
  intros Ht Hu. unfold time.before. rewrite Ht, Hu.
  rewrite andb_false_r, orb_false_r. apply Z.ltb_ge.
Qed.

Lemma before_true_iff t u :
  time.nsec t = 0 → time.nsec u = 0 →
  time.before t u = true ↔ time.unixSec t < time.unixSec u.
Proof.
  intros Ht Hu. unfold time.before. rewrite Ht, Hu.
  rewrite andb_false_r, orb_false_r. apply Z.ltb_lt.
Qed.

(** On well stamped entries, not earlier in the text order is not earlier
    in time. *)
Lemma text_order_is_time_order a b t u :
  wellStamped a → wellStamped b →
  parseTime (Entry.CreatedAt a) = Some t → parseTime (Entry.CreatedAt b) = Some u →
  String.ltb (Entry.CreatedAt a) (Entry.CreatedAt b) = false →
  time.before t u = false
  ∧ (Entry.CreatedAt a ≠ Entry.CreatedAt b → time.before u t = true).
Proof.
  intros [Na _] [Nb _] Pa Pb Hlt.
  destruct (stamp_order _ _ _ _ Na Nb Pa Pb) as (Hc & Ht & Hu).
  unfold String.ltb in Hlt. rewrite Hc in Hlt.
  destruct (Z.compare_spec (time.unixSec t) (time.unixSec u)) as [Heq|Hl|Hg]; [| done |].
  - split; [apply before_false_iff; [done..|lia]|].
    intros Hne. exfalso. apply Hne. by apply String.compare_eq_iff.
  - split; [apply before_false_iff; [done..|lia]|].
    intros _. apply before_true_iff; [done..|lia].
Qed.

Lemma sorted_wellStamped es :
  Forall wellStamped es → Forall wellStamped (sort.Slice newerFirst es).
Proof. intros H. by rewrite sorted_entries_perm. Qed.

Lemma feedItem_is_Some e : wellStamped e → is_Some (feedItem e).
Proof. intros [_ [t Ht]]. unfold feedItem. rewrite Ht. eauto. Qed.

Lemma omap_total_length {A B} (f : A → option B) l :
  Forall (λ a, is_Some (f a)) l → length (omap f l) = length l.
Proof.
  induction 1 as [|x l [y Hy] Hl IH]; [done|].
  cbn [omap list_omap]. rewrite Hy. cbn [length]. by f_equal.
Qed.

(** C6 as amended. For an entry list whose creation timestamps are all
    normalized and parse, the built document has one item per entry, the
    items' dates are the creation instants in the order of the list
    [instants], and that order is newest first: no item is followed by a
    later one.  It is strictly descending when the timestamps are pairwise
    distinct, as for [t1 < t2 < t3], which are listed [t3, t2, t1]. *)
Theorem feed_newest_first site es :
  Forall wellStamped es →
  length (Channel.Items (RSS.Channel (buildRSS site es))) = length es
  ∧ Channel.Items (RSS.Channel (buildRSS site es)) ≡ₚ omap feedItem es
  ∧ Item.PubDate <$> Channel.Items (RSS.Channel (buildRSS site es))
    = time.FormatRFC1123Z <$> instants es
  ∧ newestFirst (instants es)
  ∧ (NoDup (Entry.CreatedAt <$> es) → strictlyNewestFirst (instants es)).
Proof.
  intros Hw. pose proof (sorted_wellStamped es Hw) as Hws.
  rewrite Forall_forall in Hws.
  split_and!.
  - cbn. rewrite omap_total_length.
    + by rewrite sorted_entries_perm.
    + apply Forall_forall. intros e He. by apply feedItem_is_Some, Hws.
  - apply items_of_entries.
  - apply item_pubdates.
  - unfold newestFirst, instants.
    eapply omap_sorted; [apply sorted_entries_order|].
    intros a b t u Ha Hb Hab Pa Pb. cbn beta in *.
    by destruct (text_order_is_time_order a b t u (Hws a Ha) (Hws b Hb) Pa Pb Hab).
  - intros Hnd. unfold strictlyNewestFirst, instants.
    eapply omap_sorted.
    + apply StronglySorted_conj; [apply sorted_entries_order|].
      apply (NoDup_apart Entry.CreatedAt). by rewrite sorted_entries_perm.
    + intros a b t u Ha Hb [Hab Hne] Pa Pb. cbn beta in *.
      destruct (text_order_is_time_order a b t u (Hws a Ha) (Hws b Hb) Pa Pb Hab) as [_ H].
      by apply H.
Qed.

Lemma ltb_false_both a b : String.ltb a b = false → String.ltb b a = false → a = b.
Proof.
  unfold String.ltb. rewrite (String.compare_antisym b a).
  destruct (String.compare a b) eqn:E; simpl; try done.
  intros _ _. by apply String.compare_eq_iff.
Qed.

Lemma ltb_irrefl a : String.ltb a a = false.
Proof.
  unfold String.ltb. pose proof (String.compare_antisym a a) as H.
  by destruct (String.compare a a).
Qed.

(** The entry that [buildFeed] finds at the head of the sorted list. *)
Lemma sorted_head es first rest :
  sort.Slice newerFirst es = first :: rest →
  first ∈ es
  ∧ ∀ e, e ∈ es → String.ltb (Entry.CreatedAt first) (Entry.CreatedAt e) = false.
Proof.
  intros Hs. pose proof (sorted_entries_perm es) as Hp.
  pose proof (sorted_entries_order es) as Ho. rewrite Hs in Hp, Ho.
  split; [rewrite <- Hp; by left|].
  intros e He. rewrite <- Hp in He.
  apply StronglySorted_cons in Ho as [Hf _]. rewrite Forall_forall in Hf.
  apply elem_of_cons in He as [->|He]; [apply ltb_irrefl|by apply Hf].
Qed.

Lemma sorted_nonempty es e : e ∈ es → ∃ first rest, sort.Slice newerFirst es = first :: rest.
Proof.
  intros He. destruct (sort.Slice newerFirst es) as [|first rest] eqn:Hs; [|eauto].
  pose proof (sorted_entries_perm es) as Hp. rewrite Hs in Hp.
  apply Permutation_nil in Hp. subst. by apply elem_of_nil in He.
Qed.

(** C7 as amended. The last-build timestamp is taken from the entry whose
    creation timestamp is greatest as text: when that timestamp parses, the
    last-build timestamp is its instant, and it is the date of the first
    item of the document.  For a list of normalized timestamps that entry
    is the newest one.  The last-build timestamp is omitted when no
    entry's timestamp parses. *)
Theorem last_build_date site es :
  ((∀ e, e ∈ es → parseTime (Entry.CreatedAt e) = None) →
     Channel.LastBuildDate (RSS.Channel (buildRSS site es)) = "")
  ∧ (∀ e t,
       e ∈ es →
       (∀ e', e' ∈ es → String.ltb (Entry.CreatedAt e) (Entry.CreatedAt e') = false) →
       parseTime (Entry.CreatedAt e) = Some t →
       Channel.LastBuildDate (RSS.Channel (buildRSS site es)) = time.FormatRFC1123Z t
       ∧ ∃ item rest,
           Channel.Items (RSS.Channel (buildRSS site es)) = item :: rest
           ∧ Item.PubDate item = time.FormatRFC1123Z t)
  ∧ (Forall wellStamped es → es ≠ [] →
       ∃ e t,
         e ∈ es
         ∧ parseTime (Entry.CreatedAt e) = Some t
         ∧ (∀ e' t', e' ∈ es → parseTime (Entry.CreatedAt e') = Some t' → time.before t t' = false)
         ∧ Channel.LastBuildDate (RSS.Channel (buildRSS site es)) = time.FormatRFC1123Z t).
Proof.
  split_and!.
  - intros Hnone. cbn. destruct (sort.Slice newerFirst es) as [|first rest] eqn:Hs; [done|].
    destruct (sorted_head es first rest Hs) as [Hin _]. cbn. by rewrite (Hnone first Hin).
  - intros e t He Hmax Pe.
    destruct (sorted_nonempty es e He) as (first & rest & Hs).
    destruct (sorted_head es first rest Hs) as [Hin Hfirst].
    assert (Entry.CreatedAt first = Entry.CreatedAt e) as Heq.
    { apply ltb_false_both; [by apply Hfirst|by apply Hmax]. }
    cbn. rewrite Hs. cbn. unfold feedItem. rewrite Heq, Pe. eauto.
  - intros Hw Hne.
    assert (∃ e0, e0 ∈ es) as [e0 He0] by (destruct es; [done|eexists; by left]).
    destruct (sorted_nonempty es e0 He0) as (first & rest & Hs).
    destruct (sorted_head _ first rest Hs) as [Hin Hfirst].
    rewrite Forall_forall in Hw.
    destruct (Hw first Hin) as [Hn [t Ht]].
    exists first, t. split_and!; [done|done| |].
    + intros e' t' He' Pe'.
      by destruct (text_order_is_time_order first e' t t' (Hw first Hin) (Hw e' He') Ht Pe'
                     (Hfirst e' He')).
    + cbn. rewrite Hs. cbn. by rewrite Ht.
Qed.

End feed_facts.

Section malformed.
Import cmd.
Variable W : World.

Lemma NoDup_fmap_same {A B} (f : A → B) l a b :
  NoDup (f <$> l) → a ∈ l → b ∈ l → f a = f b → a = b.
Proof.
  induction l as [|x l IH]; cbn; [by intros _ ?%elem_of_nil|].
  intros [Hx Hl]%NoDup_cons [->|Ha]%elem_of_cons [->|Hb]%elem_of_cons Heq; auto.
  - exfalso. apply Hx. rewrite Heq. by apply list_elem_of_fmap_2.
  - exfalso. apply Hx. rewrite <- Heq. by apply list_elem_of_fmap_2.
Qed.



End malformed.

Ltac well_stamped :=
  repeat constructor; try reflexivity; by eexists.

(** The specification's ordering example: entries stored in the order
    [t2, t3, t1] are listed [t3, t2, t1]. *)
Example demo_ordering :
  cmd.buildRSS (cmd.Site.mk "Wapuugotchi RSS" "" "") [demo.february; demo.march; demo.january]
  = cmd.RSS.mk "2.0"
      (cmd.Channel.mk "Wapuugotchi RSS" "" "" "Fri, 01 Mar 2024 00:00:00 +0000"
         [cmd.Item.mk "c" "post c" "" "Fri, 01 Mar 2024 00:00:00 +0000" "" [];
          cmd.Item.mk "b" "post b" "" "Thu, 01 Feb 2024 00:00:00 +0000" "" [];
          cmd.Item.mk "a" "post a" "" "Mon, 01 Jan 2024 00:00:00 +0000" "" []]).
Proof. vm_compute. reflexivity. Qed.

(** C6 as stated fails when two entries share a timestamp: both are
    listed, with the same instant, so the order is not strictly
    descending. *)
Lemma feed_order_ties_counterexample :
  Forall wellStamped [demo.january; demo.januaryAgain]
  ∧ instants [demo.january; demo.januaryAgain]
    = [time.mkTime 1704067200 0; time.mkTime 1704067200 0]
  ∧ ¬ strictlyNewestFirst (instants [demo.january; demo.januaryAgain]).
Proof.
  split_and!; [well_stamped|reflexivity|].
  unfold strictlyNewestFirst. intros H.
  change (instants [demo.january; demo.januaryAgain])
    with [time.mkTime 1704067200 0; time.mkTime 1704067200 0] in H.
  apply StronglySorted_cons in H as [H _].
  apply Forall_cons in H as [H _]. discriminate H.
Qed.

(** The amended C6 on the entries of the ordering example. *)
Lemma feed_newest_first_witness :
  length (cmd.Channel.Items (cmd.RSS.Channel
            (cmd.buildRSS (cmd.Site.mk "Wapuugotchi RSS" "" "")
               [demo.february; demo.march; demo.january])))
    = length [demo.february; demo.march; demo.january]
  ∧ cmd.Channel.Items (cmd.RSS.Channel
      (cmd.buildRSS (cmd.Site.mk "Wapuugotchi RSS" "" "")
         [demo.february; demo.march; demo.january]))
    ≡ₚ omap cmd.feedItem [demo.february; demo.march; demo.january]
  ∧ cmd.Item.PubDate <$> cmd.Channel.Items (cmd.RSS.Channel
      (cmd.buildRSS (cmd.Site.mk "Wapuugotchi RSS" "" "")
         [demo.february; demo.march; demo.january]))
    = time.FormatRFC1123Z <$> instants [demo.february; demo.march; demo.january]
  ∧ newestFirst (instants [demo.february; demo.march; demo.january])
  ∧ (NoDup (cmd.Entry.CreatedAt <$> [demo.february; demo.march; demo.january]) →
     strictlyNewestFirst (instants [demo.february; demo.march; demo.january])).
Proof.
  apply (feed_newest_first (cmd.Site.mk "Wapuugotchi RSS" "" "")
           [demo.february; demo.march; demo.january]).
  well_stamped.
Defined.

(** C7 as stated fails: the garbled timestamp is the greatest as text, so
    the document has the January item and no last-build timestamp. *)
Lemma last_build_omitted_counterexample :
  cmd.parseTime (cmd.Entry.CreatedAt demo.january) = Some (time.mkTime 1704067200 0)
  ∧ cmd.Channel.Items (cmd.RSS.Channel
      (cmd.buildRSS (cmd.Site.mk "Wapuugotchi RSS" "" "") [demo.january; demo.garbled]))
    = [cmd.Item.mk "a" "post a" "" "Mon, 01 Jan 2024 00:00:00 +0000" "" []]
  ∧ cmd.Channel.LastBuildDate (cmd.RSS.Channel
      (cmd.buildRSS (cmd.Site.mk "Wapuugotchi RSS" "" "") [demo.january; demo.garbled]))
    = "".
Proof. split_and!; vm_compute; reflexivity. Qed.

(** Timestamps with a zone offset parse but are not normalized; the text
    order then is not the time order, and the last-build timestamp is the
    instant of the older entry. *)
Example last_build_offset :
  cmd.parseTime "2024-01-01T10:00:00+10:00" = Some (time.mkTime 1704067200 0)
  ∧ cmd.parseTime "2024-01-01T05:00:00Z" = Some (time.mkTime 1704085200 0)
  ∧ cmd.Channel.LastBuildDate (cmd.RSS.Channel
      (cmd.buildRSS (cmd.Site.mk "Wapuugotchi RSS" "" "")
         [demo.stamped "late" "2024-01-01T05:00:00Z";
          demo.stamped "early" "2024-01-01T10:00:00+10:00"]))
    = "Mon, 01 Jan 2024 00:00:00 +0000".
Proof. split_and!; vm_compute; reflexivity. Qed.



(** The run of that witness: the garbled entry is persisted, the document
    lists the two dated entries. *)
Example demo_damaged_run :
  cmd.disk demo.afterDamaged !! "/srv/feed/data/entries.json"
    = Some (cmd.EntriesJSON [demo.garbled; demo.january; demo.blogEntry])
  ∧ cmd.disk demo.afterDamaged !! "/srv/feed/feed.xml"
    = Some (cmd.FeedXML
              (cmd.RSS.mk "2.0"
                 (cmd.Channel.mk "Wapuugotchi RSS" "" "" ""
                    [cmd.Item.mk demo.blogID "Hello" "https://wordpress.com/blog/hello/"
                       "Mon, 01 Jan 2024 10:00:00 +0000" "short" ["News"];
                     cmd.Item.mk "a" "post a" "" "Mon, 01 Jan 2024 00:00:00 +0000" "" []]))).
Proof. split; vm_compute; reflexivity. Qed.

(** ** The provider adapters *)

(** The package cannot be initialised: the expressions for the width and
    height attributes end in a backreference. *)
Lemma feed_init_panics : feed.init = None.
Proof. reflexivity. Qed.

Lemma iframePattern_compiles :
  regexp.MustCompile feed.iframePatternSrc = Some (regexp.mkRegexp feed.iframePatternSrc).
Proof. reflexivity. Qed.

Lemma iframeWidthPattern_rejected : regexp.MustCompile feed.iframeWidthPatternSrc = None.
Proof. reflexivity. Qed.

Lemma iframeHeightPattern_rejected : regexp.MustCompile feed.iframeHeightPatternSrc = None.
Proof. reflexivity. Qed.

(** What [extractFirstIframe] is meant to compute: with the expressions
    taken as compiled and matched with backreferences, the frame of the
    specification's example keeps [src] and [allow] and gets the
    responsive size, and content without a frame gives the empty string. *)
Example iframe_as_meant :
  feed.extractFirstIframe demo.lib demo.vars ("<p>intro</p> " +:+ demo.iframeSample +:+ " tail")
  = "<iframe src=" +:+ feed.dq +:+ "x" +:+ feed.dq
    +:+ " allow=" +:+ feed.dq +:+ "y" +:+ feed.dq
    +:+ " width=" +:+ feed.dq +:+ "100%" +:+ feed.dq
    +:+ " height=" +:+ feed.dq +:+ "auto" +:+ feed.dq +:+ "></iframe>"
  ∧ feed.extractFirstIframe demo.lib demo.vars "<p>no frame here</p>" = "".
Proof. split; vm_compute; reflexivity. Qed.

(** C9, on the code: a call of the media normalization yields neither the
    normalized frame nor the empty string, whatever the matcher does,
    because the package that holds it panics while it is initialised; a
    process that reaches [RunFeedUpdate] through this package panics
    before it polls a provider. *)
Theorem iframe_normalization_panics (L : feed.Lib) (W : cmd.World) (σ : cmd.Machine) :
  feed.callExtractFirstIframe L demo.iframeSample = None
  ∧ feed.callExtractFirstIframe L "<p>no frame here</p>" = None
  ∧ cmd.Process W σ = (cmd.Panicked, σ).
Proof. split_and!; reflexivity. Qed.

Lemma LatestWordPressComBlog_description L fetch body f it rest :
  fetch feed.wordpressComFeedURL "wordpress com" = Ok body →
  feed.unmarshalWordPressCom L body = Ok f →
  feed.wordPressCom.Items (feed.wordPressCom.Channel f) = it :: rest →
  ∃ item, feed.LatestWordPressComBlog L fetch = Ok item
          ∧ feed.Description item = feed.wordPressCom.Description it.
Proof.
  intros Hf Hu Hi. unfold feed.LatestWordPressComBlog. rewrite Hf, Hu, Hi. eauto.
Qed.

(** C10, on the code: the blog adapter returns the description of the
    post of the demo world although the post has an encoded body that is
    not empty after trimming, which [pickEncodedOrDescription] would have
    selected. *)
Theorem com_adapter_ignores_encoded :
  strings.TrimSpace (feed.wordPressCom.ContentEncoded demo.blogPost) = "<p>long</p>"
  ∧ feed.pickEncodedOrDescription (feed.wordPressCom.ContentEncoded demo.blogPost)
      (feed.wordPressCom.Description demo.blogPost) = "<p>long</p>"
  ∧ ∃ item, feed.LatestWordPressComBlog demo.lib (cmd.fetchFeed demo.quiet) = Ok item
            ∧ feed.Description item = "short".
Proof. split_and!; [reflexivity..|]. eexists. split; reflexivity. Qed.

(** [pickEncodedOrDescription] itself selects as the specification says. *)
Lemma pickEncodedOrDescription_spec encoded description :
  feed.pickEncodedOrDescription encoded description
  = if bool_decide (strings.TrimSpace encoded ≠ "") then strings.TrimSpace encoded
    else strings.TrimSpace description.
Proof.
  unfold feed.pickEncodedOrDescription.
  destruct (strings.isEmpty (strings.TrimSpace encoded)) eqn:E; simpl.
  - apply isEmpty_true in E. rewrite bool_decide_eq_false_2; [done|]. by intros ?.
  - apply isEmpty_false in E. by rewrite bool_decide_eq_true_2.
Qed.

(** * Further properties of the code *)

Transparent md5.Sum md5.hex.

(** ** Fetching *)

Section fetch_facts.
Import cmd.
Variable W : World.

(** X1. [fetchFeed] returns a body only from a response with a 2xx status
    whose body could be read; the response is that of the first request,
    or of the second one after a first answer of 429. *)
Theorem fetchFeed_ok_is_2xx url source body :
  fetchFeed W url source = Ok body →
  ∃ attempt resp,
    (attempt ≤ 1)%nat
    ∧ clientDo W url attempt = Ok resp
    ∧ is2xx resp
    ∧ http.Body resp = Ok body
    ∧ (attempt = 1%nat →
       ∃ first, clientDo W url 0 = Ok first ∧ http.StatusCode first = 429).
Proof.
  unfold fetchFeed, is2xx. cbn [fetchFrom].
  destruct (clientDo W url 0) as [r0|e0] eqn:H0; [|done].
  destruct (http.StatusCode r0 =? 429) eqn:E0; cbn [andb Nat.eqb].
  - apply Z.eqb_eq in E0.
    destruct (clientDo W url 1) as [r1|e1] eqn:H1; [|done].
    rewrite andb_false_r.
    destruct (Z.ltb_spec (http.StatusCode r1) 200); [done|].
    destruct (Z.leb_spec 300 (http.StatusCode r1)); [done|]. cbn [orb].
    intros Hb. exists 1%nat, r1. split_and!; [lia|done|lia|lia|done|eauto].
  - destruct (Z.ltb_spec (http.StatusCode r0) 200); [done|].
    destruct (Z.leb_spec 300 (http.StatusCode r0)); [done|]. cbn [orb].
    intros Hb. exists 0%nat, r0. split_and!; [lia|done|lia|lia|done|done].
Qed.

(** X2. The retry is bounded: after two answers of 429 [fetchFeed] gives
    up with an error that names the source and the status, and a failure
    of the transport on either request is returned as it is. *)
Theorem fetchFeed_gives_up url source r0 :
  clientDo W url 0 = Ok r0 →
  http.StatusCode r0 = 429 →
  (∀ r1, clientDo W url 1 = Ok r1 → http.StatusCode r1 = 429 →
         fetchFeed W url source = Err (source +:+ " api status: " +:+ http.Status r1))
  ∧ (∀ e, clientDo W url 1 = Err e → fetchFeed W url source = Err e).
Proof.
  intros H0 E0. unfold fetchFeed. cbn [fetchFrom]. rewrite H0, E0. cbn.
  split.
  - intros r1 H1 E1. by rewrite H1, E1.
  - intros e H1. by rewrite H1.
Qed.

End fetch_facts.

Lemma fetchFeed_ok_is_2xx_witness :
  ∃ attempt resp,
    (attempt ≤ 1)%nat
    ∧ cmd.clientDo sample.hiccup feed.releasesFeedURL attempt = Ok resp
    ∧ is2xx resp
    ∧ http.Body resp = Ok "<rss/>"
    ∧ (attempt = 1%nat →
       ∃ first, cmd.clientDo sample.hiccup feed.releasesFeedURL 0 = Ok first
                ∧ http.StatusCode first = 429).
Proof.
  apply (fetchFeed_ok_is_2xx sample.hiccup feed.releasesFeedURL "wordpress releases").
  reflexivity.
Defined.

Lemma fetchFeed_gives_up_witness :
  (∀ r1, cmd.clientDo sample.throttled feed.releasesFeedURL 1 = Ok r1 →
         http.StatusCode r1 = 429 →
         cmd.fetchFeed sample.throttled feed.releasesFeedURL "wordpress releases"
         = Err ("wordpress releases" +:+ " api status: " +:+ http.Status r1))
  ∧ (∀ e, cmd.clientDo sample.throttled feed.releasesFeedURL 1 = Err e →
          cmd.fetchFeed sample.throttled feed.releasesFeedURL "wordpress releases" = Err e).
Proof.
  apply (fetchFeed_gives_up sample.throttled feed.releasesFeedURL "wordpress releases"
           (http.mkResponse 429 "429 Too Many Requests" (Ok "slow down"))).
  - reflexivity.
  - reflexivity.
Defined.

Example fetchFeed_throttled :
  cmd.fetchFeed sample.throttled feed.releasesFeedURL "wordpress releases"
  = Err "wordpress releases api status: 429 Too Many Requests".
Proof. reflexivity. Qed.

(** ** Categories and trimming *)

Lemma trimLeft_clean s : startsClean (strings.trimLeft s) ∧ strings.trimLeft s `suffix_of` s.
Proof.
  assert (∀ n s, (length s ≤ n)%nat →
                 startsClean (strings.trimLeft s) ∧ strings.trimLeft s `suffix_of` s) as H.
  { clear s. induction n as [|n IH]; intros s Hn.
    { destruct s; [done|simpl in Hn; lia]. }
    destruct s as [|a r]; [done|]. cbn [strings.trimLeft].
    destruct (strings.isSpace a) eqn:Ea.
    { destruct (IH r ltac:(simpl in Hn; lia)) as [? ?]. split; [done|by apply suffix_cons_r]. }
    destruct r as [|b r2]; [by cbn|].
    destruct (strings.isSpace2 a b) eqn:Eb.
    { destruct (IH r2 ltac:(simpl in Hn; lia)) as [? ?].
      split; [done|by do 2 apply suffix_cons_r]. }
    destruct r2 as [|c r3]; [by cbn|].
    destruct (strings.isSpace3 a b c) eqn:Ec; [|by cbn].
    destruct (IH r3 ltac:(simpl in Hn; lia)) as [? ?].
    split; [done|by do 3 apply suffix_cons_r]. }
  by apply (H (length s)).
Qed.

Lemma trimLeftRev_clean s :
  startsCleanRev (strings.trimLeftRev s) ∧ strings.trimLeftRev s `suffix_of` s.
Proof.
  assert (∀ n s, (length s ≤ n)%nat →
                 startsCleanRev (strings.trimLeftRev s)
                 ∧ strings.trimLeftRev s `suffix_of` s) as H.
  { clear s. induction n as [|n IH]; intros s Hn.
    { destruct s; [done|simpl in Hn; lia]. }
    destruct s as [|a r]; [done|]. cbn [strings.trimLeftRev].
    destruct (strings.isSpace a) eqn:Ea.
    { destruct (IH r ltac:(simpl in Hn; lia)) as [? ?]. split; [done|by apply suffix_cons_r]. }
    destruct r as [|b r2]; [by cbn|].
    destruct (strings.isSpace2 b a) eqn:Eb.
    { destruct (IH r2 ltac:(simpl in Hn; lia)) as [? ?].
      split; [done|by do 2 apply suffix_cons_r]. }
    destruct r2 as [|c r3]; [by cbn|].
    destruct (strings.isSpace3 c b a) eqn:Ec; [|by cbn].
    destruct (IH r3 ltac:(simpl in Hn; lia)) as [? ?].
    split; [done|by do 3 apply suffix_cons_r]. }
  by apply (H (length s)).
Qed.

Lemma startsClean_fix s : startsClean s → strings.trimLeft s = s.
Proof.
  destruct s as [|a [|b [|c r]]]; cbn; [done|by intros [-> _]|by intros (-> & -> & _)|].
  by intros (-> & -> & ->).
Qed.

Lemma startsCleanRev_fix s : startsCleanRev s → strings.trimLeftRev s = s.
Proof.
  destruct s as [|a [|b [|c r]]]; cbn; [done|by intros [-> _]|by intros (-> & -> & _)|].
  by intros (-> & -> & ->).
Qed.

Lemma startsClean_prefix s p : startsClean s → p `prefix_of` s → startsClean p.
Proof.
  intros Hs [k ->].
  destruct p as [|a [|b [|c p]]]; cbn in *; [done|by destruct Hs|..].
  - destruct Hs as (? & ? & _). done.
  - done.
Qed.

Lemma trimRight_prefix s : strings.trimRight s `prefix_of` s.
Proof.
  unfold strings.trimRight.
  destruct (trimLeftRev_clean (rev s)) as [_ [k Hk]].
  exists (rev k). rewrite <- rev_app_distr, <- Hk. by rewrite rev_involutive.
Qed.

Lemma trimRight_fix s : strings.trimRight (strings.trimRight s) = strings.trimRight s.
Proof.
  unfold strings.trimRight. rewrite rev_involutive.
  rewrite (startsCleanRev_fix (strings.trimLeftRev (rev s))); [done|].
  apply trimLeftRev_clean.
Qed.

(** Trimming what has been trimmed changes nothing. *)
Lemma TrimSpace_idempotent s : strings.TrimSpace (strings.TrimSpace s) = strings.TrimSpace s.
Proof.
  unfold strings.TrimSpace. rewrite String.list_ascii_of_string_of_list_ascii.
  set (x := strings.trimLeft (String.list_ascii_of_string s)).
  rewrite (startsClean_fix (strings.trimRight x)).
  - by rewrite trimRight_fix.
  - apply (startsClean_prefix x); [apply trimLeft_clean|apply trimRight_prefix].
Qed.

(** X3. [cleanCategories] keeps, in their order, the categories that are
    not blank, each trimmed: no result is empty or has white space at
    either end, nothing is added, repeated categories stay repeated.
    Cleaning a cleaned list changes nothing. *)
Theorem cleanCategories_clean values :
  Forall (λ c, c ≠ "" ∧ strings.TrimSpace c = c) (cmd.cleanCategories values)
  ∧ cmd.cleanCategories values
    = filter (λ c, c ≠ "") (strings.TrimSpace <$> values)
  ∧ cmd.cleanCategories (cmd.cleanCategories values) = cmd.cleanCategories values.
Proof.
  assert (Forall (λ c, c ≠ "" ∧ strings.TrimSpace c = c) (cmd.cleanCategories values)) as H.
  { induction values as [|v values IH]; cbn [cmd.cleanCategories]; [done|].
    destruct (strings.isEmpty (strings.TrimSpace v)) eqn:E; [done|].
    constructor; [|done]. split; [by apply isEmpty_false|apply TrimSpace_idempotent]. }
  split_and!; [done| |].
  - clear H. induction values as [|v values IH]; cbn [cmd.cleanCategories]; [done|].
    cbn [fmap list_fmap]. rewrite filter_cons.
    destruct (strings.isEmpty (strings.TrimSpace v)) eqn:E.
    + apply isEmpty_true in E. by rewrite decide_False by (by intros ?).
    + apply isEmpty_false in E. rewrite decide_True by done. by f_equal.
  - induction H as [|c l [Hc Ht] Hl IH]; [done|].
    cbn [cmd.cleanCategories]. rewrite Ht.
    apply isEmpty_false in Hc. rewrite Hc. by f_equal.
Qed.

Example cleanCategories_ex :
  cmd.cleanCategories [" News "; ""; "Releases"; "   "; "News"] = ["News"; "Releases"; "News"].
Proof. reflexivity. Qed.

(** ** Identities *)

Lemma byte_and x : 0 ≤ Z.land x 255 < 256.
Proof.
  change 255 with (Z.ones 8). rewrite Z.land_ones by lia.
  apply Z.mod_pos_bound. lia.
Qed.

Lemma le32_bytes w : length (md5.le32 w) = 4%nat ∧ Forall (λ b, 0 ≤ b < 256) (md5.le32 w).
Proof. split; [done|]. unfold md5.le32. cbn [seq map]. repeat constructor; apply byte_and. Qed.

Lemma Sum_bytes data :
  length (md5.Sum data) = 16%nat ∧ Forall (λ b, 0 ≤ b < 256) (md5.Sum data).
Proof.
  unfold md5.Sum. cbv zeta.
  set (s := fold_left md5.block _ md5.init).
  destruct (le32_bytes (md5.a s)) as [La Fa], (le32_bytes (md5.b s)) as [Lb Fb],
    (le32_bytes (md5.c s)) as [Lc Fc], (le32_bytes (md5.d s)) as [Ld Fd].
  split.
  - rewrite !length_app. lia.
  - repeat (apply Forall_app; split); done.
Qed.

Lemma hexDigit_lower n : 0 ≤ n < 16 → isLowerHex (md5.hexDigit n) = true.
Proof.
  intros H.
  assert (n = 0 ∨ n = 1 ∨ n = 2 ∨ n = 3 ∨ n = 4 ∨ n = 5 ∨ n = 6 ∨ n = 7 ∨ n = 8 ∨ n = 9
          ∨ n = 10 ∨ n = 11 ∨ n = 12 ∨ n = 13 ∨ n = 14 ∨ n = 15) as Hn by lia.
  repeat (destruct Hn as [->|Hn]); [..|subst n]; reflexivity.
Qed.

Lemma hex_format bytes :
  Forall (λ b, 0 ≤ b < 256) bytes →
  String.length (md5.hex bytes) = (2 * length bytes)%nat
  ∧ Forall (λ c, isLowerHex c = true) (String.list_ascii_of_string (md5.hex bytes)).
Proof.
  induction 1 as [|x l Hx Hl [IH1 IH2]]; [done|].
  cbn [md5.hex String.length String.list_ascii_of_string length]. split; [lia|].
  repeat constructor; [| |done]; apply hexDigit_lower.
  - split; [apply Z.div_pos; lia|apply Z.div_lt_upper_bound; lia].
  - apply Z.mod_pos_bound. lia.
Qed.

(** X4. An identity is always the MD5 digest in its [%x] form, thirty-two
    digits of lower case hexadecimal: the text that [pickEntryID] hands to
    [hashString] holds the separator and so is never blank, which keeps
    the clock fallback of [hashString] out of every identity; the clock is
    read at most once, for an item with neither publish date nor link. *)
Theorem pickEntryID_format (W : cmd.World) provider item σ :
  ∃ id σ',
    cmd.pickEntryID W provider item σ = (cmd.Done id, σ')
    ∧ String.length id = 32%nat
    ∧ Forall (λ c, isLowerHex c = true) (String.list_ascii_of_string id)
    ∧ cmd.disk σ' = cmd.disk σ
    ∧ (cmd.ticks σ' = cmd.ticks σ ∨ cmd.ticks σ' = S (cmd.ticks σ))
    ∧ (basis item ≠ "" → id = identity provider item ∧ σ' = σ).
Proof.
  unfold cmd.pickEntryID, cmd.hashString, identity, mbind, cmd.IO_bind, mret, cmd.IO_ret,
    cmd.timeNow.
  fold (basis item).
  destruct (strings.isEmpty (basis item)) eqn:Hb; cbn [cmd.disk cmd.ticks];
    rewrite hashed_text_not_blank.
  - eexists _, _. split; [reflexivity|].
    destruct (Sum_bytes (strings.TrimSpace
                (provider +:+ "|" +:+ provider +:+ "-"
                   +:+ cmd.itoa (cmd.UnixNano (cmd.now W (cmd.ticks σ)))))) as [L F].
    destruct (hex_format _ F) as [L' F']. rewrite L in L'.
    split_and!; [done|done|done|by right|].
    intros Hne. by apply isEmpty_false in Hne; rewrite Hne in Hb.
  - eexists _, _. split; [reflexivity|].
    destruct (Sum_bytes (strings.TrimSpace (provider +:+ "|" +:+ basis item))) as [L F].
    destruct (hex_format _ F) as [L' F']. rewrite L in L'.
    split_and!; [done|done|done|by left|done].
Qed.

(** ** Timestamps written and read back *)

Ltac calc t := let v := eval vm_compute in t in progress change t with v.
Ltac calc_in t H := let v := eval vm_compute in t in progress change t with v in H.

Lemma isLeap_era y k : time.isLeap (y + 400 * k) = time.isLeap y.
Proof.
  unfold time.isLeap.
  replace (y + 400 * k) with (y + (100 * k) * 4) at 1 by lia.
  replace (y + 400 * k) with (y + (4 * k) * 100) at 1 by lia.
  replace (y + 400 * k) with (y + k * 400) by lia.
  by rewrite !Z_mod_plus_full.
Qed.

(** The year of the era and the day of the year that starts in March. *)
Lemma yoe_bounds doe :
  0 ≤ doe ≤ 146096 →
  let yoe := (doe - doe / 1460 + doe / 36524 - doe / 146096) / 365 in
  let doy := doe - (365 * yoe + yoe / 4 - yoe / 100) in
  0 ≤ yoe ≤ 399 ∧ 0 ≤ doy ≤ 365 ∧
  (doy = 365 → (yoe + 1) mod 4 = 0 ∧ ((yoe + 1) mod 100 ≠ 0 ∨ (yoe + 1) mod 400 = 0)).
Proof. intros H. cbv zeta. Z.div_mod_to_equations. lia. Qed.

Lemma month_of_day doy :
  0 ≤ doy ≤ 365 →
  let mp := (5 * doy + 2) / 153 in
  0 ≤ mp ≤ 11 ∧ (153 * mp + 2) / 5 ≤ doy < (153 * (mp + 1) + 2) / 5.
Proof. intros H. cbv zeta. Z.div_mod_to_equations. lia. Qed.

Lemma marchYear yoe era :
  0 ≤ yoe ≤ 399 →
  time.daysBeforeYear (yoe + era * 400 + 1)
  = era * 146097 + (365 * yoe + yoe / 4 - yoe / 100).
Proof.
  intros H. unfold time.daysBeforeYear. cbv zeta.
  replace (yoe + era * 400 + 1 - 1) with (yoe + era * 400) by lia.
  replace (yoe + era * 400) with (yoe + (era * 100) * 4) at 2 by lia.
  replace (yoe + era * 400) with (yoe + (era * 4) * 100) at 2 by lia.
  rewrite !Z.div_add by lia.
  rewrite (Z.div_small yoe 400) by lia. lia.
Qed.

Lemma feb_leap yoe era :
  (yoe + 1) mod 4 = 0 ∧ ((yoe + 1) mod 100 ≠ 0 ∨ (yoe + 1) mod 400 = 0) →
  time.isLeap (yoe + era * 400 + 1) = true.
Proof.
  intros [H4 H100].
  replace (yoe + era * 400 + 1) with (yoe + 1 + 400 * era) by lia.
  rewrite isLeap_era. unfold time.isLeap. rewrite H4. cbn.
  destruct H100 as [H|H].
  - apply Z.eqb_neq in H. by rewrite H.
  - rewrite H. apply orb_true_r.
Qed.

(** The civil date of any day number is a date of the calendar, and the
    day number of that date is the one given. *)
Lemma civil_correct z y m d :
  time.civil z = (y, m, d) →
  time.unixDays y m d = z ∧ 1 ≤ m ≤ 12 ∧ 1 ≤ d ≤ time.daysIn m y.
Proof.
  unfold time.civil. cbv zeta.
  set (era := (z + 719468) / 146097). set (doe := z + 719468 - era * 146097).
  assert (Hdoe : 0 ≤ doe ≤ 146096).
  { subst doe era. pose proof (Z.mod_pos_bound (z + 719468) 146097 ltac:(lia)) as Hm.
    rewrite Z.mod_eq in Hm by lia. lia. }
  pose proof (yoe_bounds doe Hdoe) as Hy. cbv zeta in Hy.
  set (yoe := (doe - doe / 1460 + doe / 36524 - doe / 146096) / 365) in *.
  set (doy := doe - (365 * yoe + yoe / 4 - yoe / 100)) in *.
  destruct Hy as (Hyoe & Hdoy & Hleap).
  pose proof (month_of_day doy Hdoy) as Hm. cbv zeta in Hm.
  set (mp := (5 * doy + 2) / 153) in *.
  destruct Hm as (Hmp & Hlo & Hhi).
  pose proof (marchYear yoe era Hyoe) as HM.
  pose proof (daysBeforeYear_step (yoe + era * 400)) as Hstep.
  assert (Hfeb : doy ≤ 364 + (if time.isLeap (yoe + era * 400 + 1) then 1 else 0)).
  { destruct (decide (doy = 365)) as [E|E];
      [|destruct (time.isLeap (yoe + era * 400 + 1)); lia].
    rewrite (feb_leap yoe era (Hleap E)). lia. }
  assert (Hz : z = era * 146097 + doy + (365 * yoe + yoe / 4 - yoe / 100) - 719468)
    by (subst doy doe; lia).
  clearbody mp doy yoe era. clear Hleap Hdoe doe.
  intros [= <- <- <-].
  unfold time.unixDays, time.daysBefore, time.daysIn.
  change (time.daysBeforeYear 1970) with 719162.
  set (Y := yoe + era * 400) in *.
  assert (Hcase : mp = 0 ∨ mp = 1 ∨ mp = 2 ∨ mp = 3 ∨ mp = 4 ∨ mp = 5 ∨ mp = 6 ∨ mp = 7
                  ∨ mp = 8 ∨ mp = 9 ∨ mp = 10 ∨ mp = 11) by lia.
  repeat (destruct Hcase as [->|Hcase]); [..|subst mp];
    repeat match goal with
           | |- context [nth ?n ?l 0] => calc (nth n l 0)
           | |- context [?a `div` 5] => calc (a `div` 5)
           | |- context [?a <? ?b] => calc (a <? b)
           | |- context [?a <=? ?b] => calc (a <=? b)
           | |- context [?a =? ?b] => calc (a =? b)
           | H : context [?a `div` 5] |- _ => calc_in (a `div` 5) H
           end;
    cbn [andb orb]; cbv iota;
    rewrite ?Z.add_0_r;
    destruct (time.isLeap Y), (time.isLeap (Y + 1));
    lia.
Qed.

(** *** Printing *)

Lemma digitVal_digitChar d : 0 ≤ d ≤ 9 → time.digitVal (time.digitChar d) = Some d.
Proof.
  intros H.
  assert (d = 0 ∨ d = 1 ∨ d = 2 ∨ d = 3 ∨ d = 4 ∨ d = 5 ∨ d = 6 ∨ d = 7 ∨ d = 8 ∨ d = 9)
    as Hc by lia.
  repeat (destruct Hc as [->|Hc]); [..|subst d]; reflexivity.
Qed.

Lemma numDigits_bound f n k :
  0 ≤ n < 10 ^ Z.of_nat (S k) → (time.numDigits f n ≤ S k)%nat.
Proof.
  revert n k. induction f as [|f IH]; intros n k H; cbn [time.numDigits]; [lia|].
  destruct (Z.ltb_spec n 10); [lia|].
  destruct k as [|k]; [change (10 ^ Z.of_nat 1) with 10 in H; lia|].
  apply le_n_S, IH.
  rewrite Nat2Z.inj_succ, Z.pow_succ_r in H by lia.
  split; [apply Z.div_pos; lia|apply Z.div_lt_upper_bound; lia].
Qed.

Lemma appendInt_two v :
  0 ≤ v ≤ 99 →
  time.appendInt v 2
  = String (time.digitChar (v / 10)) (String (time.digitChar (v mod 10)) "").
Proof.
  intros H. unfold time.appendInt. cbv zeta.
  destruct (Z.ltb_spec v 0); [lia|].
  rewrite Z.abs_eq by lia.
  assert (Nat.max 2 (time.numDigits 20 v) = 2%nat) as ->.
  { pose proof (numDigits_bound 20 v 1 ltac:(change (10 ^ Z.of_nat 2) with 100; lia)). lia. }
  cbn [time.digits]. change (("" +:+ ?s)) with s.
  f_equal. rewrite Z.mod_small by (Z.div_mod_to_equations; lia). done.
Qed.

Lemma appendInt_four v :
  0 ≤ v ≤ 9999 →
  time.appendInt v 4
  = String (time.digitChar (v / 1000))
      (String (time.digitChar (v / 100 mod 10))
         (String (time.digitChar (v / 10 mod 10))
            (String (time.digitChar (v mod 10)) ""))).
Proof.
  intros H. unfold time.appendInt. cbv zeta.
  destruct (Z.ltb_spec v 0); [lia|].
  rewrite Z.abs_eq by lia.
  assert (Nat.max 4 (time.numDigits 20 v) = 4%nat) as ->.
  { pose proof (numDigits_bound 20 v 3 ltac:(change (10 ^ Z.of_nat 4) with 10000; lia)). lia. }
  cbn [time.digits]. change (("" +:+ ?s)) with s.
  rewrite !Z.div_div by lia. change (10 * 10) with 100. change (100 * 10) with 1000.
  do 3 f_equal. f_equal. rewrite Z.mod_small by (Z.div_mod_to_equations; lia). done.
Qed.

Lemma Layout_normalized s Y M D h mi sec : Layout s Y M D h mi sec → isNormalized s = true.
Proof.
  destruct 1. unfold isNormalized, layoutText. cbn [String.list_ascii_of_string forallb].
  unfold isDigit.
  repeat match goal with
         | E : time.digitVal ?c = Some _ |- _ =>
             rewrite (bool_decide_eq_true_2 (is_Some (time.digitVal c))) by (by rewrite E);
             clear E
         end.
  reflexivity.
Qed.

Lemma two_digits v : 0 ≤ v ≤ 99 →
  time.digitVal (time.digitChar (v / 10)) = Some (v / 10)
  ∧ time.digitVal (time.digitChar (v mod 10)) = Some (v mod 10).
Proof.
  intros H. split; apply digitVal_digitChar; Z.div_mod_to_equations; lia.
Qed.

(** What [Format] writes for a year of four digits has the normalized
    layout, and its fields spell the civil date and the time of day. *)
Lemma FormatRFC3339_layout t y m d :
  time.civil (time.unixSec t / 86400) = (y, m, d) → 0 ≤ y ≤ 9999 →
  Layout (time.FormatRFC3339 t) y m d
    (time.unixSec t mod 86400 / 3600) (time.unixSec t mod 86400 / 60 mod 60)
    (time.unixSec t mod 86400 mod 60).
Proof.
  intros E Hy. destruct (civil_correct _ _ _ _ E) as (_ & Hm & Hd).
  assert (time.daysIn m y ≤ 31).
  { unfold time.daysIn. repeat case_match; lia. }
  unfold time.FormatRFC3339, time.clock. rewrite E. cbv zeta.
  set (s := time.unixSec t mod 86400).
  assert (0 ≤ s < 86400) by (apply Z.mod_pos_bound; lia).
  assert (0 ≤ s / 3600 ≤ 99) as Hh by (Z.div_mod_to_equations; lia).
  assert (0 ≤ s / 60 mod 60 ≤ 99) as Hi by (Z.div_mod_to_equations; lia).
  assert (0 ≤ s mod 60 ≤ 99) as Hs by (Z.div_mod_to_equations; lia).
  rewrite (appendInt_four y Hy), (appendInt_two m), (appendInt_two d),
    (appendInt_two _ Hh), (appendInt_two _ Hi), (appendInt_two _ Hs) by lia.
  destruct (two_digits m ltac:(lia)), (two_digits d ltac:(lia)),
    (two_digits _ Hh), (two_digits _ Hi), (two_digits _ Hs).
  assert (time.digitVal (time.digitChar (y / 1000)) = Some (y / 1000))
    by (apply digitVal_digitChar; Z.div_mod_to_equations; lia).
  assert (time.digitVal (time.digitChar (y / 100 mod 10)) = Some (y / 100 mod 10))
    by (apply digitVal_digitChar; Z.div_mod_to_equations; lia).
  assert (time.digitVal (time.digitChar (y / 10 mod 10)) = Some (y / 10 mod 10))
    by (apply digitVal_digitChar; Z.div_mod_to_equations; lia).
  assert (time.digitVal (time.digitChar (y mod 10)) = Some (y mod 10))
    by (apply digitVal_digitChar; Z.div_mod_to_equations; lia).
  replace y with (((y / 1000 * 10 + y / 100 mod 10) * 10 + y / 10 mod 10) * 10 + y mod 10)
    at 5 by (Z.div_mod_to_equations; lia).
  replace m with (m / 10 * 10 + m mod 10) at 3 by (Z.div_mod_to_equations; lia).
  replace d with (d / 10 * 10 + d mod 10) at 3 by (Z.div_mod_to_equations; lia).
  replace (s / 3600) with (s / 3600 / 10 * 10 + s / 3600 mod 10) at 3
    by (Z.div_mod_to_equations; lia).
  replace (s / 60 mod 60) with (s / 60 mod 60 / 10 * 10 + s / 60 mod 60 mod 10) at 3
    by (Z.div_mod_to_equations; lia).
  replace (s mod 60) with (s mod 60 / 10 * 10 + s mod 60 mod 10) at 3
    by (Z.div_mod_to_equations; lia).
  by apply Layout_intro.
Qed.

(** X5. The timestamp [pickEntryTime] writes is read back by [parseTime]
    as the same instant without its fraction of a second: for an instant
    whose year has four digits, [Format(time.RFC3339)] in UTC gives a
    normalized text, and [parseTime] of that text is the instant cut to
    the second. *)
Theorem stamp_round_trip t :
  fourDigitYear t →
  isNormalized (time.FormatRFC3339 t) = true
  ∧ cmd.parseTime (time.FormatRFC3339 t) = Some (time.mkTime (time.unixSec t) 0).
Proof.
  unfold fourDigitYear, yearOf. intros Hy.
  destruct (time.civil (time.unixSec t / 86400)) as [[y m] d] eqn:E. cbn [fst] in Hy.
  pose proof (FormatRFC3339_layout t y m d E Hy) as HL.
  split; [by eapply Layout_normalized|].
  rewrite (Layout_parse _ _ _ _ _ _ _ HL).
  destruct (civil_correct _ _ _ _ E) as (Hu & Hm & Hd).
  set (s := time.unixSec t mod 86400) in *.
  assert (0 ≤ s < 86400) by (apply Z.mod_pos_bound; lia).
  assert (validFields y m d (s / 3600) (s / 60 mod 60) (s mod 60) = true) as ->.
  { unfold validFields.
    repeat (apply andb_true_intro; split);
      first [apply Z.leb_le | apply Z.ltb_lt]; try lia; Z.div_mod_to_equations; lia. }
  unfold time.Date. rewrite Hu. f_equal. f_equal.
  subst s. Z.div_mod_to_equations. lia.
Qed.

Lemma stamp_round_trip_witness :
  isNormalized (time.FormatRFC3339 (time.mkTime 1704103200 5)) = true
  ∧ cmd.parseTime (time.FormatRFC3339 (time.mkTime 1704103200 5))
    = Some (time.mkTime 1704103200 0).
Proof.
  apply (stamp_round_trip (time.mkTime 1704103200 5)).
  vm_compute. split; discriminate.
Defined.

(** ** What a poll stores *)

Lemma ToLower_app a b : strings.ToLower (a +:+ b) = strings.ToLower a +:+ strings.ToLower b.
Proof.
  induction a as [|x a IH]; [done|].
  change (String (strings.lowerByte x) (strings.ToLower (a +:+ b))
          = String (strings.lowerByte x) (strings.ToLower a +:+ strings.ToLower b)).
  by f_equal.
Qed.

Lemma HasPrefix_app p r : strings.HasPrefix (p +:+ r) p = true.
Proof.
  induction p as [|x p IH]; [by destruct r|].
  change (strings.HasPrefix (String x (p +:+ r)) (String x p) = true).
  cbn [strings.HasPrefix]. by rewrite Ascii.eqb_refl.
Qed.

Lemma Index_found pre sub post : 0 ≤ strings.Index (pre +:+ sub +:+ post) sub.
Proof.
  induction pre as [|x pre IH].
  - change ("" +:+ sub +:+ post) with (sub +:+ post).
    destruct (sub +:+ post) eqn:E; cbn [strings.Index];
      rewrite <- E, HasPrefix_app; done.
  - change (String x pre +:+ sub +:+ post) with (String x (pre +:+ sub +:+ post)).
    cbn [strings.Index]. destruct (strings.HasPrefix _ _); [done|].
    destruct (Z.ltb_spec (strings.Index (pre +:+ sub +:+ post) sub) 0); lia.
Qed.

Lemma Contains_app pre sub post : strings.Contains (pre +:+ sub +:+ post) sub = true.
Proof. unfold strings.Contains. apply Z.leb_le, Index_found. Qed.

Section poll_facts.
Import cmd.
Variable W : World.





(** X7. A description that holds the opening of a frame, [<iframe] in any
    mix of upper and lower case, is stored as it is, trimmed: it is not
    translated, whatever the provider allows, and nothing is written to
    the error stream. *)
Theorem embedded_frame_not_translated text allow pre tag post σ :
  strings.TrimSpace text = pre +:+ tag +:+ post →
  strings.ToLower tag = "<iframe" →
  translateContent W text allow σ = (Done (strings.TrimSpace text), σ).
Proof.
  intros Ht Htag. unfold translateContent. cbv zeta.
  rewrite Ht, !ToLower_app, Htag, Contains_app. by rewrite orb_true_r.
Qed.

End poll_facts.


(** An item without a publish date is stamped with the clock. *)
Example stampInstant_clock :
  stampInstant demo.quiet (feed.mkItem "T" "https://example.org/t" "" "" "" [])
    (cmd.mkMachine 7 [] [] ∅)
  = time.mkTime 1704103207 0
  ∧ stampInstant demo.quiet (feed.mkItem "T" "" "" "" "" []) (cmd.mkMachine 7 [] [] ∅)
    = time.mkTime 1704103208 0.
Proof. split; reflexivity. Qed.

Lemma embedded_frame_not_translated_witness :
  cmd.translateContent sample.translating sample.framed true (demo.boot ∅)
  = (cmd.Done (strings.TrimSpace sample.framed), demo.boot ∅).
Proof.
  apply (embedded_frame_not_translated sample.translating sample.framed true
           "" "<IFrame" " src=x></iframe>").
  - reflexivity.
  - reflexivity.
Defined.

(** Without the frame the same text is translated. *)
Example plain_text_translated :
  cmd.translateContent sample.translating "  hello " true (demo.boot ∅)
  = (cmd.Done "DE: hello", demo.boot ∅).
Proof. reflexivity. Qed.

(** ** Failures of persistence, and what a run leaves alone *)

Section run_facts.
Import cmd.
Variable W : World.

Lemma site_apart root :
  site (feedPaths root) ∉ [state (feedPaths root); entries (feedPaths root); feed (feedPaths root)].
Proof.
  destruct (paths_apart root) as (D1 & D2 & D3 & _).
  rewrite !elem_of_cons, elem_of_nil. intros [E|[E|[E|[]]]]; done.
Qed.

Lemma pollAll_updated providers l σ rs σp :
  pollLog W providers (entriesNow l) (stateNow l) σ = (Done rs, σp) →
  ∃ l', pollAll W providers l σ = (Done l', σp)
        ∧ disk σp = disk σ ∧ stdout σp = stdout σ
        ∧ entriesNow l' = finalEntries (entriesNow l) rs
        ∧ stateNow l' = finalState (stateNow l) rs
        ∧ updated l' = existsb added rs || updated l
        ∧ firstErr l' = match firstErr l with Some e => Some e | None => head (omap err rs) end.
Proof.
  intros Hlog.
  destruct (pollAll_log W providers l σ)
    as (rs' & l' & σ' & H1 & H2 & H3 & H4 & H5 & H6 & H7 & H8 & H9).
  rewrite Hlog in H2. injection H2 as <- <-. eauto 10.
Qed.

(** X8. When a provider created an entry and the state file cannot be
    created, the process ends with status 1: the error is on the error
    stream, nothing has been printed and no file has changed, so the new
    entry is lost.  When the state file was written and the entry list
    cannot be created, the process ends the same way with the new state
    on disk beside the old entry list. *)
Theorem persist_failure_exits v root σ rs σp :
  Getwd W = Ok root →
  pollLog W (feedProviders W v) (loadedEntries root σ) (loadedState root σ) σ = (Done rs, σp) →
  existsb added rs = true →
  (∀ e, createErr W (state (feedPaths root)) = Some e →
        ∃ σ', RunFeedUpdate W v σ = (Exit 1, σ')
              ∧ disk σ' = disk σ
              ∧ stderr σ' = stderr σp ++ [e]
              ∧ stdout σ' = stdout σ)
  ∧ (∀ e, createErr W (state (feedPaths root)) = None →
          writeErr W (state (feedPaths root)) = None →
          createErr W (entries (feedPaths root)) = Some e →
          ∃ σ', RunFeedUpdate W v σ = (Exit 1, σ')
                ∧ disk σ' = <[state (feedPaths root) := StateJSON (finalState (loadedState root σ) rs)]>
                              (disk σ)
                ∧ stderr σ' = stderr σp ++ [e]
                ∧ stdout σ' = stdout σ).
Proof.
  intros Hwd Hlog Hup. rewrite (RunFeedUpdate_start W v root σ Hwd).
  destruct (pollAll_updated _ (mkLoop (loadedEntries root σ) (loadedState root σ) false None)
              σ rs σp Hlog) as (l' & H1 & H3 & H4 & H5 & H6 & H7 & H8).
  cbn [entriesNow stateNow updated firstErr] in *.
  split.
  - intros e Hc.
    unfold mbind at 1, IO_bind at 1. rewrite H1, H7, Hup. cbn [orb negb andb].
    unfold writeJSON. rewrite Hc.
    unfold mbind, IO_bind, Eprintln, osExit.
    eexists. split; [reflexivity|]. cbn [disk stderr stdout]. by rewrite H3, H4.
  - intros e Hc Hw Hc2.
    unfold mbind at 1, IO_bind at 1. rewrite H1, H7, Hup. cbn [orb negb andb].
    unfold writeJSON. rewrite Hc, Hw, Hc2.
    unfold mbind, IO_bind, Eprintln, osExit, storeFile.
    eexists. split; [reflexivity|]. cbn [disk stderr stdout]. by rewrite H3, H4, H6.
Qed.

(** X9. When a provider created an entry, state and entry list can be
    written and the document cannot be created, the run returns that
    error after it has persisted both files: they are not rolled back,
    the document on disk is the old one, and nothing is printed. *)
Theorem feed_failure_after_persisting v root σ rs σp e :
  Getwd W = Ok root →
  pollLog W (feedProviders W v) (loadedEntries root σ) (loadedState root σ) σ = (Done rs, σp) →
  existsb added rs = true →
  (∀ path, path ∈ [state (feedPaths root); entries (feedPaths root)] →
           createErr W path = None ∧ writeErr W path = None) →
  createErr W (feed (feedPaths root)) = Some e →
  ∃ σ', RunFeedUpdate W v σ = (Done (Some e), σ')
        ∧ disk σ' = <[entries (feedPaths root) := EntriesJSON (finalEntries (loadedEntries root σ) rs)]>
                      (<[state (feedPaths root) := StateJSON (finalState (loadedState root σ) rs)]>
                         (disk σ))
        ∧ disk σ' !! feed (feedPaths root) = disk σ !! feed (feedPaths root)
        ∧ stdout σ' = stdout σ.
Proof.
  intros Hwd Hlog Hup Hw Hf. rewrite (RunFeedUpdate_start W v root σ Hwd).
  destruct (pollAll_updated _ (mkLoop (loadedEntries root σ) (loadedState root σ) false None)
              σ rs σp Hlog) as (l' & H1 & H3 & H4 & H5 & H6 & H7 & H8).
  cbn [entriesNow stateNow updated firstErr] in *.
  destruct (Hw (state (feedPaths root))) as [Hc1 Hw1]; [rewrite !elem_of_cons; tauto|].
  destruct (Hw (entries (feedPaths root))) as [Hc2 Hw2]; [rewrite !elem_of_cons; tauto|].
  unfold mbind at 1, IO_bind at 1. rewrite H1, H7, Hup. cbn [orb negb andb].
  unfold writeJSON, buildFeed. rewrite Hc1, Hw1, Hc2, Hw2, Hf.
  unfold mbind, IO_bind, mret, IO_ret, storeFile. cbn [disk].
  eexists. split; [reflexivity|]. cbn [disk stdout]. rewrite H3, H4, H5, H6.
  split_and!; [done| |done].
  destruct (paths_distinct root) as (? & ? & ?).
  by rewrite !lookup_insert_ne.
Qed.

Lemma writeJSON_frame path value σ o σ' :
  writeJSON W path value σ = (o, σ') →
  stdout σ' = stdout σ ∧ ∀ other, other ≠ path → disk σ' !! other = disk σ !! other.
Proof.
  unfold writeJSON, mbind, IO_bind, Eprintln, osExit, storeFile.
  intros H. repeat case_match; simplify_eq; cbn; (split; [done|]); intros other Ho;
    by rewrite ?lookup_insert_ne.
Qed.

Lemma buildFeed_frame site es path σ o σ' :
  buildFeed W site es path σ = (o, σ') →
  stdout σ' = stdout σ ∧ ∀ other, other ≠ path → disk σ' !! other = disk σ !! other.
Proof.
  unfold buildFeed, mbind, IO_bind, mret, IO_ret, storeFile.
  intros H. repeat case_match; simplify_eq; cbn; (split; [done|]); intros other Ho;
    by rewrite ?lookup_insert_ne.
Qed.

Lemma run_frame v σ o σ' :
  RunFeedUpdate W v σ = (o, σ') →
  ∀ path,
    (∀ root, Getwd W = Ok root →
             path ∉ [state (feedPaths root); entries (feedPaths root); feed (feedPaths root)]) →
    disk σ' !! path = disk σ !! path.
Proof.
  intros Hrun path Hp.
  destruct (Getwd W) as [root|e] eqn:Hwd.
  2:{ unfold RunFeedUpdate in Hrun. rewrite Hwd in Hrun. by injection Hrun as <- <-. }
  specialize (Hp root eq_refl). rewrite !elem_of_cons, elem_of_nil in Hp.
  rewrite (RunFeedUpdate_start W v root σ Hwd) in Hrun.
  destruct (pollAll_log W (feedProviders W v)
              (mkLoop (loadedEntries root σ) (loadedState root σ) false None) σ)
    as (rs & l' & σp & H1 & _ & H3 & _).
  unfold mbind at 1, IO_bind at 1 in Hrun. rewrite H1 in Hrun. rewrite <- H3.
  destruct (negb (updated l') && _).
  { by injection Hrun as <- <-. }
  destruct (negb (updated l')).
  { by injection Hrun as <- <-. }
  unfold mbind at 1, IO_bind at 1 in Hrun.
  destruct (writeJSON W (state (feedPaths root)) _ σp) as [[[]|c] σ1] eqn:E1.
  2:{ injection Hrun as <- <-. apply (writeJSON_frame _ _ _ _ _ E1). tauto. }
  apply writeJSON_frame in E1 as [_ E1]. rewrite <- E1 by tauto.
  unfold mbind at 1, IO_bind at 1 in Hrun.
  destruct (writeJSON W (entries (feedPaths root)) _ σ1) as [[[]|c] σ2] eqn:E2.
  2:{ injection Hrun as <- <-. apply (writeJSON_frame _ _ _ _ _ E2). tauto. }
  apply writeJSON_frame in E2 as [_ E2]. rewrite <- E2 by tauto.
  unfold mbind at 1, IO_bind at 1 in Hrun.
  destruct (buildFeed W _ _ _ σ2) as [[r|c] σ3] eqn:E3.
  2:{ injection Hrun as <- <-. apply (buildFeed_frame _ _ _ _ _ _ E3). tauto. }
  apply buildFeed_frame in E3 as [_ E3]. rewrite <- E3 by tauto.
  destruct r; by injection Hrun as <- <-.
Qed.

(** X10. However a run ends, by returning or by ending the process, the
    only files it can have changed are the state, the entry list and the
    document under the working directory: the site file, which it reads,
    and every other file are as they were. *)
Theorem run_keeps_to_its_files v root σ o σ' :
  Getwd W = Ok root →
  RunFeedUpdate W v σ = (o, σ') →
  disk σ' !! site (feedPaths root) = disk σ !! site (feedPaths root)
  ∧ ∀ path,
      path ∉ [state (feedPaths root); entries (feedPaths root); feed (feedPaths root)] →
      disk σ' !! path = disk σ !! path.
Proof.
  intros Hwd Hrun. split.
  - apply (run_frame v σ o σ' Hrun).
    intros root' Hwd'. rewrite Hwd in Hwd'. injection Hwd' as <-. apply site_apart.
  - intros path Hp. apply (run_frame v σ o σ' Hrun).
    intros root' Hwd'. rewrite Hwd in Hwd'. by injection Hwd' as <-.
Qed.

End run_facts.

(** ** Running again *)

Section rerun.
Import cmd.
Variable W : World.

Lemma poll_not_added provider entries state r :
  PollSpec W provider entries state r → added r = false → entriesOut r = entries.
Proof. by destruct 1. Qed.

Lemma poll_records provider entries state r item :
  PollSpec W provider entries state r →
  Fetch provider (fetchFeed W) = Ok item →
  strings.TrimSpace (feed.Title item) ≠ "" →
  basis item ≠ "" →
  identity (Name provider) item ∈ map Entry.ID (entriesOut r).
Proof.
  intros Hspec Hf Ht Hb.
  destruct Hspec as [e He|item' He Hblank|item' id σ σ' He _ Hid Hin
                           |item' id σ σ' text createdAt He _ Hid Hnin];
    rewrite Hf in He; simplify_eq; cbn [entriesOut].
  - rewrite (pickEntryID_basis W _ _ σ Hb) in Hid. by simplify_eq.
  - rewrite (pickEntryID_basis W _ _ σ Hb) in Hid. simplify_eq.
    rewrite map_app. apply elem_of_app. right. cbn. apply list_elem_of_singleton. done.
Qed.

Lemma poll_recorded provider entries state r :
  PollSpec W provider entries state r →
  datedOrLinked W [provider] → recorded W [provider] entries →
  added r = false.
Proof.
  intros Hspec Hb Hk.
  destruct Hspec as [e He|item' He Hblank|item' id σ σ' He _ Hid Hin
                           |item' id σ σ' text createdAt He Ht Hid Hnin]; try done.
  exfalso. apply Hnin.
  assert (provider ∈ [provider]) as Hp by (by apply list_elem_of_singleton).
  rewrite (pickEntryID_basis W _ _ σ (Hb _ _ Hp He Ht)) in Hid. simplify_eq.
  by apply Hk.
Qed.

Lemma recorded_cons p rest E :
  recorded W (p :: rest) E ↔ recorded W [p] E ∧ recorded W rest E.
Proof.
  unfold recorded. split.
  - intros H. split; intros q item Hq; apply H; [|by right].
    apply list_elem_of_singleton in Hq as ->. by left.
  - intros [H1 H2] q item [->|Hq]%elem_of_cons; [apply H1; by left|by apply H2].
Qed.

Lemma datedOrLinked_cons p rest :
  datedOrLinked W (p :: rest) ↔ datedOrLinked W [p] ∧ datedOrLinked W rest.
Proof.
  unfold datedOrLinked. split.
  - intros H. split; intros q item Hq; apply H; [|by right].
    apply list_elem_of_singleton in Hq as ->. by left.
  - intros [H1 H2] q item [->|Hq]%elem_of_cons; [apply H1; by left|by apply H2].
Qed.

Lemma recorded_mono providers E E' :
  E `prefix_of` E' → recorded W providers E → recorded W providers E'.
Proof.
  intros [k ->] H p item Hp Hf Ht. rewrite map_app. apply elem_of_app. left. by apply H.
Qed.

Lemma pollLog_step p rest E state σ rs σ' :
  pollLog W (p :: rest) E state σ = (Done rs, σ') →
  ∃ r σ1 rs', rs = r :: rs' ∧ PollSpec W p E state r
              ∧ pollLog W rest (entriesOut r) (stateOut r) σ1 = (Done rs', σ').
Proof.
  destruct (addLatestFromProvider_spec W p E state σ) as (r & σ0 & Hrun & Hspec).
  cbn [pollLog]. unfold mbind at 1, IO_bind at 1. rewrite Hrun.
  unfold mbind at 1, IO_bind at 1.
  destruct (match err r with Some e => Eprintln e | None => mret () end σ0)
    as [[[]|c] σ1] eqn:E1.
  2:{ destruct (err r); discriminate E1. }
  unfold mbind at 1, IO_bind at 1.
  destruct (pollLog W rest (entriesOut r) (stateOut r) σ1) as [[rs'|c] σ2] eqn:E2; [|done].
  intros [= <- <-]. eauto 10.
Qed.

(** After the polls every titled item is recorded. *)
Lemma polls_record providers E state σ rs σ' :
  datedOrLinked W providers →
  pollLog W providers E state σ = (Done rs, σ') →
  recorded W providers (finalEntries E rs) ∧ E `prefix_of` finalEntries E rs.
Proof.
  revert E state σ rs σ'. induction providers as [|p rest IH]; intros E state σ rs σ' Hb Hlog.
  { injection Hlog as <- <-. split; [by intros ? ? ?%elem_of_nil|done]. }
  apply datedOrLinked_cons in Hb as [Hbp Hbrest].
  apply pollLog_step in Hlog as (r & σ1 & rs' & -> & Hspec & Hrest).
  destruct (IH _ _ _ _ _ Hbrest Hrest) as [Hk Hpre].
  unfold finalEntries in *. cbn [fmap list_fmap]. rewrite final_cons.
  split.
  - apply recorded_cons. split; [|done].
    eapply recorded_mono; [exact Hpre|].
    intros q item ->%list_elem_of_singleton Hf Ht.
    eapply poll_records; [done..|]. eapply Hbp; [by left|done..].
  - etrans; [|exact Hpre]. by eapply poll_extends.
Qed.

(** Polling when everything is recorded adds nothing. *)
Lemma polls_quiet providers E state σ rs σ' :
  datedOrLinked W providers → recorded W providers E →
  pollLog W providers E state σ = (Done rs, σ') →
  existsb added rs = false.
Proof.
  revert E state σ rs σ'. induction providers as [|p rest IH]; intros E state σ rs σ' Hb Hk Hlog.
  { by injection Hlog as <- <-. }
  apply datedOrLinked_cons in Hb as [Hbp Hbrest].
  apply recorded_cons in Hk as [Hkp Hkrest].
  apply pollLog_step in Hlog as (r & σ1 & rs' & -> & Hspec & Hrest).
  pose proof (poll_recorded _ _ _ _ Hspec Hbp Hkp) as Ha.
  cbn [existsb]. rewrite Ha. cbn [orb].
  rewrite (poll_not_added _ _ _ _ Hspec Ha) in Hrest.
  by eapply IH.
Qed.

Lemma polls_none_added providers E state σ rs σ' :
  pollLog W providers E state σ = (Done rs, σ') →
  existsb added rs = false → finalEntries E rs = E.
Proof.
  revert E state σ rs σ'. induction providers as [|p rest IH]; intros E state σ rs σ' Hlog Hno.
  { by injection Hlog as <- <-. }
  apply pollLog_step in Hlog as (r & σ1 & rs' & -> & Hspec & Hrest).
  cbn [existsb] in Hno. apply orb_false_elim in Hno as [Ha Hno].
  unfold finalEntries in *. cbn [fmap list_fmap]. rewrite final_cons.
  rewrite (IH _ _ _ _ _ Hrest Hno). by eapply poll_not_added.
Qed.

(** The entry list on disk after a run that returns. *)
Lemma run_entries_file v root σ res σ1 rs σp :
  Getwd W = Ok root →
  pollLog W (feedProviders W v) (loadedEntries root σ) (loadedState root σ) σ = (Done rs, σp) →
  RunFeedUpdate W v σ = (Done res, σ1) →
  loadedEntries root σ1 = finalEntries (loadedEntries root σ) rs.
Proof.
  intros Hwd Hlog Hrun.
  destruct (existsb added rs) eqn:Hup.
  2:{ destruct (RunFeedUpdate_no_update W v root σ rs σp Hwd Hlog Hup) as (σ' & H & Hd).
      rewrite H in Hrun. injection Hrun as _ <-.
      rewrite (polls_none_added _ _ _ _ _ _ Hlog Hup).
      unfold loadedEntries. by rewrite Hd. }
  rewrite (RunFeedUpdate_start W v root σ Hwd) in Hrun.
  destruct (pollAll_log W (feedProviders W v)
              (mkLoop (loadedEntries root σ) (loadedState root σ) false None) σ)
    as (rs' & l' & σ' & H1 & H2 & H3 & H4 & H5 & H6 & H7 & H8 & H9).
  cbn [entriesNow stateNow updated firstErr] in *.
  rewrite Hlog in H2. injection H2 as <- <-.
  unfold mbind at 1, IO_bind at 1 in Hrun. rewrite H1, H7, Hup in Hrun.
  cbn [orb negb andb] in Hrun.
  destruct (paths_distinct root) as (Hse & Hsf & Hef).
  unfold loadedEntries at 1. rewrite <- H5.
  unfold writeJSON, buildFeed in Hrun.
  destruct (createErr W (state (feedPaths root))); [discriminate Hrun|].
  destruct (writeErr W (state (feedPaths root))); [discriminate Hrun|].
  destruct (createErr W (entries (feedPaths root))); [discriminate Hrun|].
  destruct (writeErr W (entries (feedPaths root))); [discriminate Hrun|].
  unfold mbind, IO_bind, mret, IO_ret, storeFile, Println in Hrun.
  destruct (createErr W (feed (feedPaths root))); [|destruct (writeErr W (feed (feedPaths root)))];
    injection Hrun as _ <-; cbn [disk];
    rewrite ?(lookup_insert_ne _ (feed (feedPaths root)) (entries (feedPaths root)))
      by (by intros ?);
    by rewrite lookup_insert_eq.
Qed.

(** X11. A run that follows a run that returned finds nothing new when
    the providers deliver what they delivered before and every titled
    item has a publish date or a link: it returns, changes no file, and
    when it returns no error it has printed that no update was detected.
    This holds whatever the first run returned, also after a first run
    that could not write the document. *)
Theorem second_run_changes_nothing v root σ res σ1 :
  Getwd W = Ok root →
  datedOrLinked W (feedProviders W v) →
  RunFeedUpdate W v σ = (Done res, σ1) →
  ∃ res2 σ2,
    RunFeedUpdate W v σ1 = (Done res2, σ2)
    ∧ disk σ2 = disk σ1
    ∧ (res2 = None → stdout σ2 = stdout σ1 ++ ["no update detected"]).
Proof.
  intros Hwd Hb Hrun.
  destruct (pollAll_log W (feedProviders W v)
              (mkLoop (loadedEntries root σ) (loadedState root σ) false None) σ)
    as (rs & _ & σp & _ & Hlog & _).
  cbn [entriesNow stateNow] in Hlog.
  pose proof (run_entries_file v root σ res σ1 rs σp Hwd Hlog Hrun) as Hfile.
  destruct (polls_record _ _ _ _ _ _ Hb Hlog) as [Hrec _]. rewrite <- Hfile in Hrec.
  destruct (pollAll_log W (feedProviders W v)
              (mkLoop (loadedEntries root σ1) (loadedState root σ1) false None) σ1)
    as (rs2 & l2 & σp2 & H1 & Hlog2 & H3 & H4 & H5 & H6 & H7 & H8 & H9).
  cbn [entriesNow stateNow updated firstErr] in *.
  pose proof (polls_quiet _ _ _ _ _ _ Hb Hrec Hlog2) as Hno.
  rewrite (RunFeedUpdate_start W v root σ1 Hwd).
  unfold mbind at 1, IO_bind at 1. rewrite H1, H7, Hno, H8. cbn [orb negb andb].
  destruct (head (omap err rs2)) as [e|] eqn:He.
  - rewrite bool_decide_eq_true_2 by eauto. eexists _, _. split; [reflexivity|].
    split; [done|]. intros [=].
  - rewrite bool_decide_eq_false_2 by (by intros [? ?]).
    eexists _, _. split; [reflexivity|]. cbn [disk stdout]. rewrite H4. done.
Qed.

End rerun.

Lemma persist_failure_exits_witness :
  (∀ e, cmd.createErr sample.readOnly (cmd.state (cmd.feedPaths "/srv/feed")) = Some e →
        ∃ σ', cmd.RunFeedUpdate sample.readOnly demo.vars (demo.boot ∅) = (cmd.Exit 1, σ')
              ∧ cmd.disk σ' = cmd.disk (demo.boot ∅)
              ∧ cmd.stderr σ' = cmd.stderr (sample.polls sample.readOnly).2 ++ [e]
              ∧ cmd.stdout σ' = cmd.stdout (demo.boot ∅))
  ∧ (∀ e, cmd.createErr sample.readOnly (cmd.state (cmd.feedPaths "/srv/feed")) = None →
          cmd.writeErr sample.readOnly (cmd.state (cmd.feedPaths "/srv/feed")) = None →
          cmd.createErr sample.readOnly (cmd.entries (cmd.feedPaths "/srv/feed")) = Some e →
          ∃ σ', cmd.RunFeedUpdate sample.readOnly demo.vars (demo.boot ∅) = (cmd.Exit 1, σ')
                ∧ cmd.disk σ'
                  = <[cmd.state (cmd.feedPaths "/srv/feed") :=
                        cmd.StateJSON (finalState (loadedState "/srv/feed" (demo.boot ∅))
                                         (sample.polls sample.readOnly).1)]>
                      (cmd.disk (demo.boot ∅))
                ∧ cmd.stderr σ' = cmd.stderr (sample.polls sample.readOnly).2 ++ [e]
                ∧ cmd.stdout σ' = cmd.stdout (demo.boot ∅)).
Proof.
  apply (persist_failure_exits sample.readOnly demo.vars "/srv/feed" (demo.boot ∅)
           (sample.polls sample.readOnly).1 (sample.polls sample.readOnly).2).
  - reflexivity.
  - vm_compute. reflexivity.
  - vm_compute. reflexivity.
Defined.

(** The run on the disk that cannot be written. *)
Example readOnly_run :
  ∃ σ', cmd.RunFeedUpdate sample.readOnly demo.vars (demo.boot ∅) = (cmd.Exit 1, σ')
        ∧ cmd.disk σ' = ∅
        ∧ cmd.stderr σ' = ["permission denied"]
        ∧ cmd.stdout σ' = [].
Proof. eexists. split_and!; vm_compute; reflexivity. Qed.

Lemma feed_failure_after_persisting_witness :
  ∃ σ', cmd.RunFeedUpdate sample.feedLocked demo.vars (demo.boot ∅)
        = (cmd.Done (Some "permission denied"), σ')
        ∧ cmd.disk σ'
          = <[cmd.entries (cmd.feedPaths "/srv/feed") :=
                cmd.EntriesJSON (finalEntries (loadedEntries "/srv/feed" (demo.boot ∅))
                                   (sample.polls sample.feedLocked).1)]>
              (<[cmd.state (cmd.feedPaths "/srv/feed") :=
                   cmd.StateJSON (finalState (loadedState "/srv/feed" (demo.boot ∅))
                                    (sample.polls sample.feedLocked).1)]>
                 (cmd.disk (demo.boot ∅)))
        ∧ cmd.disk σ' !! cmd.feed (cmd.feedPaths "/srv/feed")
          = cmd.disk (demo.boot ∅) !! cmd.feed (cmd.feedPaths "/srv/feed")
        ∧ cmd.stdout σ' = cmd.stdout (demo.boot ∅).
Proof.
  apply (feed_failure_after_persisting sample.feedLocked demo.vars "/srv/feed" (demo.boot ∅)
           (sample.polls sample.feedLocked).1 (sample.polls sample.feedLocked).2).
  - reflexivity.
  - vm_compute. reflexivity.
  - vm_compute. reflexivity.
  - intros path. rewrite !elem_of_cons, elem_of_nil.
    intros [->|[->|[]]]; split; reflexivity.
  - reflexivity.
Defined.

Lemma run_keeps_to_its_files_witness :
  cmd.disk sample.firstRun.2 !! cmd.site (cmd.feedPaths "/srv/feed")
  = cmd.disk (demo.boot ∅) !! cmd.site (cmd.feedPaths "/srv/feed")
  ∧ ∀ path,
      path ∉ [cmd.state (cmd.feedPaths "/srv/feed"); cmd.entries (cmd.feedPaths "/srv/feed");
              cmd.feed (cmd.feedPaths "/srv/feed")] →
      cmd.disk sample.firstRun.2 !! path = cmd.disk (demo.boot ∅) !! path.
Proof.
  apply (run_keeps_to_its_files demo.quiet demo.vars "/srv/feed" (demo.boot ∅)
           sample.firstRun.1 sample.firstRun.2).
  - reflexivity.
  - vm_compute. reflexivity.
Defined.

Lemma quiet_datedOrLinked :
  datedOrLinked demo.quiet (cmd.feedProviders demo.quiet demo.vars).
Proof.
  intros provider item Hin Hf Ht. unfold cmd.feedProviders in Hin.
  rewrite !elem_of_cons, elem_of_nil in Hin.
  destruct Hin as [->|[->|[->|[]]]]; vm_compute in Hf; injection Hf as <-;
    first [by (exfalso; apply Ht)|by vm_compute].
Qed.

Lemma second_run_changes_nothing_witness :
  ∃ res2 σ2,
    cmd.RunFeedUpdate demo.quiet demo.vars sample.firstRun.2 = (cmd.Done res2, σ2)
    ∧ cmd.disk σ2 = cmd.disk sample.firstRun.2
    ∧ (res2 = None → cmd.stdout σ2 = cmd.stdout sample.firstRun.2 ++ ["no update detected"]).
Proof.
  apply (second_run_changes_nothing demo.quiet demo.vars "/srv/feed" (demo.boot ∅) None
           sample.firstRun.2).
  - reflexivity.
  - exact quiet_datedOrLinked.
  - vm_compute. reflexivity.
Defined.

(** ** The document and the order of the entry list *)

Section order.
Context {A : Type} (less : A → A → bool).

(** Two sorted arrangements of the same elements are equal when no two
    different elements tie. *)
Lemma sorted_unique l1 l2 :
  StronglySorted (λ a b, less b a = false) l1 →
  StronglySorted (λ a b, less b a = false) l2 →
  l1 ≡ₚ l2 →
  (∀ a b, a ∈ l1 → b ∈ l1 → less a b = false → less b a = false → a = b) →
  l1 = l2.
Proof.
  revert l2. induction l1 as [|x l1 IH]; intros l2 H1 H2 Hp Htot.
  { by apply Permutation_nil_l in Hp. }
  destruct l2 as [|y l2]; [by apply Permutation_nil_r in Hp|].
  apply StronglySorted_cons in H1 as [Hx H1]. apply StronglySorted_cons in H2 as [Hy H2].
  rewrite Forall_forall in Hx, Hy.
  assert (x = y) as <-.
  { assert (y ∈ x :: l1) as [?|Hyin]%elem_of_cons by (rewrite Hp; by left); [done|].
    assert (x ∈ y :: l2) as [?|Hxin]%elem_of_cons by (rewrite <- Hp; by left); [done|].
    apply Htot; [by left|by right|by apply Hy|by apply Hx]. }
  f_equal. apply IH; [done|done|by apply Permutation_cons_inv in Hp|].
  intros a b Ha Hb. apply Htot; by right.
Qed.

End order.

(** X12. The document does not depend on the order of the entry list it
    is built from, as long as no two entries carry the same timestamp
    text: two lists with the same entries give the same channel, items
    and last build date. *)
Theorem feed_ignores_entry_order site es es' :
  es ≡ₚ es' →
  NoDup (cmd.Entry.CreatedAt <$> es) →
  cmd.buildRSS site es = cmd.buildRSS site es'.
Proof.
  intros Hp Hnd. unfold cmd.buildRSS. cbv zeta.
  assert (sort.Slice cmd.newerFirst es = sort.Slice cmd.newerFirst es') as ->; [|done].
  apply (sorted_unique cmd.newerFirst).
  - apply (Slice_sorted cmd.newerFirst newerFirst_asym newerFirst_negtrans).
  - apply (Slice_sorted cmd.newerFirst newerFirst_asym newerFirst_negtrans).
  - by rewrite !sorted_entries_perm.
  - intros a b Ha Hb Hab Hba. rewrite sorted_entries_perm in Ha, Hb.
    apply (NoDup_fmap_same cmd.Entry.CreatedAt es); [done..|].
    unfold cmd.newerFirst in *. by apply ltb_false_both.
Qed.

Lemma feed_ignores_entry_order_witness :
  cmd.buildRSS (cmd.Site.mk "t" "" "") [demo.january; demo.february; demo.march]
  = cmd.buildRSS (cmd.Site.mk "t" "" "") [demo.march; demo.january; demo.february].
Proof.
  apply feed_ignores_entry_order.
  - symmetry. apply (Permutation_cons_append [demo.january; demo.february] demo.march).
  - apply (bool_decide_unpack _). vm_compute. exact I.
Defined.

(** With a timestamp shared by two entries the order of the list shows in
    the document. *)
Example feed_order_of_ties :
  cmd.buildRSS (cmd.Site.mk "t" "" "") [demo.january; demo.januaryAgain]
  ≠ cmd.buildRSS (cmd.Site.mk "t" "" "") [demo.januaryAgain; demo.january].
Proof. vm_compute. discriminate. Qed.

(** ** Frames *)

Lemma Index_range s sub : -1 ≤ strings.Index s sub ≤ Z.of_nat (String.length s).
Proof.
  induction s as [|c s IH]; cbn [strings.Index String.length].
  - destruct (strings.HasPrefix "" sub); lia.
  - destruct (strings.HasPrefix (String c s) sub); [lia|].
    destruct (Z.ltb_spec (strings.Index s sub) 0); lia.
Qed.

Lemma substring_all s : String.substring 0 (String.length s) s = s.
Proof. induction s as [|d s IH]; [done|]. cbn [String.length String.substring]. by f_equal. Qed.

Lemma substring_split s n :
  (n ≤ String.length s)%nat →
  String.substring 0 n s +:+ String.substring n (String.length s - n) s = s.
Proof.
  revert n. induction s as [|c s IH]; intros [|n] Hn.
  - reflexivity.
  - cbn in Hn. lia.
  - rewrite Nat.sub_0_r, substring_all. by destruct s.
  - cbn [String.length String.substring Nat.sub].
    change (String c (String.substring 0 n s +:+ String.substring n (String.length s - n) s)
            = String c s).
    f_equal. apply IH. cbn in Hn. lia.
Qed.

(** [s[:n] + s[n:]] is [s]. *)
Lemma slice_split s n :
  0 ≤ n ≤ Z.of_nat (String.length s) → strings.sliceTo s n +:+ strings.sliceFrom s n = s.
Proof.
  intros H. unfold strings.sliceTo, strings.sliceFrom. apply substring_split. lia.
Qed.

Lemma substring_skip c s n m :
  String.substring (S n) m (String c s) = String.substring n m s.
Proof. done. Qed.

(** The text from the offset [Index] gives starts with what was sought. *)
Lemma Index_prefix s sub :
  0 ≤ strings.Index s sub →
  strings.HasPrefix (strings.sliceFrom s (strings.Index s sub)) sub = true.
Proof.
  unfold strings.sliceFrom.
  induction s as [|c s IH]; cbn [strings.Index].
  - destruct (strings.HasPrefix "" sub) eqn:E; [|lia]. intros _. by destruct sub.
  - destruct (strings.HasPrefix (String c s) sub) eqn:E.
    + intros _. change (Z.to_nat 0) with 0%nat. by rewrite Nat.sub_0_r, substring_all.
    + destruct (Z.ltb_spec (strings.Index s sub) 0); [lia|]. intros _.
      replace (Z.to_nat (strings.Index s sub + 1)) with (S (Z.to_nat (strings.Index s sub)))
        by lia.
      cbn [String.length Nat.sub]. rewrite substring_skip. by apply IH.
Qed.

Section frames.
Variable L : feed.Lib.

(** X13. [normalizeIframe] rewrites the opening tag only: for a value
    with a [>], whatever the two patterns match, the result ends with the
    text of the value from its first [>] on, byte for byte, and what
    precedes it is either the opening tag as it was or a text that ends
    with the two attributes of full width and automatic height. *)
Theorem normalizeIframe_keeps_rest v value :
  0 ≤ strings.Index value ">" →
  let rest := strings.sliceFrom value (strings.Index value ">") in
  strings.HasPrefix rest ">" = true
  ∧ value = strings.sliceTo value (strings.Index value ">") +:+ rest
  ∧ ∃ openTag,
      feed.normalizeIframe L v value = openTag +:+ rest
      ∧ (openTag = strings.sliceTo value (strings.Index value ">")
         ∨ ∃ t, openTag = t +:+ " width=" +:+ feed.dq +:+ "100%" +:+ feed.dq
                          +:+ " height=" +:+ feed.dq +:+ "auto" +:+ feed.dq).
Proof.
  intros Hi. cbv zeta.
  pose proof (Index_range value ">") as Hr.
  split_and!.
  - by apply Index_prefix.
  - symmetry. apply slice_split. lia.
  - unfold feed.normalizeIframe. cbv zeta.
    destruct (strings.isEmpty value) eqn:Ee.
    { apply isEmpty_true in Ee. subst value. cbn in Hi. lia. }
    destruct (Z.eqb_spec (strings.Index value ">") (-1)); [lia|].
    destruct (negb (strings.HasSuffix _ "<iframe") && negb (strings.Contains _ "<iframe")) eqn:Eg.
    + eexists. split; [|by left]. symmetry. apply slice_split. lia.
    + eexists. split; [reflexivity|]. right. by eexists.
Qed.

End frames.

Lemma normalizeIframe_keeps_rest_witness :
  let rest := strings.sliceFrom demo.iframeSample (strings.Index demo.iframeSample ">") in
  strings.HasPrefix rest ">" = true
  ∧ demo.iframeSample = strings.sliceTo demo.iframeSample (strings.Index demo.iframeSample ">") +:+ rest
  ∧ ∃ openTag,
      feed.normalizeIframe demo.lib demo.vars demo.iframeSample = openTag +:+ rest
      ∧ (openTag = strings.sliceTo demo.iframeSample (strings.Index demo.iframeSample ">")
         ∨ ∃ t, openTag = t +:+ " width=" +:+ feed.dq +:+ "100%" +:+ feed.dq
                          +:+ " height=" +:+ feed.dq +:+ "auto" +:+ feed.dq).
Proof.
  apply (normalizeIframe_keeps_rest demo.lib demo.vars demo.iframeSample).
  vm_compute. discriminate.
Defined.
